(** * steps-xcode-archive: retrying invocations, log diagnostics, Developer Portal bridge

    A shallow embedding of the text-scanning and retry logic of the step:

    - [step.runArchiveCommandWithRetry]   (archive, one cache-clearing retry)
    - [step.findXcodebuildErrors]         (error lines and NSErrors of a build log)
    - [main.findIDEDistrubutionLogsPath]  (xcdistributionlogs directory of an export log)
    - [spaceship.runSpaceshipCommand]     (the Ruby bridge with its three attempts)

    Go strings are byte sequences and are modelled by [string]; [int] values
    that occur here (loop counters, exit codes, durations) stay far from the
    machine bounds and are modelled by [Z].  Code that talks to the outside
    (processes, the file system, sleeping, logging) is written in a state
    monad over a world that scripts the answers of the outside and records
    what was done to it. *)

From Stdlib Require Import String Ascii List ZArith NArith Bool Lia.
From Stdlib Require Import DecimalString.
Import ListNotations.
Open Scope string_scope.

(* ================================================================== *)
(** * Part I: definitions *)
(* ================================================================== *)

Definition LF : ascii := "010"%char.
Definition CR : ascii := "013"%char.
Definition DQUOTE : ascii := "034"%char.

(** Go's [%d] verb. *)
Definition itoa (z : Z) : string := NilZero.string_of_int (Z.to_int z).

(** ** Package strings *)
Module strings.

Definition HasPrefix (s prefix : string) : bool := String.prefix prefix s.

Fixpoint Contains (s substr : string) : bool :=
  String.prefix substr s ||
  match s with
  | EmptyString => false
  | String _ s' => Contains s' substr
  end.

Fixpoint Join (elems : list string) (sep : string) : string :=
  match elems with
  | [] => ""
  | [e] => e
  | e :: rest => e ++ sep ++ Join rest sep
  end.

End strings.

(** ** Slices

  A Go slice is either [nil] or a backing sequence; [append] to [nil]
  allocates.  The distinction is kept because [findXcodebuildErrors]
  returns both. *)
Module slice.

Definition t (A : Type) : Type := option (list A).

Definition nil {A} : t A := None.

(** The literal [[]T{}]. *)
Definition empty {A} : t A := Some [].

Definition elems {A} (s : t A) : list A :=
  match s with None => [] | Some l => l end.

Definition len {A} (s : t A) : nat := length (elems s).

Definition append {A} (s : t A) (x : A) : t A := Some (elems s ++ [x])%list.

End slice.

(** ** Package bufio: a Scanner with the ScanLines split function

  [Scan] gives the tokens that successive calls of [scanner.Scan()] yield
  on a [strings.Reader], and the value of [scanner.Err()] afterwards.  A
  line is cut at LF; one trailing CR is dropped from each token; a last
  line without LF is a token when it is not empty.  The scanner's buffer
  holds [MaxScanTokenSize] bytes: when that many bytes of a line have been
  read and no LF is among them, scanning stops with [ErrTooLong]. *)
Module bufio.

Definition MaxScanTokenSize : N := 64 * 1024.

Inductive error := ErrTooLong.

(** The pieces between LFs (as [strings.Split] would give them). *)
Fixpoint pieces (s : string) : list string :=
  match s with
  | EmptyString => [""]
  | String c s' =>
      if Ascii.eqb c LF then "" :: pieces s'
      else match pieces s' with
           | l :: ls => String c l :: ls
           | [] => [String c ""]
           end
  end.

(** At the end of input a remaining piece is a line only if it has bytes. *)
Fixpoint rawLines' (ps : list string) : list string :=
  match ps with
  | [] => []
  | [p] => if String.eqb p "" then [] else [p]
  | p :: ps' => p :: rawLines' ps'
  end.

Definition rawLines (s : string) : list string := rawLines' (pieces s).

Fixpoint dropCR (data : string) : string :=
  match data with
  | EmptyString => ""
  | String c rest =>
      if Ascii.eqb c CR && String.eqb rest "" then ""
      else String c (dropCR rest)
  end.

Definition fits (line : string) : bool :=
  (N.of_nat (String.length line) <? MaxScanTokenSize)%N.

Fixpoint tokens (raw : list string) : list string * option error :=
  match raw with
  | [] => ([], None)
  | l :: raw' =>
      if fits l then
        let (ts, e) := tokens raw' in (dropCR l :: ts, e)
      else ([], Some ErrTooLong)
  end.

Definition Scan (input : string) : list string * option error :=
  tokens (rawLines input).

End bufio.

(** ** Package regexp

  The patterns of the step use literals, [.*], [.+?], capturing groups,
  one alternation and, under [(?m)], the line anchors.  [exec] is a
  backtracking matcher in continuation-passing style; it explores the
  alternatives in the order that defines Go's leftmost-first match (first
  alternative first, greedy longest first, lazy shortest first).  [.]
  excludes LF only.  Matching is on bytes: every literal of the patterns is
  ASCII, so the byte-wise and the rune-wise reading of [.] agree on where
  they find those literals. *)
Module regexp.

Inductive Regexp :=
| Literal (s : string)
| AnyStar                       (* .*   *)
| AnyPlusLazy                   (* .+?  *)
| Capture (index : nat) (sub : Regexp)
| Concat (r1 r2 : Regexp)
| Alternate (r1 r2 : Regexp)
| BeginLine                     (* ^ under (?m) *)
| EndLine.                      (* $ under (?m) *)

Fixpoint NumSubexp (r : Regexp) : nat :=
  match r with
  | Capture _ sub => S (NumSubexp sub)
  | Concat r1 r2 | Alternate r1 r2 => NumSubexp r1 + NumSubexp r2
  | _ => 0
  end.

Definition Captures := list (nat * string).

Fixpoint lookup (i : nat) (caps : Captures) : string :=
  match caps with
  | [] => ""
  | (j, s) :: rest => if Nat.eqb i j then s else lookup i rest
  end.

(** What lies between position [from] and the later position [to]. *)
Definition consumed (from to : string) : string :=
  String.substring 0 (String.length from - String.length to) from.

Fixpoint skip (lit s : string) : string :=
  match lit, s with
  | String _ lit', String _ s' => skip lit' s'
  | _, _ => s
  end.

Fixpoint lastOf (lit : string) (prev : option ascii) : option ascii :=
  match lit with
  | EmptyString => prev
  | String c lit' => lastOf lit' (Some c)
  end.

Section Exec.
Context {A : Type}.

(** A continuation gets the byte before the position, the rest of the
    input and the captures so far. *)
Definition Cont := option ascii -> string -> Captures -> option A.

Fixpoint anyStar (prev : option ascii) (s : string) (caps : Captures) (k : Cont)
  : option A :=
  match s with
  | String c s' =>
      if Ascii.eqb c LF then k prev s caps
      else match anyStar (Some c) s' caps k with
           | Some a => Some a
           | None => k prev s caps
           end
  | EmptyString => k prev s caps
  end.

Fixpoint anyStarLazy (prev : option ascii) (s : string) (caps : Captures) (k : Cont)
  : option A :=
  match k prev s caps with
  | Some a => Some a
  | None =>
      match s with
      | String c s' =>
          if Ascii.eqb c LF then None else anyStarLazy (Some c) s' caps k
      | EmptyString => None
      end
  end.

Definition anyPlusLazy (prev : option ascii) (s : string) (caps : Captures) (k : Cont)
  : option A :=
  match s with
  | String c s' =>
      if Ascii.eqb c LF then None else anyStarLazy (Some c) s' caps k
  | EmptyString => None
  end.

Fixpoint exec (r : Regexp) (prev : option ascii) (s : string) (caps : Captures)
  (k : Cont) : option A :=
  match r with
  | Literal lit =>
      if String.prefix lit s then k (lastOf lit prev) (skip lit s) caps else None
  | AnyStar => anyStar prev s caps k
  | AnyPlusLazy => anyPlusLazy prev s caps k
  | Capture i sub =>
      exec sub prev s caps (fun p s' c => k p s' ((i, consumed s s') :: c))
  | Concat r1 r2 =>
      exec r1 prev s caps (fun p s' c => exec r2 p s' c k)
  | Alternate r1 r2 =>
      match exec r1 prev s caps k with
      | Some a => Some a
      | None => exec r2 prev s caps k
      end
  | BeginLine =>
      match prev with
      | None => k prev s caps
      | Some c => if Ascii.eqb c LF then k prev s caps else None
      end
  | EndLine =>
      match s with
      | EmptyString => k prev s caps
      | String c _ => if Ascii.eqb c LF then k prev s caps else None
      end
  end.
End Exec.

(** The leftmost match: the first start position at which [exec] succeeds. *)
Fixpoint find (r : Regexp) (prev : option ascii) (s : string)
  : option (string * Captures) :=
  match exec r prev s [] (fun _ s' caps => Some (consumed s s', caps)) with
  | Some m => Some m
  | None =>
      match s with
      | String c s' => find r (Some c) s'
      | EmptyString => None
      end
  end.

(** [nil] (here [[]]) when there is no match, else the match and every
    group, an unmatched group being the empty string. *)
Definition FindStringSubmatch (r : Regexp) (s : string) : list string :=
  match find r None s with
  | None => []
  | Some (m, caps) => m :: map (fun i => lookup i caps) (seq 1 (NumSubexp r))
  end.

Definition FindString (r : Regexp) (s : string) : string :=
  match find r None s with
  | None => ""
  | Some (m, _) => m
  end.

End regexp.


(** ** Package encoding/base64, StdEncoding (RFC 4648 alphabet, padded) *)
Module base64.

Definition encodeStd : string :=
  "ABCDEFGHIJKLMNOPQRSTUVWXYZabcdefghijklmnopqrstuvwxyz0123456789+/".

Definition padChar : ascii := "="%char.

Definition code (val : N) (shift : N) : ascii :=
  match String.get (N.to_nat (N.land (N.shiftr val shift) 63)) encodeStd with
  | Some c => c
  | None => padChar
  end.

Definition byte (c : ascii) : N := N_of_ascii c.

Fixpoint EncodeToString (src : string) : string :=
  match src with
  | String a (String b (String c rest)) =>
      let val := N.lor (N.lor (N.shiftl (byte a) 16) (N.shiftl (byte b) 8)) (byte c) in
      String (code val 18) (String (code val 12) (String (code val 6) (String (code val 0)
        (EncodeToString rest))))
  | String a (String b EmptyString) =>
      let val := N.lor (N.shiftl (byte a) 16) (N.shiftl (byte b) 8) in
      String (code val 18) (String (code val 12) (String (code val 6) (String padChar "")))
  | String a EmptyString =>
      let val := N.shiftl (byte a) 16 in
      String (code val 18) (String (code val 12) (String padChar (String padChar "")))
  | EmptyString => ""
  end.

End base64.

(** ** Code that acts on the outside: a state monad over a world *)
Module state.

Definition M (W A : Type) : Type := W -> A * W.

Definition ret {W A} (a : A) : M W A := fun w => (a, w).

Definition bind {W A B} (m : M W A) (f : A -> M W B) : M W B :=
  fun w => let (a, w') := m w in f a w'.

End state.

Declare Scope go_scope.
Delimit Scope go_scope with go.
Notation "x <- m ;; k" := (state.bind m (fun x => k))
  (at level 61, m at next level, right associativity) : go_scope.
Notation "' p <- m ;; k" := (state.bind m (fun x => let 'p := x in k))
  (at level 61, p pattern, m at next level, right associativity) : go_scope.
Notation "m ;; k" := (state.bind m (fun _ => k))
  (at level 61, right associativity) : go_scope.

(** ** Package step: the archive command and the errors of its log *)
Module step.
Import state.
Local Open Scope go_scope.

(** *** errors.go: NSError and findXcodebuildErrors *)

Record NSError := { Description : string; Suggestion : string }.

(** [NSLocalizedDescription=(.+?),|NSLocalizedDescription=(.+?)}] *)
Definition descriptionPattern : regexp.Regexp :=
  regexp.Alternate
    (regexp.Concat (regexp.Literal "NSLocalizedDescription=")
       (regexp.Concat (regexp.Capture 1 regexp.AnyPlusLazy) (regexp.Literal ",")))
    (regexp.Concat (regexp.Literal "NSLocalizedDescription=")
       (regexp.Concat (regexp.Capture 2 regexp.AnyPlusLazy) (regexp.Literal "}"))).

(** [NSLocalizedRecoverySuggestion=(.+?),|NSLocalizedRecoverySuggestion=(.+?)}] *)
Definition suggestionPattern : regexp.Regexp :=
  regexp.Alternate
    (regexp.Concat (regexp.Literal "NSLocalizedRecoverySuggestion=")
       (regexp.Concat (regexp.Capture 1 regexp.AnyPlusLazy) (regexp.Literal ",")))
    (regexp.Concat (regexp.Literal "NSLocalizedRecoverySuggestion=")
       (regexp.Concat (regexp.Capture 2 regexp.AnyPlusLazy) (regexp.Literal "}"))).

Definition isNSError (str : string) : bool :=
  strings.Contains str "Error " &&
  strings.Contains str "Domain=" &&
  strings.Contains str "Code=" &&
  strings.Contains str "UserInfo=".

Fixpoint firstNonEmpty (matches : list string) : string :=
  match matches with
  | [] => ""
  | m :: rest => if String.eqb m "" then firstNonEmpty rest else m
  end.

Definition findFirstSubMatch (str : string) (pattern : regexp.Regexp) : string :=
  let matches := regexp.FindStringSubmatch pattern str in
  if (1 <? length matches)%nat then firstNonEmpty (tl matches) else "".

(** A [nil] pointer is [None]. *)
Definition NewNSError (str : string) : option NSError :=
  if negb (isNSError str) then None
  else
    let description := findFirstSubMatch str descriptionPattern in
    if String.eqb description "" then None
    else
      let suggestion := findFirstSubMatch str suggestionPattern in
      Some {| Description := description; Suggestion := suggestion |}.

Definition NSError_Error (e : NSError) : string :=
  let msg := Description e in
  if negb (String.eqb (Suggestion e) "") then msg ++ " " ++ Suggestion e else msg.

(** The body of the scanning loop, on the two slices it appends to. *)
Definition scanLine (acc : slice.t string * slice.t NSError) (line : string)
  : slice.t string * slice.t NSError :=
  let (errorLines, nserrors) := acc in
  if strings.HasPrefix line "error: " then (slice.append errorLines line, nserrors)
  else if strings.HasPrefix line "Error " then
    match NewNSError line with
    | Some e => (errorLines, slice.append nserrors e)
    | None => (errorLines, nserrors)
    end
  else (errorLines, nserrors).

Definition findXcodebuildErrors (out : string) : slice.t string :=
  let (lines, err) := bufio.Scan out in
  let (errorLines, nserrors) := fold_left scanLine lines (slice.nil, slice.nil) in
  match err with
  | Some _ => slice.nil
  | None =>
      if (slice.len nserrors =? slice.len errorLines)%nat then
        fold_left (fun errorLines nserror => slice.append errorLines (NSError_Error nserror))
          (slice.elems nserrors) slice.empty
      else errorLines
  end.

(** *** archive.go: runArchiveCommandWithRetry *)

(** Error values: those the outside hands over (a failed command, a failed
    removal), known by their [Error()] text, and those [fmt.Errorf] makes. *)
Inductive error :=
| foreign (msg : string)
| errorString (msg : string).

Definition Error (e : error) : string :=
  match e with foreign msg | errorString msg => msg end.

Definition Errorf (msg : string) : error := errorString msg.

(** What the step sees of an [xcodebuild.CommandBuilder]: its printable form
    and that of the xcpretty command wrapped around it. *)
Record CommandBuilder := {
  PrintableCmd : string;
  xcprettyPrintableCmd : string
}.

Inductive Event :=
| Logged (format : string) (args : list string)  (* logger.TDonef, logger.Warnf *)
| Println
| Ran (throughXcpretty : bool)                   (* one execution of the archive command *)
| RemovedAll (path : string).                    (* one call of os.RemoveAll *)

(** The outside: what the [n]-th execution of the command gives (combined
    output and error), whether removing a path fails, and the record of what
    has been done so far. *)
Record World := {
  execution : nat -> bool -> string * option error;
  removal : string -> option error;
  executions : nat;
  trace : list Event
}.

Definition emit (e : Event) : M World unit :=
  fun w => (tt, {| execution := execution w; removal := removal w;
                   executions := executions w; trace := (trace w ++ [e])%list |}).

Definition run (throughXcpretty : bool) : M World (string * option error) :=
  fun w => (execution w (executions w) throughXcpretty,
            {| execution := execution w; removal := removal w;
               executions := S (executions w);
               trace := (trace w ++ [Ran throughXcpretty])%list |}).

Definition os_RemoveAll (path : string) : M World (option error) :=
  fun w => (removal w path,
            {| execution := execution w; removal := removal w;
               executions := executions w;
               trace := (trace w ++ [RemovedAll path])%list |}).

(** [progress.SimpleProgress] only prints dots while the command runs; it
    is left out. *)
Definition runArchiveCommand (archiveCmd : CommandBuilder) (useXcpretty : bool)
  : M World (string * option error) :=
  if useXcpretty then
    emit (Logged "$ %s" [xcprettyPrintableCmd archiveCmd]) ;;
    emit Println ;;
    run true
  else
    emit (Logged "$ %s" [PrintableCmd archiveCmd]) ;;
    emit Println ;;
    run false.

Definition isNil (err : option error) : bool :=
  match err with None => true | Some _ => false end.

Definition errText (err : option error) : string :=
  match err with Some e => Error e | None => "%!s(<nil>)" end.

Section Archive.

(** [cache.SwiftPackagesStateInvalid], a constant of go-xcode. *)
Variable SwiftPackagesStateInvalid : string.

Definition runArchiveCommandWithRetry (archiveCmd : CommandBuilder) (useXcpretty : bool)
  (swiftPackagesPath : string) : M World (string * option error) :=
  '(output, err) <- runArchiveCommand archiveCmd useXcpretty ;;
  if negb (isNil err) && negb (String.eqb swiftPackagesPath "")
     && strings.Contains output SwiftPackagesStateInvalid
  then
    emit (Logged "Archive failed, swift packages cache is in an invalid state, error: %s"
            [errText err]) ;;
    rmErr <- os_RemoveAll swiftPackagesPath ;;
    match rmErr with
    | Some e =>
        ret (output,
             Some (Errorf ("failed to remove invalid Swift package caches, error: " ++ Error e)))
    | None => runArchiveCommand archiveCmd useXcpretty
    end
  else ret (output, err).

End Archive.

End step.

(** ** Package main: the xcdistributionlogs directory *)
Module main.

(** The marker phrase [IDEDistribution: -[IDEDistributionLogging
    _createLoggingBundleAtPath:]: Created bundle at path], then a single
    quote, the group [log_path] (any bytes, greedy) and a single quote. *)
Definition pattern : regexp.Regexp :=
  regexp.Concat
    (regexp.Literal
       "IDEDistribution: -[IDEDistributionLogging _createLoggingBundleAtPath:]: Created bundle at path '")
    (regexp.Concat (regexp.Capture 1 regexp.AnyStar) (regexp.Literal "'")).

(** The scanning loop: it returns from the first line whose match has two
    entries; [None] when it runs to the end of the tokens. *)
Fixpoint firstMatch (lines : list string) : option string :=
  match lines with
  | [] => None
  | line :: rest =>
      let match_ := regexp.FindStringSubmatch pattern line in
      if (length match_ =? 2)%nat then Some (nth 1 match_ "") else firstMatch rest
  end.

Definition findIDEDistrubutionLogsPath (output : string) : string * option bufio.error :=
  let (lines, err) := bufio.Scan output in
  match firstMatch lines with
  | Some path => (path, None)
  | None =>
      match err with
      | Some e => ("", Some e)
      | None => ("", None)
      end
  end.

End main.

(** ** Package spaceship: the bridge to the Ruby client *)
Module spaceship.
Import state.
Local Open Scope go_scope.

(** The fields of [appleauth.AppleID] that the bridge reads. *)
Record AppleID := {
  Username : string;
  Password : string;
  Session : string
}.

Record Client := {
  workDir : string;
  authConfig : AppleID;
  teamID : string
}.

(** What [cmdFactory.CreateBundleExec] was asked for. *)
Record Command := {
  name : string;
  args : list string;
  bundlerVersion : string;
  Dir : string
}.

Record spaceshipCommand := {
  command : Command;
  printableCommandArgs : string
}.

(** Errors the bridge returns. *)
Inductive error :=
| errorString (msg : string)                   (* fmt.Errorf, errors.New *)
| ProfilesInconsistentError (wrapErr : error). (* autocodesign.NewProfilesInconsistentError *)

Definition Errorf (msg : string) : error := errorString msg.

(** How running the process can fail: [*exec.ExitError] with the exit code
    of its [ProcessState], or anything else (the process did not start). *)
Inductive runError :=
| ExitError (exitCode : Z)
| startError.

Inductive Event :=
| Debugf (format : string) (args : list string)
| Warnf (format : string) (args : list string)
| Started (cmd : Command)    (* one external process *)
| Slept (d : Z).             (* time.Sleep, a Duration in nanoseconds *)

Definition Second : Z := 1000000000.

(** The outside: the trimmed combined output and the error of the [n]-th
    process, and the record of what has been done. *)
Record World := {
  process : nat -> Command -> string * option runError;
  started : nat;
  trace : list Event
}.

Definition emit (e : Event) : M World unit :=
  fun w => (tt, {| process := process w; started := started w;
                   trace := (trace w ++ [e])%list |}).

Definition RunAndReturnTrimmedCombinedOutput (cmd : Command)
  : M World (string * option runError) :=
  fun w => (process w (started w) cmd,
            {| process := process w; started := S (started w);
               trace := (trace w ++ [Started cmd])%list |}).

Definition createSpaceshipCommand (c : Client) (subCommand : string) (opts : list string)
  : spaceshipCommand * option error :=
  let authParams :=
    ["--username"; Username (authConfig c);
     "--password"; Password (authConfig c);
     "--session"; base64.EncodeToString (Session (authConfig c));
     "--team-id"; teamID c] in
  let s := ["main.rb"; "--subcommand"; subCommand] in
  let s := (s ++ opts)%list in
  let printableCommand := strings.Join s " " in
  let s := (s ++ authParams)%list in
  let cmd := {| name := "ruby"; args := s; bundlerVersion := ""; Dir := workDir c |} in
  ({| command := cmd; printableCommandArgs := printableCommand |}, None).

Definition shouldRetrySpaceshipCommand (out : string) : bool :=
  if String.eqb out "" then false
  else strings.Contains out "503 Service Temporarily Unavailable".

(** [(?m)^\{.*\}$] *)
Definition jsonRegexp : regexp.Regexp :=
  regexp.Concat regexp.BeginLine
    (regexp.Concat (regexp.Literal "{")
       (regexp.Concat regexp.AnyStar
          (regexp.Concat (regexp.Literal "}") regexp.EndLine))).

(** The anonymous struct the response is decoded into. *)
Record response := {
  Error : string;        (* json: error *)
  ShouldRetry : bool     (* json: retry *)
}.

Section Bridge.

(** [json.Unmarshal] into a [response]: the decoded value, or the text of
    the decoding error. *)
Variable json_Unmarshal : string -> response + string.

(** What [runSpaceshipCommandOnce] does with the output of a process that
    exited with status 0. *)
Definition readResponse (output : string) : string * option error :=
  let match_ := regexp.FindString jsonRegexp output in
  if String.eqb match_ "" then
    ("", Some (Errorf ("output does not contain response: " ++ output)))
  else
    match json_Unmarshal match_ with
    | inr err =>
        ("", Some (Errorf ("failed to unmarshal response: " ++ err ++ " (" ++ match_ ++ ")")))
    | inl response =>
        if ShouldRetry response then
          ("", Some (ProfilesInconsistentError (errorString (Error response))))
        else if negb (String.eqb (Error response) "") then
          ("", Some (Errorf ("failed to query Developer Portal: " ++ Error response)))
        else (match_, None)
    end.

Definition runSpaceshipCommandOnce (cmd : spaceshipCommand) : M World (string * option error) :=
  '(output, err) <- RunAndReturnTrimmedCombinedOutput (command cmd) ;;
  match err with
  | Some (ExitError exitCode) =>
      ret (output,
           Some (Errorf ("spaceship command exited with status " ++ itoa exitCode
                         ++ ", output: " ++ output)))
  | Some startError =>
      ret (output, Some (Errorf ("spaceship command failed with output: " ++ output)))
  | None => ret (readResponse output)
  end.

(** The body of [for i := 1; i <= 3; i++], over the values [i] still to
    come; [spaceshipOut] and [spaceshipErr] are the variables declared
    before the loop and returned after it. *)
Fixpoint attempts (c : Client) (subCommand : string) (opts : list string)
  (indices : list Z) (spaceshipOut : string) (spaceshipErr : option error)
  : M World (string * option error) :=
  match indices with
  | [] => ret (spaceshipOut, spaceshipErr)
  | i :: rest =>
      let (cmd, err) := createSpaceshipCommand c subCommand opts in
      match err with
      | Some e => ret ("", Some e)
      | None =>
          emit (Debugf "$ %s" [printableCommandArgs cmd]) ;;
          '(spaceshipOut, spaceshipErr) <- runSpaceshipCommandOnce cmd ;;
          match spaceshipErr with
          | None => ret (spaceshipOut, None)
          | Some e =>
              if shouldRetrySpaceshipCommand spaceshipOut then
                emit (Debugf spaceshipOut []) ;;
                emit (Warnf
                  "spaceship command failed with a retryable error, retrying (%d. attempt)..."
                  [itoa i]) ;;
                let waitTimeSec := (i * 15)%Z in
                emit (Slept (waitTimeSec * Second)) ;;
                attempts c subCommand opts rest spaceshipOut spaceshipErr
              else ret ("", Some e)
          end
      end
  end.

Definition runSpaceshipCommand (c : Client) (subCommand : string) (opts : list string)
  : M World (string * option error) :=
  attempts c subCommand opts [1; 2; 3]%Z "" None.

End Bridge.

(** *** A decoder for the flat responses of the Ruby side

    [decodeResponse] reads an object whose members are [error] with a
    string and [retry] with [true] or [false], written without blanks, the
    strings in printable ASCII without escapes.  On these texts it gives what
    [json.Unmarshal] gives; every other text is refused. *)

Definition plainByte (c : ascii) : bool :=
  let n := N_of_ascii c in
  ((32 <=? n) && (n <=? 126) && negb (n =? 34) && negb (n =? 92))%N.

(** The bytes up to the closing quote, and what follows it. *)
Fixpoint readString (s : string) : option (string * string) :=
  match s with
  | EmptyString => None
  | String c s' =>
      if Ascii.eqb c DQUOTE then Some ("", s')
      else if plainByte c then
        match readString s' with
        | Some (v, rest) => Some (String c v, rest)
        | None => None
        end
      else None
  end.

Definition readMember (s : string) (r : response) : option (response * string) :=
  match s with
  | String q s1 =>
      if Ascii.eqb q DQUOTE then
        match readString s1 with
        | Some (key, String colon s2) =>
            if negb (Ascii.eqb colon ":") then None
            else if String.eqb key "error" then
              match s2 with
              | String q' s3 =>
                  if Ascii.eqb q' DQUOTE then
                    match readString s3 with
                    | Some (v, rest) => Some ({| Error := v; ShouldRetry := ShouldRetry r |}, rest)
                    | None => None
                    end
                  else None
              | EmptyString => None
              end
            else if String.eqb key "retry" then
              if String.prefix "true" s2 then
                Some ({| Error := Error r; ShouldRetry := true |}, regexp.skip "true" s2)
              else if String.prefix "false" s2 then
                Some ({| Error := Error r; ShouldRetry := false |}, regexp.skip "false" s2)
              else None
            else None
        | _ => None
        end
      else None
  | EmptyString => None
  end.

Fixpoint readMembers (fuel : nat) (s : string) (r : response) : option response :=
  match fuel with
  | O => None
  | S fuel' =>
      match readMember s r with
      | Some (r', String sep rest) =>
          if Ascii.eqb sep "," then readMembers fuel' rest r'
          else if Ascii.eqb sep "}" && String.eqb rest "" then Some r'
          else None
      | _ => None
      end
  end.

Definition decodeResponse (data : string) : response + string :=
  let zero := {| Error := ""; ShouldRetry := false |} in
  match data with
  | String open rest =>
      if Ascii.eqb open "{" then
        if String.eqb rest "}" then inl zero
        else match readMembers (String.length rest) rest zero with
             | Some r => inl r
             | None => inr "unsupported response text"
             end
      else inr "unsupported response text"
  | EmptyString => inr "unexpected end of JSON input"
  end.

End spaceship.

(** ** Notions the statements are phrased in *)

(** Every line of a text, cut at LF with one trailing CR dropped, whatever
    its length. *)
Definition textLines (text : string) : list string :=
  map bufio.dropCR (bufio.rawLines text).

(** The scanner reads the text to its end. *)
Definition scanSucceeds (text : string) : Prop := snd (bufio.Scan text) = None.

(** The plain-error lines: those that start with the compiler marker. *)
Definition plainErrors (lines : list string) : list string :=
  filter (fun line => strings.HasPrefix line "error: ") lines.

(** The structured records: one for each line that starts with the NSError
    marker and from which a record can be extracted. *)
Definition structuredErrors (lines : list string) : list step.NSError :=
  flat_map (fun line =>
              if strings.HasPrefix line "Error " then
                match step.NewNSError line with Some e => [e] | None => [] end
              else []) lines.

(** A record as the specification renders it: the description alone when
    there is no suggestion, else description, a space, the suggestion. *)
Definition render (e : step.NSError) : string :=
  match step.Suggestion e with
  | EmptyString => step.Description e
  | suggestion => step.Description e ++ " " ++ suggestion
  end.

(** The path a line gives when it matches the log pattern. *)
Definition logPath (line : string) : option string :=
  match regexp.find main.pattern None line with
  | Some (_, caps) => Some (regexp.lookup 1 caps)
  | None => None
  end.

(** What the archive step did to the outside, the log lines left out. *)
Definition isEffect (e : step.Event) : bool :=
  match e with
  | step.Ran _ | step.RemovedAll _ => true
  | _ => false
  end.

Definition effects (w : step.World) : list step.Event := filter isEffect (step.trace w).

(** Processes and sleeps of the bridge, the log lines left out. *)
Definition isAction (e : spaceship.Event) : bool :=
  match e with
  | spaceship.Started _ | spaceship.Slept _ => true
  | _ => false
  end.

Definition timeline (w : spaceship.World) : list spaceship.Event :=
  filter isAction (spaceship.trace w).

Definition isStarted (e : spaceship.Event) : bool :=
  match e with spaceship.Started _ => true | _ => false end.

(** [n] attempts with the backoff between them: attempt [i+1] comes after
    a sleep of [i * 15] seconds that follows attempt [i]. *)
Fixpoint schedule (cmd : spaceship.Command) (n : nat) : list spaceship.Event :=
  match n with
  | O => []
  | 1%nat => [spaceship.Started cmd]
  | S m =>
      (schedule cmd m
         ++ [spaceship.Slept (Z.of_nat m * 15 * spaceship.Second); spaceship.Started cmd])%list
  end.

(** The world after [n] more processes and the given events. *)
Definition after (w : spaceship.World) (n : nat) (events : list spaceship.Event)
  : spaceship.World :=
  {| spaceship.process := spaceship.process w;
     spaceship.started := n + spaceship.started w;
     spaceship.trace := (spaceship.trace w ++ events)%list |}.

(** What one attempt of index [i] adds to the record when it is given up
    for a retry, after the process itself. *)
Definition backoff (out : string) (i : Z) : list spaceship.Event :=
  [spaceship.Debugf out [];
   spaceship.Warnf
     "spaceship command failed with a retryable error, retrying (%d. attempt)..." [itoa i];
   spaceship.Slept (i * 15 * spaceship.Second)].

(** ** Base 64 as RFC 4648 words it *)
Module rfc4648.

(** The value of a character in the table of the base 64 alphabet. *)
Definition value (c : ascii) : option N :=
  let n := N_of_ascii c in
  if ((65 <=? n) && (n <=? 90))%N then Some (n - 65)%N            (* A to Z: 0 to 25 *)
  else if ((97 <=? n) && (n <=? 122))%N then Some (n - 97 + 26)%N  (* a to z: 26 to 51 *)
  else if ((48 <=? n) && (n <=? 57))%N then Some (n - 48 + 52)%N   (* 0 to 9: 52 to 61 *)
  else if (n =? 43)%N then Some 62%N                               (* + *)
  else if (n =? 47)%N then Some 63%N                               (* / *)
  else None.

Definition isPad (c : ascii) : bool := Ascii.eqb c "="%char.

Definition octet (n : N) : ascii := ascii_of_N (n mod 256).

(** The 6-bit groups [digits], first the most significant, as one number. *)
Definition concat6 (digits : list N) : N := fold_left (fun v d => v * 64 + d)%N digits 0%N.

Definition values (cs : list ascii) : option (list N) :=
  fold_right (fun c rest =>
                match value c, rest with
                | Some v, Some vs => Some (v :: vs)
                | _, _ => None
                end) (Some []) cs.

(** The text is read four characters at a time.  Four characters of the
    alphabet stand for 24 bits, three octets.  At the end of the text, two
    characters and two pads stand for one octet, the first 8 of their 12
    bits, and three characters and one pad stand for two octets, the first
    16 of their 18 bits. *)
Fixpoint decode (text : string) : option string :=
  match text with
  | EmptyString => Some ""
  | String c1 (String c2 (String c3 (String c4 rest))) =>
      if isPad c3 && isPad c4 && String.eqb rest "" then
        match values [c1; c2] with
        | Some digits => Some (String (octet (concat6 digits / 16)) "")
        | None => None
        end
      else if isPad c4 && String.eqb rest "" then
        match values [c1; c2; c3] with
        | Some digits =>
            let v := concat6 digits in
            Some (String (octet (v / 1024)) (String (octet (v / 4)) ""))
        | None => None
        end
      else
        match values [c1; c2; c3; c4], decode rest with
        | Some digits, Some octets =>
            let v := concat6 digits in
            Some (String (octet (v / 65536)) (String (octet (v / 256)) (String (octet v) octets)))
        | _, _ => None
        end
  | _ => None
  end.

End rfc4648.

(** Attempt [k + 1] of a call that starts in [w] is given up for a retry:
    its process fails and leaves an output that holds the 503 marker. *)
Definition givenUp (w : spaceship.World) (cmd : spaceship.Command) (k : nat) : bool :=
  match spaceship.process w (k + spaceship.started w)%nat cmd with
  | (out, Some _) => spaceship.shouldRetrySpaceshipCommand out
  | (_, None) => false
  end.

(** The attempts of a call that starts in [w]: one, and one more after each
    attempt given up, three at most. *)
Definition attemptsMade (w : spaceship.World) (cmd : spaceship.Command) : nat :=
  if givenUp w cmd 0 then if givenUp w cmd 1 then 3 else 2 else 1.

(** The bytes of a text up to its first LF, and the text from that LF on. *)
Fixpoint firstLine (s : string) : string :=
  match s with
  | EmptyString => ""
  | String c s' => if Ascii.eqb c LF then "" else String c (firstLine s')
  end.

Fixpoint restOfLine (s : string) : string :=
  match s with
  | EmptyString => ""
  | String c s' => if Ascii.eqb c LF then s else restOfLine s'
  end.

Fixpoint endsWithBrace (s : string) : bool :=
  match s with
  | EmptyString => false
  | String c EmptyString => Ascii.eqb c "}"
  | String _ s' => endsWithBrace s'
  end.

(** A line of the shape of a JSON object: an opening brace first and a
    closing brace, another byte, last. *)
Definition objectLine (line : string) : bool :=
  match line with
  | String c rest => Ascii.eqb c "{" && endsWithBrace rest
  | EmptyString => false
  end.

(** The position before which a line starts. *)
Definition lineStart (prev : option ascii) : bool :=
  match prev with None => true | Some c => Ascii.eqb c LF end.

(** A line of [n] bytes [a]. *)
Definition lineOf (n : N) : string := string_of_list_ascii (repeat "a"%char (N.to_nat n)).

(** ** Sample inputs *)

(** The example of [isNSError]'s comment, shortened. *)
Definition sampleNSError : string :=
  "Error Domain=IDEProvisioningErrorDomain Code=9 UserInfo={IDEDistributionIssueSeverity=3, NSLocalizedDescription=requires a provisioning profile., NSLocalizedRecoverySuggestion=Add a profile.}".


(** A text of one line the scanner refuses. *)
Definition oversized : string := lineOf 65536.

(** An export log with two lines that name a log bundle. *)
Definition exportLog : string :=
  "** EXPORT FAILED **" ++ String LF
  ("2021-05-20 IDEDistribution: -[IDEDistributionLogging _createLoggingBundleAtPath:]: Created bundle at path '/tmp/logs/xyz'."
   ++ String LF
   "IDEDistribution: -[IDEDistributionLogging _createLoggingBundleAtPath:]: Created bundle at path '/tmp/logs/later'.").

(** A line the scanner refuses between a line that names a log bundle and
    another that does, and the same after a line that names none. *)
Definition bundleLine (path : string) : string :=
  "IDEDistribution: -[IDEDistributionLogging _createLoggingBundleAtPath:]: Created bundle at path '"
  ++ path ++ "'.".

Definition longLineAfterMatch : string :=
  bundleLine "/tmp/logs/xyz" ++ String LF (oversized ++ String LF (bundleLine "/tmp/logs/later")).

Definition longLineBeforeMatch : string :=
  "** EXPORT FAILED **" ++ String LF (oversized ++ String LF (bundleLine "/tmp/logs/later")).

(** A world for the archive step: the first execution fails with the given
    output, the later ones succeed; removing a path fails or not. *)
Definition failingOnce (firstOutput : string) (removalFails : bool) : step.World :=
  {| step.execution := fun n _ =>
       match n with
       | O => (firstOutput, Some (step.foreign "exit status 65"))
       | _ => ("** ARCHIVE SUCCEEDED **", None)
       end;
     step.removal := fun _ =>
       if removalFails then Some (step.foreign "permission denied") else None;
     step.executions := 0;
     step.trace := [] |}.

Definition buildCmd : step.CommandBuilder :=
  {| step.PrintableCmd := "xcodebuild archive";
     step.xcprettyPrintableCmd := "xcodebuild archive | xcpretty" |}.

(** The two responses of the specification's scenario. *)
Definition quoted (s : string) : string := String DQUOTE s ++ String DQUOTE "".

Definition retryResponse : string :=
  "{" ++ quoted "error" ++ ":" ++ quoted "x" ++ "," ++ quoted "retry" ++ ":true}".

Definition cleanResponse : string :=
  "{" ++ quoted "error" ++ ":" ++ quoted "" ++ "," ++ quoted "retry" ++ ":false}".

Definition unavailable : string := "<h1>503 Service Temporarily Unavailable</h1>".

Definition client : spaceship.Client :=
  {| spaceship.workDir := "/tmp/spaceship";
     spaceship.authConfig :=
       {| spaceship.Username := "dev@example.com";
          spaceship.Password := "hunter2";
          spaceship.Session := "---session---" |};
     spaceship.teamID := "TEAM42" |}.

(** A world whose processes answer as scripted, by their number. *)
Definition scripted (answers : nat -> string * option spaceship.runError) : spaceship.World :=
  {| spaceship.process := fun n _ => answers n;
     spaceship.started := 0;
     spaceship.trace := [] |}.

(** Retry requested on attempts 1 and 2, a clean response on attempt 3. *)
Definition retryTwiceThenClean (n : nat) : string * option spaceship.runError :=
  match n with
  | 0%nat | 1%nat => (retryResponse, None)
  | _ => (cleanResponse, None)
  end.

(** Every process exits with status 1 and prints the 503 page. *)
Definition alwaysUnavailable (n : nat) : string * option spaceship.runError :=
  (unavailable, Some (spaceship.ExitError 1)).

(** Every process exits with status 1 and prints something else. *)
Definition alwaysCrashing (n : nat) : string * option spaceship.runError :=
  ("ruby: No such file or directory", Some (spaceship.ExitError 1)).

(** ** Package step, errors.go: wrapXcodebuildCommandError *)
Module xcodebuilderror.

(** The error a command run gives: an [*exec.ExitError] with its exit code,
    or any other error; both with their [Error()] text. *)
Inductive runError :=
| ExitError (exitCode : Z) (text : string)
| otherError (text : string).

Definition runError_Error (e : runError) : string :=
  match e with ExitError _ text | otherError text => text end.

(** What [fmt.Errorf] makes here: a message, and with the verb [%w] the
    error it wraps, which is either [errors.New] of a text or the error of
    the run. *)
Inductive wrapped :=
| errorsNew (text : string)
| original (err : runError).

Definition wrapped_Error (e : wrapped) : string :=
  match e with
  | errorsNew text => text
  | original err => runError_Error err
  end.

Record error := {
  msg : string;
  Unwrap : option wrapped
}.

Definition wrapXcodebuildCommandError (PrintableCmd : string) (out : string)
  (err : option runError) : option error :=
  match err with
  | None => None
  | Some (ExitError exitCode _) =>
      let reasons := step.findXcodebuildErrors out in
      if (0 <? slice.len reasons)%nat then
        let inner := errorsNew (strings.Join (slice.elems reasons) (String LF "")) in
        Some {| msg := "command failed with exit status " ++ itoa exitCode ++ " ("
                       ++ PrintableCmd ++ "): " ++ wrapped_Error inner;
                Unwrap := Some inner |}
      else
        Some {| msg := "command failed with exit status " ++ itoa exitCode ++ " ("
                       ++ PrintableCmd ++ ")";
                Unwrap := None |}
  | Some (otherError text) =>
      Some {| msg := "executing command failed (" ++ PrintableCmd ++ "): " ++ text;
              Unwrap := Some (original (otherError text)) |}
  end.

End xcodebuilderror.

(** The reasons of a text that scans: the structured records when they are
    as many as the plain-error lines, else the plain-error lines. *)
Definition reasonsOf (out : string) : list string :=
  if (length (structuredErrors (textLines out)) =? length (plainErrors (textLines out)))%nat
  then map render (structuredErrors (textLines out))
  else plainErrors (textLines out).

(** ** Notions for the fields of an NSError *)

Fixpoint hasByte (d : ascii) (s : string) : bool :=
  match s with
  | EmptyString => false
  | String c s' => Ascii.eqb c d || hasByte d s'
  end.

(** A text without its first byte. *)
Definition behead (s : string) : string :=
  match s with
  | EmptyString => ""
  | String _ s' => s'
  end.

(** The bytes of [s] before its first [d], when that [d] comes before any
    LF. *)
Fixpoint upTo (d : ascii) (s : string) : option string :=
  match s with
  | EmptyString => None
  | String c s' =>
      if Ascii.eqb c d then Some ""
      else if Ascii.eqb c LF then None
      else option_map (String c) (upTo d s')
  end.

(** One byte, whatever it is but LF, and the bytes after it up to the
    first [d]. *)
Definition valueUpTo (d : ascii) (s : string) : option string :=
  match s with
  | EmptyString => None
  | String c s' => if Ascii.eqb c LF then None else option_map (String c) (upTo d s')
  end.

(** The value that follows [key] at the start of [s]: up to the next
    comma when there is one, else up to the next closing brace. *)
Definition valueHere (key s : string) : option string :=
  if String.prefix key s then
    match valueUpTo "," (regexp.skip key s) with
    | Some v => Some v
    | None => valueUpTo "}" (regexp.skip key s)
    end
  else None.

(** The value at the first place of the line where [key] has one. *)
Fixpoint fieldValue (key line : string) : string :=
  match valueHere key line with
  | Some v => v
  | None =>
      match line with
      | String _ rest => fieldValue key rest
      | EmptyString => ""
      end
  end.

(** [key(.+?),|key(.+?)}] *)
Definition fieldPattern (key : string) : regexp.Regexp :=
  regexp.Alternate
    (regexp.Concat (regexp.Literal key)
       (regexp.Concat (regexp.Capture 1 regexp.AnyPlusLazy) (regexp.Literal ",")))
    (regexp.Concat (regexp.Literal key)
       (regexp.Concat (regexp.Capture 2 regexp.AnyPlusLazy) (regexp.Literal "}"))).

(** An NSError whose description holds a comma. *)
Definition commaNSError : string :=
  "Error Domain=IDEProfileLocatorErrorDomain Code=1 UserInfo={NSLocalizedDescription=No profiles for 'io.bitrise.sample' were found, NSLocalizedRecoverySuggestion=Xcode couldn't find any profiles, check the bundle identifier.}".

(** ** Notions for the log pattern *)

(** The marker phrase of the log pattern, with the quote that opens the
    path. *)
Definition bundleMarker : string :=
  "IDEDistribution: -[IDEDistributionLogging _createLoggingBundleAtPath:]: Created bundle at path '".

(** The bytes of [s] before the last [d] of its first line. *)
Fixpoint upToLast (d : ascii) (s : string) : option string :=
  match s with
  | EmptyString => None
  | String c s' =>
      if Ascii.eqb c LF then None
      else match upToLast d s' with
           | Some body => Some (String c body)
           | None => if Ascii.eqb c d then Some "" else None
           end
  end.

(** The path after the marker at the start of [s], and the path of the
    first place of a line where the marker has one. *)
Definition pathHere (s : string) : option string :=
  if String.prefix bundleMarker s then upToLast "'" (regexp.skip bundleMarker s) else None.

Fixpoint pathOf (line : string) : option string :=
  match pathHere line with
  | Some path => Some path
  | None =>
      match line with
      | String _ rest => pathOf rest
      | EmptyString => None
      end
  end.

(** A line that quotes something after the path. *)
Definition twiceQuoted : string :=
  "IDEDistribution: -[IDEDistributionLogging _createLoggingBundleAtPath:]: Created bundle at path '/tmp/logs/xyz' for scheme 'Release'.".

(** ** Package main: ProcessInputs, Run and RunStep

    These functions put actions on the outside in sequence.  The actions
    are taken as given, on a world [W], so that what is proved holds
    whatever they do: the calls of other packages, and the four steps
    [xcodeArchive], [xcodeIPAExport], [EnsureDependencies] and
    [ExportOutput].  Rocq's record projections share one name space, so the
    fields of the option and output structs carry a letter for their
    struct; [Inputs] keeps the names of the source. *)
Module archivestep.
Import state.
Local Open Scope go_scope.

Definition minSupportedXcodeMajorVersion : Z := 9.

Record Inputs := {
  ExportMethod : string;
  UploadBitcode : bool;
  CompileBitcode : bool;
  ICloudContainerEnvironment : string;
  TeamID : string;
  ForceTeamID : string;
  ForceProvisioningProfileSpecifier : string;
  ForceProvisioningProfile : string;
  ForceCodeSignIdentity : string;
  CustomExportOptionsPlistContent : string;
  OutputTool : string;
  Workdir : string;
  ProjectPath : string;
  Scheme : string;
  Configuration : string;
  OutputDir : string;
  IsCleanBuild : bool;
  XcodebuildOptions : string;
  DisableIndexWhileBuilding : bool;
  ExportAllDsyms : bool;
  ArtifactName : string;
  VerboseLog : bool;
  CacheLevel : string
}.

(** [Config] embeds [Inputs]. *)
Record Config := {
  inputs : Inputs;
  XcodeMajorVersion : Z
}.

(** [Inputs{}] and [Config{}] *)
Definition zeroInputs : Inputs :=
  {| ExportMethod := ""; UploadBitcode := false; CompileBitcode := false;
     ICloudContainerEnvironment := ""; TeamID := ""; ForceTeamID := "";
     ForceProvisioningProfileSpecifier := ""; ForceProvisioningProfile := "";
     ForceCodeSignIdentity := ""; CustomExportOptionsPlistContent := "";
     OutputTool := ""; Workdir := ""; ProjectPath := ""; Scheme := "";
     Configuration := ""; OutputDir := ""; IsCleanBuild := false;
     XcodebuildOptions := ""; DisableIndexWhileBuilding := false;
     ExportAllDsyms := false; ArtifactName := ""; VerboseLog := false;
     CacheLevel := "" |}.

Definition zeroConfig : Config := {| inputs := zeroInputs; XcodeMajorVersion := 0 |}.

(** What the version provider tells of [models.XcodebuildVersionModel]. *)
Record XcodebuildVersionModel := {
  Version : string;
  BuildVersion : string;
  MajorVersion : Z
}.

(** Arguments of the formatting calls. *)
Inductive value :=
| vString (s : string)
| vInt (z : Z)
| vBool (b : bool)
| vList (l : list string)
| vError (text : string).   (* an error, by its Error() text *)

(** Errors: those of the given actions, by their text, and those
    [fmt.Errorf] makes here. *)
Inductive error :=
| foreign (text : string)
| Errorf (format : string) (args : list value).

(** What is printed or set on the logger. *)
Inductive logcall :=
| Println
| Infof (format : string) (args : list value)
| Warnf (format : string) (args : list value)
| Printf (format : string) (args : list value)
| stepconf_Print (conf : Inputs)
| SetEnableDebugLog (enable : bool).

(** [filepath.Ext]: from the last byte backwards, up to a separator, the
    first dot found starts the extension.  [before] holds the bytes not yet
    looked at, last first; [suffix] those already passed. *)
Fixpoint extFrom (before : list ascii) (suffix : string) : string :=
  match before with
  | [] => ""
  | c :: before' =>
      if Ascii.eqb c "/" then ""
      else if Ascii.eqb c "." then String c suffix
      else extFrom before' (String c suffix)
  end.

Definition filepath_Ext (path : string) : string :=
  extFrom (rev (list_ascii_of_string path)) "".

Record xcodeArchiveOpts := {
  aProjectPath : string;
  aScheme : string;
  aConfiguration : string;
  aOutputTool : string;
  aXcodeMajorVersion : Z;
  aArtifactName : string;
  aForceTeamID : string;
  aForceProvisioningProfileSpecifier : string;
  aForceProvisioningProfile : string;
  aForceCodeSignIdentity : string;
  aIsCleanBuild : bool;
  aDisableIndexWhileBuilding : bool;
  aXcodebuildOptions : string;
  aCacheLevel : string
}.

Record xcodeArchiveOutput := {
  aoArchivePath : string;
  aoAppPath : string;
  aoAppDSYMPaths : slice.t string;
  aoFrameworkDSYMPaths : slice.t string;
  aoXcodebuildLog : string
}.

Record xcodeIPAExportOpts := {
  eProjectPath : string;
  eScheme : string;
  eConfiguration : string;
  eOutputTool : string;
  eXcodeMajorVersion : Z;
  eArchivePath : string;
  eCustomExportOptionsPlistContent : string;
  eExportMethod : string;
  eICloudContainerEnvironment : string;
  eTeamID : string;
  eUploadBitcode : bool;
  eCompileBitcode : bool
}.

Record xcodeIPAExportOutput := {
  eoExportOptionsPath : string;
  eoIPAExportDir : string;
  eoXcodebuildLog : string;
  eoIDEDistrubutionLogsDir : string
}.

Record RunOpts := {
  rProjectPath : string;
  rScheme : string;
  rConfiguration : string;
  rOutputTool : string;
  rXcodeMajorVersion : Z;
  rArtifactName : string;
  rForceTeamID : string;
  rForceProvisioningProfileSpecifier : string;
  rForceProvisioningProfile : string;
  rForceCodeSignIdentity : string;
  rIsCleanBuild : bool;
  rDisableIndexWhileBuilding : bool;
  rXcodebuildOptions : string;
  rCacheLevel : string;
  rCustomExportOptionsPlistContent : string;
  rExportMethod : string;
  rICloudContainerEnvironment : string;
  rTeamID : string;
  rUploadBitcode : bool;
  rCompileBitcode : bool
}.

Record RunOut := {
  oArchivePath : string;
  oAppPath : string;
  oAppDSYMPaths : slice.t string;
  oFrameworkDSYMPaths : slice.t string;
  oExportOptionsPath : string;
  oIPAExportDir : string;
  oXcodebuildLog : string;
  oIDEDistrubutionLogsDir : string
}.

Record ExportOpts := {
  xOutputDir : string;
  xArtifactName : string;
  xExportAllDsyms : bool;
  xArchivePath : string;
  xAppPath : string;
  xAppDSYMPaths : slice.t string;
  xFrameworkDSYMPaths : slice.t string;
  xExportOptionsPath : string;
  xIPAExportDir : string;
  xXcodebuildLog : string;
  xIDEDistrubutionLogsDir : string
}.

Section Step.
Variable W : Type.

(** Other packages. *)
Variable log : logcall -> M W unit.
Variable Parse : M W (Inputs * option error).
Variable ValidateIfDirExists : string -> M W (option error).
Variable plist_Unmarshal : string -> option error.
Variable GetXcodeVersion : M W (XcodebuildVersionModel * option error).
Variable strings_TrimSpace : string -> string.
Variable filepath_Abs : string -> M W (string * option error).
Variable pathutil_AbsPath : string -> M W (string * option error).
Variable pathutil_IsPathExists : string -> M W (bool * option error).
Variable os_MkdirAll : string -> M W (option error).
Variable Error : error -> string.

(** The steps taken as given. *)
Variable xcodeArchive : xcodeArchiveOpts -> M W (xcodeArchiveOutput * option error).
Variable xcodeIPAExport : xcodeIPAExportOpts -> M W (xcodeIPAExportOutput * option error).
Variable EnsureDependencies : bool -> M W (option error).
Variable ExportOutput : ExportOpts -> M W (option error).

Definition when (b : bool) (m : M W unit) : M W unit := if b then m else ret tt.

Definition nonEmpty (s : string) : bool := negb (String.eqb s "").

(** The part of [ProcessInputs] after the Xcode version is known.  The
    assignments to fields of [config] are kept in the variables
    [customExportOptionsPlistContent], [forceProvisioningProfileSpecifier],
    [forceTeamID] and [forceProvisioningProfile] until the paths are
    resolved. *)
Definition settleInputs (conf : Inputs) (xcodeMajorVersion : Z) : M W (Config * option error) :=
  let customExportOptionsPlistContent :=
    strings_TrimSpace (CustomExportOptionsPlistContent conf) in
  when (negb (String.eqb customExportOptionsPlistContent
                (CustomExportOptionsPlistContent conf)))
    (log Println ;;
     log (Warnf "CustomExportOptionsPlistContent is stripped to remove spaces and new lines:"
            []) ;;
     log (Printf customExportOptionsPlistContent [])) ;;
  customExportOptionsPlistContent <-
    (if nonEmpty customExportOptionsPlistContent then
       if (xcodeMajorVersion <? 7)%Z then
         log Println ;;
         log (Warnf "CustomExportOptionsPlistContent is set, but CustomExportOptionsPlistContent only used if xcodeMajorVersion > 6" []) ;;
         ret ""
       else
         log Println ;;
         log (Warnf "Ignoring the following options because CustomExportOptionsPlistContent provided:" []) ;;
         log (Printf "- ExportMethod: %s" [vString (ExportMethod conf)]) ;;
         log (Printf "- UploadBitcode: %s" [vBool (UploadBitcode conf)]) ;;
         log (Printf "- CompileBitcode: %s" [vBool (CompileBitcode conf)]) ;;
         log (Printf "- TeamID: %s" [vString (TeamID conf)]) ;;
         log (Printf "- ICloudContainerEnvironment: %s"
                [vString (ICloudContainerEnvironment conf)]) ;;
         log Println ;;
         ret customExportOptionsPlistContent
     else ret customExportOptionsPlistContent) ;;
  forceProvisioningProfileSpecifier <-
    (if nonEmpty (ForceProvisioningProfileSpecifier conf) && (xcodeMajorVersion <? 8)%Z then
       log Println ;;
       log (Warnf "ForceProvisioningProfileSpecifier is set, but ForceProvisioningProfileSpecifier only used if xcodeMajorVersion > 7" []) ;;
       ret ""
     else ret (ForceProvisioningProfileSpecifier conf)) ;;
  forceTeamID <-
    (if nonEmpty (ForceTeamID conf) && (xcodeMajorVersion <? 8)%Z then
       log Println ;;
       log (Warnf "ForceTeamID is set, but ForceTeamID only used if xcodeMajorVersion > 7" []) ;;
       ret ""
     else ret (ForceTeamID conf)) ;;
  forceProvisioningProfile <-
    (if nonEmpty forceProvisioningProfileSpecifier
        && nonEmpty (ForceProvisioningProfile conf) then
       log Println ;;
       log (Warnf "both ForceProvisioningProfileSpecifier and ForceProvisioningProfile are set, using ForceProvisioningProfileSpecifier" []) ;;
       ret ""
     else ret (ForceProvisioningProfile conf)) ;;
  log Println ;;
  '(absProjectPath, err) <- filepath_Abs (ProjectPath conf) ;;
  match err with
  | Some e =>
      ret (zeroConfig,
           Some (Errorf "failed to get absolute project path, error: %s" [vError (Error e)]))
  | None =>
      '(absOutputDir, err) <- pathutil_AbsPath (OutputDir conf) ;;
      match err with
      | Some e =>
          ret (zeroConfig,
               Some (Errorf "failed to expand OutputDir (%s), error: %s"
                       [vString (OutputDir conf); vError (Error e)]))
      | None =>
          let config :=
            {| inputs :=
                 {| ExportMethod := ExportMethod conf;
                    UploadBitcode := UploadBitcode conf;
                    CompileBitcode := CompileBitcode conf;
                    ICloudContainerEnvironment := ICloudContainerEnvironment conf;
                    TeamID := TeamID conf;
                    ForceTeamID := forceTeamID;
                    ForceProvisioningProfileSpecifier := forceProvisioningProfileSpecifier;
                    ForceProvisioningProfile := forceProvisioningProfile;
                    ForceCodeSignIdentity := ForceCodeSignIdentity conf;
                    CustomExportOptionsPlistContent := customExportOptionsPlistContent;
                    OutputTool := OutputTool conf;
                    Workdir := Workdir conf;
                    ProjectPath := absProjectPath;
                    Scheme := Scheme conf;
                    Configuration := Configuration conf;
                    OutputDir := absOutputDir;
                    IsCleanBuild := IsCleanBuild conf;
                    XcodebuildOptions := XcodebuildOptions conf;
                    DisableIndexWhileBuilding := DisableIndexWhileBuilding conf;
                    ExportAllDsyms := ExportAllDsyms conf;
                    ArtifactName := ArtifactName conf;
                    VerboseLog := VerboseLog conf;
                    CacheLevel := CacheLevel conf |};
               XcodeMajorVersion := xcodeMajorVersion |} in
          '(exist_, err) <- pathutil_IsPathExists absOutputDir ;;
          match err with
          | Some e =>
              ret (zeroConfig,
                   Some (Errorf "failed to check if OutputDir exist, error: %s"
                           [vError (Error e)]))
          | None =>
              if negb exist_ then
                err <- os_MkdirAll absOutputDir ;;
                match err with
                | Some e =>
                    ret (zeroConfig,
                         Some (Errorf "failed to create OutputDir (%s), error: %s"
                                 [vString absOutputDir; vError (Error e)]))
                | None => ret (config, None)
                end
              else ret (config, None)
          end
      end
  end.

Definition ProcessInputs : M W (Config * option error) :=
  '(conf, err) <- Parse ;;
  match err with
  | Some e => ret (zeroConfig, Some (Errorf "issue with input: %s" [vError (Error e)]))
  | None =>
      log (stepconf_Print conf) ;;
      log Println ;;
      log (SetEnableDebugLog (VerboseLog conf)) ;;
      when (String.eqb (ExportMethod conf) "auto-detect")
        (log (Warnf "Export method: auto-detect is DEPRECATED, use a direct export method %s"
                [vList ["app-store"; "ad-hoc"; "enterprise"; "development"]]) ;;
         log Println) ;;
      err <- (if nonEmpty (Workdir conf) then ValidateIfDirExists (Workdir conf)
              else ret None) ;;
      match err with
      | Some e => ret (zeroConfig, Some (Errorf ("issue with input Workdir: " ++ Error e) []))
      | None =>
          match (if nonEmpty (CustomExportOptionsPlistContent conf)
                 then plist_Unmarshal (CustomExportOptionsPlistContent conf)
                 else None) with
          | Some e =>
              ret (zeroConfig,
                   Some (Errorf ("issue with input CustomExportOptionsPlistContent: "
                                 ++ Error e) []))
          | None =>
              if negb (String.eqb (filepath_Ext (ProjectPath conf)) ".xcodeproj")
                 && negb (String.eqb (filepath_Ext (ProjectPath conf)) ".xcworkspace")
              then
                ret (zeroConfig,
                     Some (Errorf "issue with input ProjectPath: should be and .xcodeproj or .xcworkspace path" []))
              else
                log (Infof "Xcode version:" []) ;;
                '(xcodebuildVersion, err) <- GetXcodeVersion ;;
                match err with
                | Some e =>
                    ret (zeroConfig,
                         Some (Errorf "failed to determine xcode version, error: %s"
                                 [vError (Error e)]))
                | None =>
                    log (Printf "%s (%s)"
                           [vString (Version xcodebuildVersion);
                            vString (BuildVersion xcodebuildVersion)]) ;;
                    let xcodeMajorVersion := MajorVersion xcodebuildVersion in
                    if (xcodeMajorVersion <? minSupportedXcodeMajorVersion)%Z then
                      ret (zeroConfig,
                           Some (Errorf "invalid xcode major version (%d), should not be less then min supported: %d"
                                   [vInt xcodeMajorVersion;
                                    vInt minSupportedXcodeMajorVersion]))
                    else settleInputs conf xcodeMajorVersion
                end
          end
      end
  end.

Definition archiveOptsOf (opts : RunOpts) : xcodeArchiveOpts :=
  {| aProjectPath := rProjectPath opts; aScheme := rScheme opts;
     aConfiguration := rConfiguration opts; aOutputTool := rOutputTool opts;
     aXcodeMajorVersion := rXcodeMajorVersion opts; aArtifactName := rArtifactName opts;
     aForceTeamID := rForceTeamID opts;
     aForceProvisioningProfileSpecifier := rForceProvisioningProfileSpecifier opts;
     aForceProvisioningProfile := rForceProvisioningProfile opts;
     aForceCodeSignIdentity := rForceCodeSignIdentity opts;
     aIsCleanBuild := rIsCleanBuild opts;
     aDisableIndexWhileBuilding := rDisableIndexWhileBuilding opts;
     aXcodebuildOptions := rXcodebuildOptions opts; aCacheLevel := rCacheLevel opts |}.

Definition exportOptsOf (opts : RunOpts) (archiveOut : xcodeArchiveOutput)
  : xcodeIPAExportOpts :=
  {| eProjectPath := rProjectPath opts; eScheme := rScheme opts;
     eConfiguration := rConfiguration opts; eOutputTool := rOutputTool opts;
     eXcodeMajorVersion := rXcodeMajorVersion opts;
     eArchivePath := aoArchivePath archiveOut;
     eCustomExportOptionsPlistContent := rCustomExportOptionsPlistContent opts;
     eExportMethod := rExportMethod opts;
     eICloudContainerEnvironment := rICloudContainerEnvironment opts;
     eTeamID := rTeamID opts; eUploadBitcode := rUploadBitcode opts;
     eCompileBitcode := rCompileBitcode opts |}.

Definition Run (opts : RunOpts) : M W (RunOut * option error) :=
  let archiveOpts := archiveOptsOf opts in
  '(archiveOut, err) <- xcodeArchive archiveOpts ;;
  match err with
  | Some e =>
      ret ({| oArchivePath := ""; oAppPath := ""; oAppDSYMPaths := slice.nil;
              oFrameworkDSYMPaths := slice.nil; oExportOptionsPath := "";
              oIPAExportDir := ""; oXcodebuildLog := aoXcodebuildLog archiveOut;
              oIDEDistrubutionLogsDir := "" |}, Some e)
  | None =>
      let IPAExportOpts := exportOptsOf opts archiveOut in
      '(exportOut, err) <- xcodeIPAExport IPAExportOpts ;;
      match err with
      | Some e =>
          ret ({| oArchivePath := ""; oAppPath := ""; oAppDSYMPaths := slice.nil;
                  oFrameworkDSYMPaths := slice.nil; oExportOptionsPath := "";
                  oIPAExportDir := ""; oXcodebuildLog := eoXcodebuildLog exportOut;
                  oIDEDistrubutionLogsDir := eoIDEDistrubutionLogsDir exportOut |}, Some e)
      | None =>
          ret ({| oArchivePath := aoArchivePath archiveOut;
                  oAppPath := aoAppPath archiveOut;
                  oAppDSYMPaths := aoAppDSYMPaths archiveOut;
                  oFrameworkDSYMPaths := aoFrameworkDSYMPaths archiveOut;
                  oExportOptionsPath := eoExportOptionsPath exportOut;
                  oIPAExportDir := eoIPAExportDir exportOut;
                  oXcodebuildLog := ""; oIDEDistrubutionLogsDir := "" |}, None)
      end
  end.

(** [runOpts] of [RunStep], for a config and the output tool to use. *)
Definition runOptsOf (config : Config) (outputTool : string) : RunOpts :=
  {| rProjectPath := ProjectPath (inputs config); rScheme := Scheme (inputs config);
     rConfiguration := Configuration (inputs config); rOutputTool := outputTool;
     rXcodeMajorVersion := XcodeMajorVersion config;
     rArtifactName := ArtifactName (inputs config);
     rForceTeamID := ForceTeamID (inputs config);
     rForceProvisioningProfileSpecifier := ForceProvisioningProfileSpecifier (inputs config);
     rForceProvisioningProfile := ForceProvisioningProfile (inputs config);
     rForceCodeSignIdentity := ForceCodeSignIdentity (inputs config);
     rIsCleanBuild := IsCleanBuild (inputs config);
     rDisableIndexWhileBuilding := DisableIndexWhileBuilding (inputs config);
     rXcodebuildOptions := XcodebuildOptions (inputs config);
     rCacheLevel := CacheLevel (inputs config);
     rCustomExportOptionsPlistContent := CustomExportOptionsPlistContent (inputs config);
     rExportMethod := ExportMethod (inputs config);
     rICloudContainerEnvironment := ICloudContainerEnvironment (inputs config);
     rTeamID := TeamID (inputs config); rUploadBitcode := UploadBitcode (inputs config);
     rCompileBitcode := CompileBitcode (inputs config) |}.

(** [exportOpts] of [RunStep]. *)
Definition outputOptsOf (config : Config) (out : RunOut) : ExportOpts :=
  {| xOutputDir := OutputDir (inputs config); xArtifactName := ArtifactName (inputs config);
     xExportAllDsyms := ExportAllDsyms (inputs config);
     xArchivePath := oArchivePath out; xAppPath := oAppPath out;
     xAppDSYMPaths := oAppDSYMPaths out; xFrameworkDSYMPaths := oFrameworkDSYMPaths out;
     xExportOptionsPath := oExportOptionsPath out; xIPAExportDir := oIPAExportDir out;
     xXcodebuildLog := oXcodebuildLog out;
     xIDEDistrubutionLogsDir := oIDEDistrubutionLogsDir out |}.

(** [config.OutputTool] is the only field [RunStep] assigns; it is kept in
    the variable [outputTool]. *)
Definition RunStep : M W (option error) :=
  '(config, err) <- ProcessInputs ;;
  match err with
  | Some e => ret (Some e)
  | None =>
      err <- EnsureDependencies (String.eqb (OutputTool (inputs config)) "xcpretty") ;;
      outputTool <-
        match err with
        | Some e =>
            log (Warnf (Error e) []) ;;
            log (Warnf "Switching to xcodebuild for output tool" []) ;;
            ret "xcodebuild"
        | None => ret (OutputTool (inputs config))
        end ;;
      '(out, runErr) <- Run (runOptsOf config outputTool) ;;
      exportErr <- ExportOutput (outputOptsOf config out) ;;
      match runErr with
      | Some e => ret (Some e)
      | None =>
          match exportErr with
          | Some e => ret (Some e)
          | None => ret None
          end
      end
  end.

End Step.

End archivestep.

(** ** Package certificateutil *)
Module certificateutil.

Inductive error :=
| foreign (text : string)
| errors_New (text : string)
| Errorf (format : string) (args : list string).

(** What a call comes to: it returns, or an index is out of range and the
    program panics. *)
Inductive outcome (A : Type) :=
| returned (value : slice.t A) (err : option error)
| panicked.

Arguments returned {A} value err.
Arguments panicked {A}.

Section PKCS12.
Variables PrivateKey Certificate CertificateInfoModel : Type.

(** [pkcs12.DecodeAll]; a certificate is a pointer, [None] when it is nil. *)
Variable pkcs12_DecodeAll :
  list Byte.byte -> string -> list PrivateKey * list (option Certificate) * option error.
Variable NewCertificateInfo : Certificate -> PrivateKey -> CertificateInfoModel.

(** The loop over [certificates], from index [i] on; [None] when
    [privateKeys[i]] is out of range. *)
Fixpoint collect (privateKeys : list PrivateKey) (i : nat)
    (certificates : list (option Certificate)) (infos : slice.t CertificateInfoModel)
  : option (slice.t CertificateInfoModel) :=
  match certificates with
  | [] => Some infos
  | certificate :: rest =>
      match certificate with
      | Some c =>
          match nth_error privateKeys i with
          | Some key =>
              collect privateKeys (S i) rest (slice.append infos (NewCertificateInfo c key))
          | None => None
          end
      | None => collect privateKeys (S i) rest infos
      end
  end.

Definition CertificatesFromPKCS12Content (content : list Byte.byte) (password : string)
  : outcome CertificateInfoModel :=
  let '(privateKeys, certificates, err) := pkcs12_DecodeAll content password in
  match err with
  | Some e => returned slice.nil (Some e)
  | None =>
      if negb (length certificates =? length privateKeys)%nat then
        returned slice.nil
          (Some (errors_New "pkcs12: different number of certificates and private keys found"))
      else if (length certificates =? 0)%nat then
        returned slice.nil
          (Some (errors_New "pkcs12: no certificate and private key pair found"))
      else
        match collect privateKeys 0 certificates slice.empty with
        | Some infos => returned infos None
        | None => panicked
        end
  end.

End PKCS12.

(** [strings.HasSuffix] *)
Definition strings_HasSuffix (s suffix : string) : bool :=
  (String.length suffix <=? String.length s)%nat
  && String.eqb (substring (String.length s - String.length suffix) (String.length suffix) s)
       suffix.

Definition newline : string := String LF "".

(** The body of the loop of [normalizeFindCertificateOut]. *)
Definition framed (certificateContent : string) : string :=
  let certificateContent :=
    if negb (strings.HasPrefix certificateContent newline)
    then newline ++ certificateContent else certificateContent in
  if negb (strings_HasSuffix certificateContent newline)
  then certificateContent ++ newline else certificateContent.

Section FindCertificate.

(** [regexp.MustCompile(pattern).FindAllString(out, -1)] for the pattern of
    [normalizeFindCertificateOut]. *)
Variable FindAllString : string -> slice.t string.

Definition normalizeFindCertificateOut (out : string) : slice.t string * option error :=
  let matches := FindAllString out in
  if (slice.len matches =? 0)%nat then
    (slice.nil, Some (Errorf "no certificates found in: %s" [out]))
  else
    (fold_left (fun certificateContents certificateContent =>
                  slice.append certificateContents (framed certificateContent))
       (slice.elems matches) slice.empty,
     None).

End FindCertificate.

End certificateutil.

(** The infos of the certificates that are there, each with the private key
    at its index. *)
Definition pairedInfos {PrivateKey Certificate CertificateInfoModel : Type}
    (NewCertificateInfo : Certificate -> PrivateKey -> CertificateInfoModel)
    (certificates : list (option Certificate)) (privateKeys : list PrivateKey)
  : list CertificateInfoModel :=
  flat_map (fun pair : option Certificate * PrivateKey =>
              match fst pair with
              | Some c => [NewCertificateInfo c (snd pair)]
              | None => []
              end)
    (combine certificates privateKeys).

(** A decoder of a scripted content: each byte is a key, and a certificate
    unless it is zero. *)
Definition decodeBytes (content : list Byte.byte) (password : string)
  : list N * list (option N) * option certificateutil.error :=
  if String.eqb password "" then
    ([], [], Some (certificateutil.foreign "pkcs12: decryption password incorrect"))
  else
    (map (fun b => Byte.to_N b) content,
     map (fun b => if (Byte.to_N b =? 0)%N then None else Some (Byte.to_N b)) content,
     None).

(** A content as [normalizeFindCertificateOut] is worded to give it for a
    match: the match with a line feed put before it when it does not start
    with one, and a line feed put after that when it does not end with
    one. *)
Definition framedAs (found content : string) : Prop :=
  exists pre post,
    content = pre ++ found ++ post /\
    (pre = "" \/ pre = certificateutil.newline) /\
    (post = "" \/ post = certificateutil.newline) /\
    (pre = "" <-> strings.HasPrefix found certificateutil.newline = true) /\
    (post = "" <-> certificateutil.strings_HasSuffix (pre ++ found) certificateutil.newline
                   = true).

(** *** The matches of the certificate pattern

    [FindAllString] for the pattern of [normalizeFindCertificateOut], the
    opening line, any bytes (line feeds too, as few as can be) and the
    closing line: a match starts at the first opening line that follows the
    match before it, and ends with the first closing line that follows that
    opening line; an opening line that no closing line follows gives no
    match.  The text is read byte by
    byte: [outside] a match, [copying] the bytes left of a line that was
    recognised, or [inside] a match after its opening line. *)
Definition openingLine : string := "-----BEGIN CERTIFICATE-----".
Definition closingLine : string := "-----END CERTIFICATE-----".

Inductive place :=
| outside
| copying (remaining : nat) (block : string) (closing : bool)
| inside (block : string).

Definition copied (remaining : nat) (block : string) (closing : bool)
  : list string * place :=
  match remaining with
  | O => if closing then ([block], outside) else ([], inside block)
  | S _ => ([], copying remaining block closing)
  end.

Fixpoint blocksFrom (here : place) (text : string) : list string :=
  match text with
  | EmptyString => []
  | String c rest =>
      let step :=
        match here with
        | outside =>
            if String.prefix openingLine text
            then copied (String.length openingLine - 1) (String c "") false
            else ([], outside)
        | copying remaining block closing =>
            copied (remaining - 1) (block ++ String c "") closing
        | inside block =>
            if String.prefix closingLine text
            then copied (String.length closingLine - 1) (block ++ String c "") true
            else ([], inside (block ++ String c ""))
        end in
      (fst step ++ blocksFrom (snd step) rest)%list
  end.

Definition certificateBlocks (out : string) : slice.t string :=
  match blocksFrom outside out with
  | [] => slice.nil
  | blocks => Some blocks
  end.

(** What [security find-certificate -p -a] prints for two certificates, the
    last line feed trimmed. *)
Definition twoCertificates : string :=
  "-----BEGIN CERTIFICATE-----" ++ String LF ("MIIB" ++ String LF
  ("-----END CERTIFICATE-----" ++ String LF
  ("-----BEGIN CERTIFICATE-----" ++ String LF ("MIIC" ++ String LF
   "-----END CERTIFICATE-----")))).

(** ** A scripted step *)

(** The answers of the given actions of one run of the step. *)
Record stepScript := {
  parsed : archivestep.Inputs * option archivestep.error;
  xcodeVersion : archivestep.XcodebuildVersionModel * option archivestep.error;
  dependencies : option archivestep.error;
  archived : archivestep.xcodeArchiveOutput * option archivestep.error;
  exported : archivestep.xcodeIPAExportOutput * option archivestep.error;
  outputExported : option archivestep.error
}.

(** The world of a scripted step is the list of the actions called so far,
    latest last; what is logged leaves no mark in it. *)
Definition called {A} (name : string) (answer : A) : state.M (list string) A :=
  fun w => (answer, (w ++ [name])%list).

Definition unlogged : archivestep.logcall -> state.M (list string) unit :=
  fun _ => state.ret tt.

Definition isSpace (c : ascii) : bool :=
  Ascii.eqb c " "%char || Ascii.eqb c LF || Ascii.eqb c CR || Ascii.eqb c "009"%char.

Fixpoint trimLeft (s : string) : string :=
  match s with
  | String c s' => if isSpace c then trimLeft s' else s
  | EmptyString => s
  end.

Definition reversed (s : string) : string :=
  string_of_list_ascii (rev (list_ascii_of_string s)).

Definition trimSpace (s : string) : string :=
  reversed (trimLeft (reversed (trimLeft s))).

Definition errorText (e : archivestep.error) : string :=
  match e with
  | archivestep.foreign text => text
  | archivestep.Errorf format _ => format
  end.

Definition underWork (path : string) : string := "/work/" ++ path.

Definition scriptedProcessInputs (s : stepScript)
  : state.M (list string) (archivestep.Config * option archivestep.error) :=
  archivestep.ProcessInputs (list string) unlogged
    (called "Parse" (parsed s))
    (fun _ => called "ValidateIfDirExists" None)
    (fun _ => None)
    (called "GetXcodeVersion" (xcodeVersion s))
    trimSpace
    (fun path => called "filepath.Abs" (underWork path, None))
    (fun path => called "pathutil.AbsPath" (underWork path, None))
    (fun _ => called "pathutil.IsPathExists" (false, None))
    (fun _ => called "os.MkdirAll" None)
    errorText.

Definition scriptedRun (s : stepScript) (opts : archivestep.RunOpts)
  : state.M (list string) (archivestep.RunOut * option archivestep.error) :=
  archivestep.Run (list string)
    (fun _ => called "xcodeArchive" (archived s))
    (fun _ => called "xcodeIPAExport" (exported s))
    opts.

Definition scriptedRunStep (s : stepScript)
  : state.M (list string) (option archivestep.error) :=
  archivestep.RunStep (list string) unlogged
    (called "Parse" (parsed s))
    (fun _ => called "ValidateIfDirExists" None)
    (fun _ => None)
    (called "GetXcodeVersion" (xcodeVersion s))
    trimSpace
    (fun path => called "filepath.Abs" (underWork path, None))
    (fun path => called "pathutil.AbsPath" (underWork path, None))
    (fun _ => called "pathutil.IsPathExists" (false, None))
    (fun _ => called "os.MkdirAll" None)
    errorText
    (fun _ => called "xcodeArchive" (archived s))
    (fun _ => called "xcodeIPAExport" (exported s))
    (fun _ => called "EnsureDependencies" (dependencies s))
    (fun _ => called "ExportOutput" (outputExported s)).

Definition sampleInputs : archivestep.Inputs :=
  {| archivestep.ExportMethod := "development";
     archivestep.UploadBitcode := true;
     archivestep.CompileBitcode := true;
     archivestep.ICloudContainerEnvironment := "";
     archivestep.TeamID := "";
     archivestep.ForceTeamID := "TEAM";
     archivestep.ForceProvisioningProfileSpecifier := "TEAM/profile";
     archivestep.ForceProvisioningProfile := "0f1e2d";
     archivestep.ForceCodeSignIdentity := "";
     archivestep.CustomExportOptionsPlistContent := " <plist></plist>" ++ String LF "";
     archivestep.OutputTool := "xcpretty";
     archivestep.Workdir := "ios";
     archivestep.ProjectPath := "ios/App.xcworkspace";
     archivestep.Scheme := "App";
     archivestep.Configuration := "Release";
     archivestep.OutputDir := "deploy";
     archivestep.IsCleanBuild := false;
     archivestep.XcodebuildOptions := "";
     archivestep.DisableIndexWhileBuilding := true;
     archivestep.ExportAllDsyms := false;
     archivestep.ArtifactName := "App";
     archivestep.VerboseLog := false;
     archivestep.CacheLevel := "none" |}.

Definition xcode (major : Z) : archivestep.XcodebuildVersionModel :=
  {| archivestep.Version := "Xcode"; archivestep.BuildVersion := "Build";
     archivestep.MajorVersion := major |}.

Definition sampleArchive : archivestep.xcodeArchiveOutput :=
  {| archivestep.aoArchivePath := "/tmp/App.xcarchive";
     archivestep.aoAppPath := "/tmp/App.xcarchive/Products/Applications/App.app";
     archivestep.aoAppDSYMPaths := slice.empty;
     archivestep.aoFrameworkDSYMPaths := slice.nil;
     archivestep.aoXcodebuildLog := "" |}.

Definition failedArchive : archivestep.xcodeArchiveOutput :=
  {| archivestep.aoArchivePath := "";
     archivestep.aoAppPath := "";
     archivestep.aoAppDSYMPaths := slice.nil;
     archivestep.aoFrameworkDSYMPaths := slice.nil;
     archivestep.aoXcodebuildLog := "** ARCHIVE FAILED **" |}.

Definition sampleExport : archivestep.xcodeIPAExportOutput :=
  {| archivestep.eoExportOptionsPath := "/tmp/export_options.plist";
     archivestep.eoIPAExportDir := "/tmp/exported";
     archivestep.eoXcodebuildLog := "";
     archivestep.eoIDEDistrubutionLogsDir := "" |}.

Definition failedExport : archivestep.xcodeIPAExportOutput :=
  {| archivestep.eoExportOptionsPath := "";
     archivestep.eoIPAExportDir := "";
     archivestep.eoXcodebuildLog := "** EXPORT FAILED **";
     archivestep.eoIDEDistrubutionLogsDir := "/tmp/App.xcdistributionlogs" |}.

Definition exitStatus65 : archivestep.error := archivestep.foreign "exit status 65".

Definition allGood : stepScript :=
  {| parsed := (sampleInputs, None);
     xcodeVersion := (xcode 14, None);
     dependencies := None;
     archived := (sampleArchive, None);
     exported := (sampleExport, None);
     outputExported := None |}.

Definition oldXcode : stepScript :=
  {| parsed := (sampleInputs, None);
     xcodeVersion := (xcode 8, None);
     dependencies := None;
     archived := (sampleArchive, None);
     exported := (sampleExport, None);
     outputExported := None |}.

Definition archiveFails : stepScript :=
  {| parsed := (sampleInputs, None);
     xcodeVersion := (xcode 14, None);
     dependencies := None;
     archived := (failedArchive, Some exitStatus65);
     exported := (sampleExport, None);
     outputExported := Some (archivestep.foreign "failed to export xcodebuild log") |}.

Definition exportFails : stepScript :=
  {| parsed := (sampleInputs, None);
     xcodeVersion := (xcode 14, None);
     dependencies := None;
     archived := (sampleArchive, None);
     exported := (failedExport, Some exitStatus65);
     outputExported := None |}.

Definition withoutXcpretty : stepScript :=
  {| parsed := (sampleInputs, None);
     xcodeVersion := (xcode 14, None);
     dependencies := Some (archivestep.foreign "xcpretty is not installed");
     archived := (sampleArchive, None);
     exported := (sampleExport, None);
     outputExported := Some (archivestep.foreign "failed to copy the archive") |}.

(** What a scripted step has called once the inputs are accepted. *)
Definition inputsAccepted : list string :=
  ["Parse"; "ValidateIfDirExists"; "GetXcodeVersion"; "filepath.Abs"; "pathutil.AbsPath";
   "pathutil.IsPathExists"; "os.MkdirAll"].

(* ================================================================== *)
(** * Part II: properties *)
(* ================================================================== *)

(** ** Strings, slices, scanner *)

Lemma prefix_markers_exclusive line :
  strings.HasPrefix line "error: " = true -> strings.HasPrefix line "Error " = false.
Proof.
  unfold strings.HasPrefix. destruct line as [|c line]; cbn [prefix]; [discriminate|].
  destruct (ascii_dec "e"%char c) as [<-|]; [|discriminate].
  intros _. destruct (ascii_dec "E"%char "e"%char); [discriminate | reflexivity].
Qed.

Lemma tokens_complete raw :
  snd (bufio.tokens raw) = None -> fst (bufio.tokens raw) = map bufio.dropCR raw.
Proof.
  induction raw as [|l raw IH]; simpl; [reflexivity|].
  destruct (bufio.fits l); [|discriminate].
  destruct (bufio.tokens raw) as [ts e]; simpl in *.
  intros ->. now rewrite IH.
Qed.

Lemma Scan_complete text : scanSucceeds text -> bufio.Scan text = (textLines text, None).
Proof.
  unfold scanSucceeds, bufio.Scan, textLines. intros H.
  rewrite (surjective_pairing (bufio.tokens _)), H, tokens_complete; auto.
Qed.

Lemma tokens_fit raw : snd (bufio.tokens raw) = None <-> Forall (fun l => bufio.fits l = true) raw.
Proof.
  induction raw as [|l raw IH]; simpl.
  - split; auto.
  - destruct (bufio.fits l) eqn:E.
    + destruct (bufio.tokens raw) as [ts e]; simpl in *. split.
      * intros H. constructor; [assumption | now apply IH].
      * intros H. inversion H; subst. now apply IH.
    + simpl. split; [discriminate|]. intros H. inversion H; congruence.
Qed.

(** The scan succeeds exactly when every line of the text, before its LF,
    has fewer than 65536 bytes. *)
Lemma scanSucceeds_iff text :
  scanSucceeds text <->
  Forall (fun l => (N.of_nat (String.length l) < 65536)%N) (bufio.rawLines text).
Proof.
  unfold scanSucceeds, bufio.Scan. rewrite tokens_fit.
  split; intros H; eapply Forall_impl; try exact H; intros l Hl; cbv beta in *.
  - apply N.ltb_lt. exact Hl.
  - apply N.ltb_lt. exact Hl.
Qed.

(** ** findXcodebuildErrors *)

Lemma scanLine_fold lines : forall errorLines nserrors,
  let r := fold_left step.scanLine lines (errorLines, nserrors) in
  slice.elems (fst r) = (slice.elems errorLines ++ plainErrors lines)%list /\
  slice.elems (snd r) = (slice.elems nserrors ++ structuredErrors lines)%list.
Proof.
  induction lines as [|line lines IH]; intros errorLines nserrors; simpl.
  - now rewrite !app_nil_r.
  - destruct (strings.HasPrefix line "error: ") eqn:Hp.
    + rewrite (prefix_markers_exclusive _ Hp). simpl.
      destruct (IH (slice.append errorLines line) nserrors) as [H1 H2].
      rewrite H1, H2. unfold slice.append; simpl. now rewrite <- app_assoc.
    + destruct (strings.HasPrefix line "Error ") eqn:Hn.
      * destruct (step.NewNSError line) as [e|].
        -- destruct (IH errorLines (slice.append nserrors e)) as [H1 H2].
           rewrite H1, H2. unfold slice.append; simpl. now rewrite <- app_assoc.
        -- apply IH.
      * apply IH.
Qed.

Lemma render_Error e : step.NSError_Error e = render e.
Proof. unfold step.NSError_Error, render. now destruct (step.Suggestion e). Qed.

Lemma rendered_fold nserrors : forall acc,
  fold_left (fun errorLines nserror => slice.append errorLines (step.NSError_Error nserror))
    nserrors (Some acc) = Some (acc ++ map render nserrors)%list.
Proof.
  induction nserrors as [|e nserrors IH]; intros acc; simpl.
  - now rewrite app_nil_r.
  - unfold slice.append at 2; simpl. rewrite IH, render_Error, <- app_assoc. reflexivity.
Qed.

(** What [findXcodebuildErrors] returns when the scan succeeds, in terms of
    the two lists of the specification. *)
Lemma findXcodebuildErrors_scanned out :
  scanSucceeds out ->
  slice.elems (step.findXcodebuildErrors out) =
    if (length (structuredErrors (textLines out)) =? length (plainErrors (textLines out)))%nat
    then map render (structuredErrors (textLines out))
    else plainErrors (textLines out).
Proof.
  intros Hs. unfold step.findXcodebuildErrors. rewrite (Scan_complete _ Hs).
  pose proof (scanLine_fold (textLines out) slice.nil slice.nil) as [H1 H2]. revert H1 H2.
  destruct (fold_left step.scanLine (textLines out) (slice.nil, slice.nil))
    as [errorLines nserrors].
  cbn [fst snd slice.elems slice.nil app]. intros H1 H2. unfold slice.len. rewrite H1, H2.
  destruct (_ =? _)%nat; [|assumption].
  unfold slice.empty. now rewrite rendered_fold.
Qed.

Lemma findXcodebuildErrors_failed out :
  ~ scanSucceeds out -> step.findXcodebuildErrors out = slice.nil.
Proof.
  unfold scanSucceeds, step.findXcodebuildErrors. intros H.
  destruct (bufio.Scan out) as [lines [e|]]; simpl in *; [|congruence].
  now destruct (fold_left step.scanLine lines (slice.nil, slice.nil)).
Qed.

(** The record of the sample line. *)
Example NewNSError_sample :
  step.NewNSError sampleNSError
    = Some {| step.Description := "requires a provisioning profile.";
              step.Suggestion := "Add a profile." |} /\
  step.NewNSError "Error Domain=D Code=1 UserInfo={NSLocalizedDescription=only this}"
    = Some {| step.Description := "only this"; step.Suggestion := "" |} /\
  step.NewNSError "Error: Domain= and Code= but no user info" = None.
Proof. repeat split. Qed.

(** C3, as stated, fails on a text the scanner cannot read to its end: a
    plain-error line followed by a line of 65536 bytes has one plain-error
    line and no structured record, the counts differ, and the result is not
    the plain-error line: it is empty. *)
Lemma plain_lines_lost_on_scan_failure :
  let out := "error: x" ++ String LF (lineOf 65536) in
  plainErrors (textLines out) = ["error: x"] /\
  structuredErrors (textLines out) = [] /\
  slice.elems (step.findXcodebuildErrors out) = [].
Proof. vm_compute. repeat split. Qed.

(** C3 (amended): for every text that the scanner reads to its end, when
    the structured records are as many as the plain-error lines the result
    is exactly the structured records, each rendered as its description
    alone or as description, space, suggestion; in every other case it is
    exactly the plain-error lines. *)
Theorem findXcodebuildErrors_prefers_structured out :
  scanSucceeds out ->
  let plain := plainErrors (textLines out) in
  let structured := structuredErrors (textLines out) in
  (length structured = length plain ->
     slice.elems (step.findXcodebuildErrors out) = map render structured) /\
  (length structured <> length plain ->
     slice.elems (step.findXcodebuildErrors out) = plain).
Proof.
  intros Hs plain structured. rewrite (findXcodebuildErrors_scanned _ Hs).
  fold plain structured. split; intros H.
  - apply Nat.eqb_eq in H. now rewrite H.
  - apply Nat.eqb_neq in H. now rewrite H.
Qed.

Lemma findXcodebuildErrors_prefers_structured_witness :
  slice.elems (step.findXcodebuildErrors ("error: failed" ++ String LF sampleNSError))
    = ["requires a provisioning profile. Add a profile."] /\
  slice.elems (step.findXcodebuildErrors
                 ("error: a" ++ String LF ("error: b" ++ String LF sampleNSError)))
    = ["error: a"; "error: b"].
Proof.
  split.
  - apply (findXcodebuildErrors_prefers_structured
             ("error: failed" ++ String LF sampleNSError)); reflexivity.
  - apply (findXcodebuildErrors_prefers_structured
             ("error: a" ++ String LF ("error: b" ++ String LF sampleNSError)));
      [reflexivity | vm_compute; lia].
Defined.

(** C5, as stated, fails: the scan error does not reach the caller.  The
    function has one result, the slice, and on a text whose scan fails it
    is the very value ([nil]) that a text which scans without error can
    give. *)
Lemma scan_error_not_propagated :
  snd (bufio.Scan oversized) = Some bufio.ErrTooLong /\
  snd (bufio.Scan sampleNSError) = None /\
  step.findXcodebuildErrors oversized = step.findXcodebuildErrors sampleNSError.
Proof. vm_compute. repeat split. Qed.

(** C5 (amended): on every text whose scan fails the result is [nil], no
    records, and nothing more is reported; on every text without a
    plain-error line and without an extractable structured record the
    result is empty. *)
Theorem findXcodebuildErrors_scan_failure out :
  (~ scanSucceeds out -> step.findXcodebuildErrors out = slice.nil) /\
  (plainErrors (textLines out) = [] -> structuredErrors (textLines out) = [] ->
     slice.elems (step.findXcodebuildErrors out) = []).
Proof.
  split.
  - apply findXcodebuildErrors_failed.
  - intros Hp Hn. destruct (bufio.Scan out) as [lines [e|]] eqn:E.
    + rewrite findXcodebuildErrors_failed; [reflexivity|].
      unfold scanSucceeds. rewrite E. discriminate.
    + rewrite findXcodebuildErrors_scanned by (unfold scanSucceeds; now rewrite E).
      rewrite Hp, Hn. reflexivity.
Qed.

Lemma findXcodebuildErrors_scan_failure_witness :
  step.findXcodebuildErrors oversized = slice.nil /\
  slice.elems (step.findXcodebuildErrors ("note: nothing" ++ String LF "warning: w")) = [].
Proof.
  split.
  - apply (findXcodebuildErrors_scan_failure oversized). vm_compute. discriminate.
  - apply (findXcodebuildErrors_scan_failure ("note: nothing" ++ String LF "warning: w"));
      reflexivity.
Defined.



(** ** findIDEDistrubutionLogsPath *)

Lemma FindStringSubmatch_pattern line :
  regexp.FindStringSubmatch main.pattern line =
    match regexp.find main.pattern None line with
    | Some (m, caps) => [m; regexp.lookup 1 caps]
    | None => []
    end.
Proof.
  unfold regexp.FindStringSubmatch.
  now destruct (regexp.find main.pattern None line) as [[m caps]|].
Qed.

Lemma firstMatch_cons line rest :
  main.firstMatch (line :: rest) =
    match logPath line with
    | Some path => Some path
    | None => main.firstMatch rest
    end.
Proof.
  cbn [main.firstMatch]. rewrite FindStringSubmatch_pattern. unfold logPath.
  now destruct (regexp.find main.pattern None line) as [[m caps]|].
Qed.

Lemma firstMatch_none lines :
  Forall (fun l => logPath l = None) lines -> main.firstMatch lines = None.
Proof.
  induction 1 as [|l lines Hl _ IH]; [reflexivity|].
  now rewrite firstMatch_cons, Hl.
Qed.

Lemma firstMatch_first before line after path :
  Forall (fun l => logPath l = None) before ->
  logPath line = Some path ->
  main.firstMatch (before ++ line :: after) = Some path.
Proof.
  induction 1 as [|l before Hl _ IH]; intros Hline; simpl app.
  - now rewrite firstMatch_cons, Hline.
  - rewrite firstMatch_cons, Hl. now apply IH.
Qed.

(** C8, as stated, fails on a text the scanner cannot read to its end: no
    line of the text matches the pattern, and the result is an error, not
    an empty path without error. *)
Lemma no_match_yet_an_error :
  forallb (fun l => match logPath l with None => true | Some _ => false end)
    (textLines oversized) = true /\
  main.findIDEDistrubutionLogsPath oversized = ("", Some bufio.ErrTooLong).
Proof. vm_compute. split; reflexivity. Qed.

(** C8 (amended): for every output that the scanner reads to its end, the
    result is the path captured from the first line that matches the
    pattern, later matching lines being ignored, and when no line matches
    it is the empty path with no error. *)
Theorem findIDEDistrubutionLogsPath_first_match output :
  scanSucceeds output ->
  (forall before line after path,
     textLines output = (before ++ line :: after)%list ->
     Forall (fun l => logPath l = None) before ->
     logPath line = Some path ->
     main.findIDEDistrubutionLogsPath output = (path, None)) /\
  (Forall (fun l => logPath l = None) (textLines output) ->
     main.findIDEDistrubutionLogsPath output = ("", None)).
Proof.
  intros Hs. unfold main.findIDEDistrubutionLogsPath. rewrite (Scan_complete _ Hs).
  split.
  - intros before line after path -> Hbefore Hline.
    now rewrite (firstMatch_first _ _ _ _ Hbefore Hline).
  - intros Hnone. now rewrite (firstMatch_none _ Hnone).
Qed.

Lemma findIDEDistrubutionLogsPath_first_match_witness :
  main.findIDEDistrubutionLogsPath exportLog = ("/tmp/logs/xyz", None) /\
  main.findIDEDistrubutionLogsPath "** EXPORT FAILED **" = ("", None).
Proof.
  split.
  - refine (proj1 (findIDEDistrubutionLogsPath_first_match exportLog eq_refl)
              ["** EXPORT FAILED **"] _ _ "/tmp/logs/xyz" eq_refl _ eq_refl).
    repeat constructor.
  - apply (proj2 (findIDEDistrubutionLogsPath_first_match "** EXPORT FAILED **" eq_refl)).
    repeat constructor.
Defined.

(** ** runArchiveCommandWithRetry *)

Ltac step_world :=
  cbn [fst snd step.removal step.execution step.executions step.trace].

Ltac filtered := rewrite ?filter_app, <- ?app_assoc; cbn; reflexivity.

(** C2: when the first execution fails, the cache path is not empty and the
    output holds the marker, the path is removed and the command is run
    once more, the second result being returned whatever it is; when the
    removal fails, its error is returned and the command is not run again;
    in every other case the command is run once and its result returned
    unchanged. *)
Theorem runArchiveCommandWithRetry_policy marker archiveCmd useXcpretty path w :
  let first := step.execution w (step.executions w) useXcpretty in
  let second := step.execution w (S (step.executions w)) useXcpretty in
  let result := fst (step.runArchiveCommandWithRetry marker archiveCmd useXcpretty path w) in
  let w' := snd (step.runArchiveCommandWithRetry marker archiveCmd useXcpretty path w) in
  (snd first <> None -> path <> "" -> strings.Contains (fst first) marker = true ->
     (step.removal w path = None ->
        result = second /\
        step.executions w' = (2 + step.executions w)%nat /\
        effects w' =
          (effects w ++ [step.Ran useXcpretty; step.RemovedAll path; step.Ran useXcpretty])%list)
     /\
     (forall e, step.removal w path = Some e ->
        result = (fst first,
                  Some (step.Errorf
                          ("failed to remove invalid Swift package caches, error: "
                           ++ step.Error e))) /\
        step.executions w' = (1 + step.executions w)%nat /\
        effects w' = (effects w ++ [step.Ran useXcpretty; step.RemovedAll path])%list))
  /\
  (snd first = None \/ path = "" \/ strings.Contains (fst first) marker = false ->
     result = first /\
     step.executions w' = (1 + step.executions w)%nat /\
     effects w' = (effects w ++ [step.Ran useXcpretty])%list).
Proof.
  intros first second result w'. subst result w' first second.
  unfold step.runArchiveCommandWithRetry, step.runArchiveCommand, state.bind, state.ret,
    step.emit, step.run, step.os_RemoveAll, effects.
  destruct useXcpretty; step_world;
    (destruct (step.execution w (step.executions w) _) as [output err]; cbn [fst snd]; split;
     [ intros Herr Hpath Hmarker;
       destruct err as [e0|]; [|congruence]; cbn [step.isNil negb andb];
       destruct (String.eqb_spec path ""); [congruence|]; cbn [negb andb]; rewrite Hmarker;
       step_world; split;
       [ intros ->; step_world; repeat split; filtered
       | intros e ->; step_world; repeat split; filtered ]
     | intros Hother;
       match goal with
       | |- context [if ?c then _ else _] =>
           assert (Hcond : c = false)
             by (destruct Hother as [H | [H | H]]; rewrite H; cbn;
                 rewrite ?andb_false_r; reflexivity);
           rewrite Hcond
       end;
       step_world; repeat split; filtered ]).
Qed.

Lemma runArchiveCommandWithRetry_policy_witness :
  fst (step.runArchiveCommandWithRetry "cache is invalid" buildCmd false "/tmp/spm"
         (failingOnce "error: cache is invalid" false))
    = ("** ARCHIVE SUCCEEDED **", None) /\
  fst (step.runArchiveCommandWithRetry "cache is invalid" buildCmd false "/tmp/spm"
         (failingOnce "error: cache is invalid" true))
    = ("error: cache is invalid",
       Some (step.Errorf
               "failed to remove invalid Swift package caches, error: permission denied")) /\
  effects (snd (step.runArchiveCommandWithRetry "cache is invalid" buildCmd false "/tmp/spm"
                  (failingOnce "error: something else" false)))
    = [step.Ran false].
Proof.
  split; [|split].
  - refine (proj1 (proj1 (proj1 (runArchiveCommandWithRetry_policy "cache is invalid" buildCmd
              false "/tmp/spm" (failingOnce "error: cache is invalid" false)) _ _ _) _)).
    + discriminate.
    + discriminate.
    + reflexivity.
    + reflexivity.
  - refine (proj1 (proj2 (proj1 (runArchiveCommandWithRetry_policy "cache is invalid" buildCmd
              false "/tmp/spm" (failingOnce "error: cache is invalid" true)) _ _ _)
              (step.foreign "permission denied") _)).
    + discriminate.
    + discriminate.
    + reflexivity.
    + reflexivity.
  - refine (proj2 (proj2 (proj2 (runArchiveCommandWithRetry_policy "cache is invalid" buildCmd
              false "/tmp/spm" (failingOnce "error: something else" false)) _))).
    right; right; reflexivity.
Defined.

(** ** The response pattern finds the first line that is an object *)

Lemma prefix_one a d s : prefix (String a "") (String d s) = Ascii.eqb a d.
Proof.
  cbn [prefix]. destruct (ascii_dec a d) as [->|n].
  - rewrite Ascii.eqb_refl. now destruct s.
  - symmetry. now apply Ascii.eqb_neq.
Qed.

Lemma firstLine_restOfLine s : s = firstLine s ++ restOfLine s.
Proof.
  induction s as [|c s IH]; cbn; [reflexivity|].
  destruct (Ascii.eqb c LF); cbn; [reflexivity | now rewrite <- IH].
Qed.

Lemma length_append l r : String.length (l ++ r) = String.length l + String.length r.
Proof. induction l as [|c l IH]; cbn; [reflexivity | now rewrite IH]. Qed.

Lemma consumed_app l r : regexp.consumed (l ++ r) r = l.
Proof.
  unfold regexp.consumed. rewrite length_append, Nat.add_sub.
  induction l as [|c l IH]; cbn.
  - destruct r; reflexivity.
  - now rewrite IH.
Qed.

Lemma consumed_line_cons c s :
  regexp.consumed (String c s) (restOfLine s) = String c (firstLine s).
Proof.
  change (String c s) with (String c "" ++ s).
  rewrite (firstLine_restOfLine s) at 1.
  change (String c "" ++ firstLine s ++ restOfLine s)
    with ((String c (firstLine s)) ++ restOfLine s).
  apply consumed_app.
Qed.

Section ObjectLine.
Variable whole : string.

Local Abbreviation final :=
  (fun (_ : option ascii) s' caps => Some (regexp.consumed whole s', caps)).
Local Abbreviation closing :=
  (fun p s' caps =>
     regexp.exec (regexp.Concat (regexp.Literal "}") regexp.EndLine) p s' caps final).

(** After the bytes of [.*], the rest of the pattern needs a closing brace
    that ends its line. *)
Lemma closing_here p d s2 :
  closing p (String d s2) [] =
    if Ascii.eqb d "}" && String.eqb (firstLine s2) ""
    then Some (regexp.consumed whole s2, []) else None.
Proof.
  cbn [regexp.exec]. rewrite prefix_one, Ascii.eqb_sym.
  destruct (Ascii.eqb d "}"); [|reflexivity]. cbn [andb regexp.skip].
  destruct s2 as [|e s3]; [reflexivity|]. cbn [firstLine].
  destruct (Ascii.eqb e LF); reflexivity.
Qed.

Lemma firstLine_empty s : String.eqb (firstLine s) "" = true -> restOfLine s = s.
Proof.
  destruct s as [|c s]; [reflexivity|]. cbn.
  destruct (Ascii.eqb c LF); [reflexivity | discriminate].
Qed.

Lemma anyStar_closing : forall s p,
  regexp.anyStar p s [] closing =
    if endsWithBrace (firstLine s)
    then Some (regexp.consumed whole (restOfLine s), []) else None.
Proof.
  induction s as [|d s2 IH]; intros p.
  - reflexivity.
  - cbn [regexp.anyStar firstLine restOfLine]. destruct (Ascii.eqb d LF) eqn:Ed.
    + rewrite closing_here.
      apply Ascii.eqb_eq in Ed. subst d. reflexivity.
    + rewrite IH, closing_here. cbn [endsWithBrace].
      destruct (firstLine s2) as [|e l] eqn:El.
      * cbn [endsWithBrace String.eqb]. rewrite andb_true_r.
        rewrite firstLine_empty by now rewrite El. reflexivity.
      * destruct (endsWithBrace (String e l)); [reflexivity|].
        cbn [String.eqb]. now rewrite andb_false_r.
Qed.

End ObjectLine.

Lemma exec_jsonRegexp prev s :
  regexp.exec spaceship.jsonRegexp prev s []
    (fun _ s' caps => Some (regexp.consumed s s', caps))
  = if lineStart prev && objectLine (firstLine s) then Some (firstLine s, []) else None.
Proof.
  unfold spaceship.jsonRegexp. cbn [regexp.exec].
  assert (G : (if prefix "{" s
               then regexp.exec
                      (regexp.Concat regexp.AnyStar
                         (regexp.Concat (regexp.Literal "}") regexp.EndLine))
                      (regexp.lastOf "{" prev) (regexp.skip "{" s) []
                      (fun _ s' caps => Some (regexp.consumed s s', caps))
               else None)
              = if objectLine (firstLine s) then Some (firstLine s, []) else None).
  { destruct s as [|c s1]; [reflexivity|].
    rewrite prefix_one, Ascii.eqb_sym. cbn [firstLine regexp.skip regexp.exec].
    destruct (Ascii.eqb c "{") eqn:Ec.
    - apply Ascii.eqb_eq in Ec. subst c. cbn [Ascii.eqb Bool.eqb andb objectLine].
      change (Ascii.eqb "{" LF) with false. cbv iota.
      change (Ascii.eqb "{" "{") with true. cbn [andb].
      rewrite (anyStar_closing (String "{" s1)), consumed_line_cons. reflexivity.
    - destruct (Ascii.eqb c LF); [reflexivity|]. cbn [objectLine]. now rewrite Ec. }
  destruct prev as [c|]; cbn [lineStart andb]; [|exact G].
  destruct (Ascii.eqb c LF); [exact G|reflexivity].
Qed.

Lemma pieces_head s : bufio.pieces s = firstLine s :: tl (bufio.pieces s).
Proof.
  induction s as [|c s IH]; cbn; [reflexivity|].
  destruct (Ascii.eqb c LF); [reflexivity|]. now rewrite IH.
Qed.

Lemma pieces_tail c s :
  tl (bufio.pieces (String c s)) =
    if Ascii.eqb c LF then bufio.pieces s else tl (bufio.pieces s).
Proof.
  cbn. destruct (Ascii.eqb c LF); [reflexivity|]. now destruct (bufio.pieces s).
Qed.

Lemma find_jsonRegexp : forall s prev,
  regexp.find spaceship.jsonRegexp prev s =
    match List.find objectLine
            (if lineStart prev then bufio.pieces s else tl (bufio.pieces s)) with
    | Some line => Some (line, [])
    | None => None
    end.
Proof.
  induction s as [|c s IH]; intros prev; cbn [regexp.find]; rewrite exec_jsonRegexp.
  - cbn. rewrite andb_false_r. now destruct (lineStart prev).
  - rewrite IH. cbn [lineStart]. rewrite <- pieces_tail.
    destruct (lineStart prev); cbn [andb]; [|reflexivity].
    remember (tl (bufio.pieces (String c s))) as t eqn:Et.
    rewrite (pieces_head (String c s)), <- Et. cbn [List.find].
    now destruct (objectLine (firstLine (String c s))).
Qed.

(** X1: what [jsonRegexp.FindString] gives is the first of the lines of the
    output, cut at LF, that is an object line, or the empty string. *)
Lemma FindString_jsonRegexp output :
  regexp.FindString spaceship.jsonRegexp output =
    match List.find objectLine (bufio.pieces output) with
    | Some line => line
    | None => ""
    end.
Proof.
  unfold regexp.FindString. rewrite find_jsonRegexp. cbn [lineStart].
  now destruct (List.find objectLine (bufio.pieces output)).
Qed.

Lemma find_nothing {A} (f : A -> bool) l :
  (forall x, In x l -> f x = false) -> List.find f l = None.
Proof.
  induction l as [|x l IH]; intros H; cbn; [reflexivity|].
  rewrite (H x) by now left. apply IH. intros y Hy. apply H. now right.
Qed.

Lemma objectLine_nonempty line : objectLine line = true -> String.eqb line "" = false.
Proof. destruct line; [discriminate | reflexivity]. Qed.

(** ** The bridge: one attempt *)

Section BridgeFacts.
Variable unmarshal : string -> spaceship.response + string.
Variables (c : spaceship.Client) (subCommand : string) (opts : list string).

Local Abbreviation cmd := (fst (spaceship.createSpaceshipCommand c subCommand opts)).
Local Abbreviation logged := [spaceship.Debugf "$ %s" [spaceship.printableCommandArgs cmd]].
Local Abbreviation ran := (logged ++ [spaceship.Started (spaceship.command cmd)])%list.

Lemma after_after w n events m events' :
  after (after w n events) m events' = after w (m + n) (events ++ events').
Proof.
  unfold after; cbn. now rewrite Nat.add_assoc, app_assoc.
Qed.

Lemma timeline_after w n events :
  timeline (after w n events) = (timeline w ++ filter isAction events)%list.
Proof. unfold timeline, after; cbn. apply filter_app. Qed.

Lemma runSpaceshipCommandOnce_world w :
  snd (spaceship.runSpaceshipCommandOnce unmarshal cmd w)
    = after w 1 [spaceship.Started (spaceship.command cmd)].
Proof.
  unfold spaceship.runSpaceshipCommandOnce, state.bind,
    spaceship.RunAndReturnTrimmedCombinedOutput, state.ret.
  destruct (spaceship.process w (spaceship.started w) (spaceship.command cmd))
    as [output [[code|]|]]; reflexivity.
Qed.

Lemma runSpaceshipCommandOnce_exit w output code :
  spaceship.process w (spaceship.started w) (spaceship.command cmd)
    = (output, Some (spaceship.ExitError code)) ->
  fst (spaceship.runSpaceshipCommandOnce unmarshal cmd w)
    = (output,
       Some (spaceship.Errorf ("spaceship command exited with status " ++ itoa code
                               ++ ", output: " ++ output))).
Proof.
  intros H. unfold spaceship.runSpaceshipCommandOnce, state.bind,
    spaceship.RunAndReturnTrimmedCombinedOutput, state.ret.
  now rewrite H.
Qed.

Lemma runSpaceshipCommandOnce_success w output :
  spaceship.process w (spaceship.started w) (spaceship.command cmd) = (output, None) ->
  fst (spaceship.runSpaceshipCommandOnce unmarshal cmd w)
    = spaceship.readResponse unmarshal output.
Proof.
  intros H. unfold spaceship.runSpaceshipCommandOnce, state.bind,
    spaceship.RunAndReturnTrimmedCombinedOutput, state.ret.
  now rewrite H.
Qed.

Lemma runSpaceshipCommandOnce_failed w output err :
  spaceship.process w (spaceship.started w) (spaceship.command cmd) = (output, Some err) ->
  exists e, fst (spaceship.runSpaceshipCommandOnce unmarshal cmd w) = (output, Some e).
Proof.
  intros H. unfold spaceship.runSpaceshipCommandOnce, state.bind,
    spaceship.RunAndReturnTrimmedCombinedOutput, state.ret.
  rewrite H. destruct err; cbn [fst]; eauto.
Qed.

(** A response that is not accepted leaves no output behind. *)
Lemma readResponse_error output out e :
  spaceship.readResponse unmarshal output = (out, Some e) -> out = "".
Proof.
  unfold spaceship.readResponse.
  destruct (String.eqb _ ""); [now intros [= <- _]|].
  destruct (unmarshal _) as [r|msg]; [|now intros [= <- _]].
  destruct (spaceship.ShouldRetry r); [now intros [= <- _]|].
  destruct (negb _); [now intros [= <- _] | discriminate].
Qed.

(** A failed attempt is given up for a retry only when the process itself
    failed and its output holds the marker. *)
Lemma retry_needs_failed_process w out e :
  fst (spaceship.runSpaceshipCommandOnce unmarshal cmd w) = (out, Some e) ->
  spaceship.shouldRetrySpaceshipCommand out = true ->
  exists err, spaceship.process w (spaceship.started w) (spaceship.command cmd)
              = (out, Some err).
Proof.
  unfold spaceship.runSpaceshipCommandOnce, state.bind,
    spaceship.RunAndReturnTrimmedCombinedOutput, state.ret.
  destruct (spaceship.process w (spaceship.started w) (spaceship.command cmd))
    as [output [[code|]|]]; cbn [fst].
  - intros [= <- _] _. eauto.
  - intros [= <- _] _. eauto.
  - intros H. apply readResponse_error in H as ->. discriminate.
Qed.

(** One turn of the loop. *)
Lemma attempts_cons i rest out0 err0 w :
  spaceship.attempts unmarshal c subCommand opts (i :: rest) out0 err0 w =
    match fst (spaceship.runSpaceshipCommandOnce unmarshal cmd (after w 0 logged)) with
    | (out, None) => ((out, None), after w 1 ran)
    | (out, Some e) =>
        if spaceship.shouldRetrySpaceshipCommand out then
          spaceship.attempts unmarshal c subCommand opts rest out (Some e)
            (after w 1 (ran ++ backoff out i))
        else (("", Some e), after w 1 ran)
    end.
Proof.
  cbn [spaceship.attempts].
  change (spaceship.createSpaceshipCommand c subCommand opts)
    with (cmd, @None spaceship.error) at 1.
  cbv iota beta. unfold state.bind at 1. unfold spaceship.emit at 1.
  change {| spaceship.process := spaceship.process w;
                         spaceship.started := spaceship.started w;
                         spaceship.trace := (spaceship.trace w ++ logged)%list |}
    with (after w 0 logged).
  unfold state.bind at 1.
  rewrite (surjective_pairing (spaceship.runSpaceshipCommandOnce unmarshal cmd (after w 0 logged))).
  rewrite runSpaceshipCommandOnce_world, after_after.
  destruct (fst (spaceship.runSpaceshipCommandOnce unmarshal cmd (after w 0 logged)))
    as [out [e|]]; cbn [fst]; [|reflexivity].
  destruct (spaceship.shouldRetrySpaceshipCommand out); [|reflexivity].
  unfold state.bind, spaceship.emit. cbn [spaceship.process spaceship.started spaceship.trace after].
  unfold backoff. rewrite <- !app_assoc. reflexivity.
Qed.

(** A turn of the loop, by what its process does. *)
Lemma attempts_given_up i rest out0 err0 w out err :
  spaceship.process w (spaceship.started w) (spaceship.command cmd) = (out, Some err) ->
  spaceship.shouldRetrySpaceshipCommand out = true ->
  exists e,
    spaceship.attempts unmarshal c subCommand opts (i :: rest) out0 err0 w
    = spaceship.attempts unmarshal c subCommand opts rest out (Some e)
        (after w 1 (ran ++ backoff out i)).
Proof.
  intros P R. rewrite attempts_cons.
  destruct (runSpaceshipCommandOnce_failed (after w 0 logged) out err P) as [e ->].
  rewrite R. eauto.
Qed.

Lemma attempts_not_given_up i rest out0 err0 w out err :
  spaceship.process w (spaceship.started w) (spaceship.command cmd) = (out, Some err) ->
  spaceship.shouldRetrySpaceshipCommand out = false ->
  exists e,
    spaceship.attempts unmarshal c subCommand opts (i :: rest) out0 err0 w
    = (("", Some e), after w 1 ran).
Proof.
  intros P R. rewrite attempts_cons.
  destruct (runSpaceshipCommandOnce_failed (after w 0 logged) out err P) as [e ->].
  rewrite R. eauto.
Qed.

Lemma attempts_status_0 i rest out0 err0 w output :
  spaceship.process w (spaceship.started w) (spaceship.command cmd) = (output, None) ->
  spaceship.attempts unmarshal c subCommand opts (i :: rest) out0 err0 w
  = (spaceship.readResponse unmarshal output, after w 1 ran).
Proof.
  intros P. rewrite attempts_cons.
  rewrite (runSpaceshipCommandOnce_success (after w 0 logged) output P).
  destruct (spaceship.readResponse unmarshal output) as [out [e|]] eqn:E; [|reflexivity].
  apply readResponse_error in E as ->. reflexivity.
Qed.

Lemma readResponse_flag output payload response :
  List.find objectLine (bufio.pieces output) = Some payload ->
  unmarshal payload = inl response ->
  spaceship.ShouldRetry response = true ->
  spaceship.readResponse unmarshal output
  = ("", Some (spaceship.ProfilesInconsistentError
                 (spaceship.errorString (spaceship.Error response)))).
Proof.
  intros Hfind Hdecode Hflag. unfold spaceship.readResponse, regexp.FindString.
  rewrite find_jsonRegexp. cbn [lineStart]. rewrite Hfind.
  rewrite (objectLine_nonempty _ (proj2 (find_some _ _ Hfind))), Hdecode, Hflag.
  reflexivity.
Qed.

End BridgeFacts.

(** ** The bridge: the claims *)

(** C7: an attempt whose process exits with status 0 and whose output has
    no line of the shape of a JSON object (an opening brace first, a
    closing brace last) ends the call with a format error: no sleep and no
    further attempt follow. *)
Theorem missing_response_not_retried unmarshal c subCommand opts i rest out0 err0 w output :
  let cmd := fst (spaceship.createSpaceshipCommand c subCommand opts) in
  spaceship.process w (spaceship.started w) (spaceship.command cmd) = (output, None) ->
  (forall line, In line (bufio.pieces output) -> objectLine line = false) ->
  let r := spaceship.attempts unmarshal c subCommand opts (i :: rest) out0 err0 w in
  fst r = ("", Some (spaceship.Errorf ("output does not contain response: " ++ output))) /\
  spaceship.started (snd r) = S (spaceship.started w) /\
  timeline (snd r) = (timeline w ++ [spaceship.Started (spaceship.command cmd)])%list.
Proof.
  intros cmd Hproc Hnone r. subst r cmd. rewrite attempts_cons.
  rewrite runSpaceshipCommandOnce_success with (output := output) by exact Hproc.
  unfold spaceship.readResponse.
  rewrite FindString_jsonRegexp, (find_nothing _ _ Hnone). cbn [String.eqb].
  cbn [spaceship.shouldRetrySpaceshipCommand String.eqb fst snd].
  rewrite timeline_after. repeat split.
Qed.

Lemma missing_response_not_retried_witness :
  fst (spaceship.runSpaceshipCommand spaceship.decodeResponse client "list_devices" []
         (scripted (fun _ => ("Traceback (most recent call last)", None))))
    = ("", Some (spaceship.Errorf
                   "output does not contain response: Traceback (most recent call last)")).
Proof.
  apply (missing_response_not_retried spaceship.decodeResponse client "list_devices" []
           1%Z [2; 3]%Z "" None
           (scripted (fun _ => ("Traceback (most recent call last)", None)))
           "Traceback (most recent call last)" eq_refl).
  intros line [<- | []]. reflexivity.
Defined.

(** C1, as stated, fails: with a retry-requested response on attempts 1 and
    2 and a clean one on attempt 3, the call does not reach attempt 3.  It
    ends on attempt 1 with the typed error; nothing sleeps and one process
    runs. *)
Lemma retry_flag_ends_the_call :
  let r := spaceship.runSpaceshipCommand spaceship.decodeResponse client "list_devices" []
             (scripted retryTwiceThenClean) in
  fst r = ("", Some (spaceship.ProfilesInconsistentError (spaceship.errorString "x"))) /\
  spaceship.started (snd r) = 1%nat /\
  timeline (snd r)
    = [spaceship.Started
         (spaceship.command
            (fst (spaceship.createSpaceshipCommand client "list_devices" [])))].
Proof. vm_compute. repeat split. Qed.

(** C1 (amended): an attempt, of any index, whose process exits with status
    0 and whose response (the first object line of the output) parses with
    the retry flag set ends the call at once with the typed
    profiles-inconsistent error that wraps the response's error field; no
    sleep and no further attempt follow. *)
Theorem retry_flag_returns_typed_error
  unmarshal c subCommand opts i rest out0 err0 w output payload response :
  let cmd := fst (spaceship.createSpaceshipCommand c subCommand opts) in
  spaceship.process w (spaceship.started w) (spaceship.command cmd) = (output, None) ->
  List.find objectLine (bufio.pieces output) = Some payload ->
  unmarshal payload = inl response ->
  spaceship.ShouldRetry response = true ->
  let r := spaceship.attempts unmarshal c subCommand opts (i :: rest) out0 err0 w in
  fst r = ("", Some (spaceship.ProfilesInconsistentError
                       (spaceship.errorString (spaceship.Error response)))) /\
  spaceship.started (snd r) = S (spaceship.started w) /\
  timeline (snd r) = (timeline w ++ [spaceship.Started (spaceship.command cmd)])%list.
Proof.
  intros cmd Hproc Hfind Hdecode Hretry r. subst r cmd. rewrite attempts_cons.
  rewrite runSpaceshipCommandOnce_success with (output := output) by exact Hproc.
  unfold spaceship.readResponse. rewrite FindString_jsonRegexp, Hfind.
  rewrite (objectLine_nonempty _ (proj2 (find_some _ _ Hfind))), Hdecode, Hretry.
  cbn [spaceship.shouldRetrySpaceshipCommand String.eqb fst snd].
  rewrite timeline_after. repeat split.
Qed.

Lemma retry_flag_returns_typed_error_witness :
  fst (spaceship.runSpaceshipCommand spaceship.decodeResponse client "list_devices" []
         (scripted retryTwiceThenClean))
    = ("", Some (spaceship.ProfilesInconsistentError (spaceship.errorString "x"))).
Proof.
  apply (retry_flag_returns_typed_error spaceship.decodeResponse client "list_devices" []
           1%Z [2; 3]%Z "" None (scripted retryTwiceThenClean)
           retryResponse retryResponse
           {| spaceship.Error := "x"; spaceship.ShouldRetry := true |}
           eq_refl eq_refl eq_refl eq_refl).
Defined.

(** C4, as stated, fails: a process that exits with status 1 is retried
    when its output holds the 503 marker.  Three such processes run, with a
    sleep after each. *)
Lemma exit_status_with_marker_is_retried :
  let r := spaceship.runSpaceshipCommand spaceship.decodeResponse client "list_devices" []
             (scripted alwaysUnavailable) in
  let cmd := spaceship.command
               (fst (spaceship.createSpaceshipCommand client "list_devices" [])) in
  spaceship.started (snd r) = 3%nat /\
  timeline (snd r)
    = [spaceship.Started cmd; spaceship.Slept (15 * spaceship.Second);
       spaceship.Started cmd; spaceship.Slept (30 * spaceship.Second);
       spaceship.Started cmd; spaceship.Slept (45 * spaceship.Second)].
Proof. vm_compute. repeat split. Qed.

(** C4 (amended): an attempt whose process fails with an exit status ends
    the call at once with a descriptive error when its output does not hold
    the 503 marker; when the output holds the marker, the attempt is given
    up for a retry: the bridge sleeps [i * 15] seconds and goes on with the
    attempts that remain. *)
Theorem exit_status_failure unmarshal c subCommand opts i rest out0 err0 w output exitCode :
  let cmd := fst (spaceship.createSpaceshipCommand c subCommand opts) in
  let logged := [spaceship.Debugf "$ %s" [spaceship.printableCommandArgs cmd];
                 spaceship.Started (spaceship.command cmd)] in
  let e := spaceship.Errorf ("spaceship command exited with status " ++ itoa exitCode
                             ++ ", output: " ++ output) in
  spaceship.process w (spaceship.started w) (spaceship.command cmd)
    = (output, Some (spaceship.ExitError exitCode)) ->
  (spaceship.shouldRetrySpaceshipCommand output = false ->
     spaceship.attempts unmarshal c subCommand opts (i :: rest) out0 err0 w
       = (("", Some e), after w 1 logged)) /\
  (spaceship.shouldRetrySpaceshipCommand output = true ->
     spaceship.attempts unmarshal c subCommand opts (i :: rest) out0 err0 w
       = spaceship.attempts unmarshal c subCommand opts rest output (Some e)
           (after w 1 (logged ++ backoff output i))).
Proof.
  intros cmd logged e Hproc. subst cmd logged e. rewrite attempts_cons.
  rewrite runSpaceshipCommandOnce_exit with (output := output) (code := exitCode)
    by exact Hproc.
  split; intros ->; reflexivity.
Qed.

Lemma exit_status_failure_witness :
  fst (spaceship.runSpaceshipCommand spaceship.decodeResponse client "list_devices" []
         (scripted alwaysCrashing))
    = ("", Some (spaceship.Errorf
         "spaceship command exited with status 1, output: ruby: No such file or directory")) /\
  timeline (snd (spaceship.runSpaceshipCommand spaceship.decodeResponse client "list_devices" []
                   (scripted alwaysCrashing)))
    = [spaceship.Started
         (spaceship.command (fst (spaceship.createSpaceshipCommand client "list_devices" [])))].
Proof.
  unfold spaceship.runSpaceshipCommand.
  rewrite (proj1 (exit_status_failure spaceship.decodeResponse client "list_devices" []
                    1%Z [2; 3]%Z "" None (scripted alwaysCrashing)
                    "ruby: No such file or directory" 1%Z eq_refl) eq_refl).
  split; reflexivity.
Defined.

(** C6, as stated, fails twice.  After a third attempt that is given up the
    bridge sleeps 45 seconds although no attempt follows; and a response
    with the retry flag does not enter the backoff schedule at all: the
    call ends after one attempt without a sleep. *)
Lemma sleep_after_last_attempt_and_flag_outside_schedule :
  let cmd := spaceship.command
               (fst (spaceship.createSpaceshipCommand client "list_devices" [])) in
  last (timeline (snd (spaceship.runSpaceshipCommand spaceship.decodeResponse client
                         "list_devices" [] (scripted alwaysUnavailable))))
       (spaceship.Started cmd)
    = spaceship.Slept (45 * spaceship.Second) /\
  timeline (snd (spaceship.runSpaceshipCommand spaceship.decodeResponse client
                   "list_devices" [] (scripted (fun _ => (retryResponse, None)))))
    = [spaceship.Started cmd].
Proof. vm_compute. split; reflexivity. Qed.

Ltac attempt_turn E R :=
  rewrite attempts_cons;
  match goal with
  | |- context [fst (spaceship.runSpaceshipCommandOnce ?u ?cmd ?w)] =>
      destruct (fst (spaceship.runSpaceshipCommandOnce u cmd w)) as [? [?|]] eqn:E;
      [ match goal with
        | |- context [spaceship.shouldRetrySpaceshipCommand ?o] =>
            destruct (spaceship.shouldRetrySpaceshipCommand o) eqn:R
        end
      | ]
  end.

Ltac failed_process E R err P :=
  apply retry_needs_failed_process in E as [err P]; [|exact R];
  cbn [after spaceship.process spaceship.started Nat.add] in P.

Ltac given_up P R e :=
  match goal with
  | |- context [spaceship.attempts ?u ?c ?sc ?o (?i :: ?rest) ?out0 ?err0 ?w0] =>
      destruct (attempts_given_up u c sc o i rest out0 err0 w0 _ _ P R) as [e ->]
  end.

Ltac not_given_up P R e :=
  match goal with
  | |- context [spaceship.attempts ?u ?c ?sc ?o (?i :: ?rest) ?out0 ?err0 ?w0] =>
      destruct (attempts_not_given_up u c sc o i rest out0 err0 w0 _ _ P R) as [e ->]
  end.

Ltac status_0 P :=
  match goal with
  | |- context [spaceship.attempts ?u ?c ?sc ?o (?i :: ?rest) ?out0 ?err0 ?w0] =>
      rewrite (attempts_status_0 u c sc o i rest out0 err0 w0 _ P)
  end.

Ltac close_call :=
  cbn [fst snd andb Nat.eqb];
  rewrite ?timeline_after, <- ?app_assoc;
  split; [lia|];
  split; [reflexivity|];
  split; [intros [|[|k]] Hk; try lia; eauto|];
  split; [reflexivity|];
  split; [intros [Hn | Hg]; try lia; try discriminate; reflexivity|];
  intros [|[|[|k]]] output payload response Hk Pk Hfind Hdecode Hflag;
  try lia; try congruence;
  (split; [reflexivity|]); (split; [reflexivity|]);
  match goal with
  | P : spaceship.process _ _ _ = (?o, None) |- _ =>
      assert (output = o) as -> by congruence
  end;
  now apply readResponse_flag with (payload := payload).

(** C6 (amended): at most three attempts are made, one after the other;
    an attempt is followed by another only when it is given up for a
    retry, its process having failed with the 503 marker in its output, and
    between attempt [i] and attempt [i+1] lies a sleep of [i * 15] seconds
    and nothing else.  No sleep follows the last attempt, but for one case:
    a third attempt that is given up is followed by a sleep of 45 seconds.
    A response with the retry flag is no trigger: the attempt that reads it
    is the last, nothing sleeps after it, and the call returns the typed
    error. *)
Theorem attempts_bounded_and_ordered unmarshal c subCommand opts w :
  let cmd := spaceship.command (fst (spaceship.createSpaceshipCommand c subCommand opts)) in
  let r := spaceship.runSpaceshipCommand unmarshal c subCommand opts w in
  let n := attemptsMade w cmd in
  (1 <= n <= 3)%nat /\
  spaceship.started (snd r) = (n + spaceship.started w)%nat /\
  (forall k, (k + 1 < n)%nat ->
     exists out err,
       spaceship.process w (k + spaceship.started w)%nat cmd = (out, Some err) /\
       spaceship.shouldRetrySpaceshipCommand out = true) /\
  timeline (snd r)
    = (timeline w ++ schedule cmd n
       ++ (if (n =? 3)%nat && givenUp w cmd 2
           then [spaceship.Slept (3 * 15 * spaceship.Second)] else []))%list /\
  ((n < 3)%nat \/ givenUp w cmd 2 = false ->
     timeline (snd r) = (timeline w ++ schedule cmd n)%list) /\
  (forall k output payload response,
     (k < n)%nat ->
     spaceship.process w (k + spaceship.started w)%nat cmd = (output, None) ->
     List.find objectLine (bufio.pieces output) = Some payload ->
     unmarshal payload = inl response ->
     spaceship.ShouldRetry response = true ->
     n = S k /\
     timeline (snd r) = (timeline w ++ schedule cmd n)%list /\
     fst r = ("", Some (spaceship.ProfilesInconsistentError
                          (spaceship.errorString (spaceship.Error response))))).
Proof.
  intros cmd r n. subst cmd r n.
  unfold spaceship.runSpaceshipCommand, attemptsMade, givenUp.
  destruct (spaceship.process w (0 + spaceship.started w) _) as [out1 [err1|]] eqn:P1;
    [destruct (spaceship.shouldRetrySpaceshipCommand out1) eqn:R1|].
  - given_up P1 R1 e1.
    destruct (spaceship.process w (1 + spaceship.started w) _) as [out2 [err2|]] eqn:P2;
      [destruct (spaceship.shouldRetrySpaceshipCommand out2) eqn:R2|].
    + given_up P2 R2 e2.
      destruct (spaceship.process w (2 + spaceship.started w) _) as [out3 [err3|]] eqn:P3;
        [destruct (spaceship.shouldRetrySpaceshipCommand out3) eqn:R3|].
      * given_up P3 R3 e3. cbn [spaceship.attempts]. unfold state.ret. close_call.
      * not_given_up P3 R3 e3. close_call.
      * status_0 P3. close_call.
    + not_given_up P2 R2 e2. close_call.
    + status_0 P2. close_call.
  - not_given_up P1 R1 e1. close_call.
  - status_0 P1. close_call.
Qed.





(** The loop only adds to the record of the world. *)
Lemma attempts_extend_trace unmarshal c subCommand opts indices :
  forall out0 err0 w,
  exists events,
    spaceship.trace (snd (spaceship.attempts unmarshal c subCommand opts indices out0 err0 w))
      = (spaceship.trace w ++ events)%list.
Proof.
  induction indices as [|i rest IH]; intros out0 err0 w.
  - exists []. cbn. now rewrite app_nil_r.
  - rewrite attempts_cons.
    destruct (fst (spaceship.runSpaceshipCommandOnce _ _ _)) as [out [e|]].
    + destruct (spaceship.shouldRetrySpaceshipCommand out).
      * destruct (IH out (Some e)
                    (after w 1
                       (([spaceship.Debugf "$ %s"
                            [spaceship.printableCommandArgs
                               (fst (spaceship.createSpaceshipCommand c subCommand opts))]]
                         ++ [spaceship.Started
                               (spaceship.command
                                  (fst (spaceship.createSpaceshipCommand c subCommand opts)))])
                        ++ backoff out i))) as [events H].
        rewrite H. cbn [after spaceship.trace]. rewrite <- app_assoc. eauto.
      * cbn [snd after spaceship.trace]. eauto.
    + cbn [snd after spaceship.trace]. eauto.
Qed.

(** ** Base 64 *)

Lemma lor_low x y k : (y < 2 ^ k)%N -> N.lor (N.shiftl x k) y = (x * 2 ^ k + y)%N.
Proof.
  intros Hy. rewrite N.shiftl_mul_pow2.
  assert (Hland : N.land (x * 2 ^ k) y = 0%N).
  { apply N.bits_inj. intros n. rewrite N.land_spec, N.bits_0.
    destruct (N.ltb_spec n k) as [Hlt | Hge].
    - now rewrite N.mul_pow2_bits_low.
    - rewrite <- (N.mod_small y (2 ^ k)) by exact Hy.
      rewrite N.mod_pow2_bits_high by exact Hge. apply andb_false_r. }
  rewrite <- N.lxor_lor by exact Hland. symmetry. now apply N.add_nocarry_lxor.
Qed.

Lemma byte_bound c : (base64.byte c < 256)%N.
Proof. apply N_ascii_bounded. Qed.

Lemma digit_div val shift :
  N.land (N.shiftr val shift) 63 = ((val / 2 ^ shift) mod 64)%N.
Proof.
  change 63%N with (N.ones 6). rewrite N.land_ones, N.shiftr_div_pow2. reflexivity.
Qed.

(** The alphabet of the encoder is the table of the RFC, and holds no pad. *)
Lemma alphabet_table :
  forallb (fun k =>
             match String.get k base64.encodeStd with
             | Some c =>
                 match rfc4648.value c with
                 | Some v => (v =? N.of_nat k)%N && negb (rfc4648.isPad c)
                 | None => false
                 end
             | None => false
             end) (seq 0 64) = true.
Proof. vm_compute. reflexivity. Qed.

Lemma code_value val shift :
  rfc4648.value (base64.code val shift) = Some ((val / 2 ^ shift) mod 64)%N /\
  rfc4648.isPad (base64.code val shift) = false.
Proof.
  unfold base64.code. rewrite digit_div.
  assert (Hk : (N.to_nat ((val / 2 ^ shift) mod 64) < 64)%nat).
  { pose proof (N.mod_upper_bound (val / 2 ^ shift) 64). lia. }
  pose proof (proj1 (forallb_forall _ _) alphabet_table
                (N.to_nat ((val / 2 ^ shift) mod 64))) as Htable.
  cbv beta in Htable.
  specialize (Htable (proj2 (in_seq _ _ _) (conj (Nat.le_0_l _) Hk))).
  destruct (String.get _ base64.encodeStd) as [c|]; [|discriminate].
  destruct (rfc4648.value c) as [v|]; [|discriminate].
  apply andb_prop in Htable as [Hv Hpad].
  apply N.eqb_eq in Hv. rewrite N2Nat.id in Hv. subst v.
  split; [reflexivity | now apply negb_true_iff].
Qed.

Lemma octet_byte c : rfc4648.octet (base64.byte c) = c.
Proof.
  unfold rfc4648.octet, base64.byte.
  rewrite N.mod_small by apply N_ascii_bounded. apply ascii_N_embedding.
Qed.

Ltac digits :=
  cbn [rfc4648.values fold_right];
  repeat match goal with
         | |- context [rfc4648.value (base64.code ?v ?s)] =>
             rewrite (proj1 (code_value v s))
         end;
  cbv beta iota; unfold rfc4648.concat6; cbn [fold_left].

Ltac euclid := zify; Z.to_euclidean_division_equations; lia.

Ltac powers :=
  change (2 ^ 18)%N with 262144%N; change (2 ^ 12)%N with 4096%N;
  change (2 ^ 6)%N with 64%N; change (2 ^ 0)%N with 1%N.

Lemma octet_of n c : (n mod 256 = base64.byte c)%N -> rfc4648.octet n = c.
Proof. unfold rfc4648.octet, base64.byte. intros ->. apply ascii_N_embedding. Qed.

Lemma decode_three a b c octets rest :
  rfc4648.decode rest = Some octets ->
  let val := N.lor (N.lor (N.shiftl (base64.byte a) 16) (N.shiftl (base64.byte b) 8))
               (base64.byte c) in
  rfc4648.decode
    (String (base64.code val 18) (String (base64.code val 12)
       (String (base64.code val 6) (String (base64.code val 0) rest))))
  = Some (String a (String b (String c octets))).
Proof.
  intros Hrest val.
  pose proof (byte_bound a). pose proof (byte_bound b). pose proof (byte_bound c).
  assert (Hval : val = (base64.byte a * 65536 + base64.byte b * 256 + base64.byte c)%N).
  { subst val. change 16%N with (8 + 8)%N. rewrite <- N.shiftl_shiftl, <- N.shiftl_lor.
    rewrite (lor_low _ (base64.byte b) 8) by (cbn; lia).
    rewrite lor_low by (cbn; lia). cbn. lia. }
  cbn [rfc4648.decode].
  rewrite (proj2 (code_value val 6)), andb_false_l.
  rewrite (proj2 (code_value val 0)), andb_false_l.
  digits. rewrite Hrest. clearbody val. subst val. powers.
  repeat f_equal; apply octet_of; euclid.
Qed.

Lemma decode_two a b :
  let val := N.lor (N.shiftl (base64.byte a) 16) (N.shiftl (base64.byte b) 8) in
  rfc4648.decode
    (String (base64.code val 18) (String (base64.code val 12)
       (String (base64.code val 6) (String base64.padChar ""))))
  = Some (String a (String b "")).
Proof.
  intros val.
  pose proof (byte_bound a). pose proof (byte_bound b).
  assert (Hval : val = (base64.byte a * 65536 + base64.byte b * 256)%N).
  { subst val. change 16%N with (8 + 8)%N. rewrite <- N.shiftl_shiftl, <- N.shiftl_lor.
    rewrite (lor_low _ (base64.byte b) 8) by (cbn; lia).
    rewrite N.shiftl_mul_pow2. cbn. lia. }
  cbn [rfc4648.decode].
  rewrite (proj2 (code_value val 6)), andb_false_l.
  change (rfc4648.isPad base64.padChar) with true. cbn [andb String.eqb].
  digits. clearbody val. subst val. powers.
  repeat f_equal; apply octet_of; euclid.
Qed.

Lemma decode_one a :
  let val := N.shiftl (base64.byte a) 16 in
  rfc4648.decode
    (String (base64.code val 18) (String (base64.code val 12)
       (String base64.padChar (String base64.padChar ""))))
  = Some (String a "").
Proof.
  intros val.
  pose proof (byte_bound a).
  assert (Hval : val = (base64.byte a * 65536)%N).
  { subst val. rewrite N.shiftl_mul_pow2. cbn. lia. }
  cbn [rfc4648.decode].
  change (rfc4648.isPad base64.padChar) with true. cbn [andb String.eqb].
  digits. clearbody val. subst val. powers.
  repeat f_equal; apply octet_of; euclid.
Qed.

(** What the encoder writes decodes, by the RFC, to what it was given. *)
Lemma decode_EncodeToString src : rfc4648.decode (base64.EncodeToString src) = Some src.
Proof.
  assert (H : forall n src, (String.length src <= n)%nat ->
                rfc4648.decode (base64.EncodeToString src) = Some src).
  { clear src. induction n as [|n IH]; intros src Hlen.
    - destruct src; [reflexivity | cbn in Hlen; lia].
    - destruct src as [|a [|b [|c rest]]].
      + reflexivity.
      + apply decode_one.
      + apply decode_two.
      + cbn [base64.EncodeToString]. apply decode_three. apply IH.
        cbn [String.length] in Hlen. lia. }
  apply (H (String.length src)). lia.
Qed.

(** The encoder writes four characters for every three bytes begun. *)
Lemma length_EncodeToString src :
  String.length (base64.EncodeToString src) = (4 * ((String.length src + 2) / 3))%nat.
Proof.
  assert (H : forall n src, (String.length src <= n)%nat ->
                String.length (base64.EncodeToString src)
                = (4 * ((String.length src + 2) / 3))%nat).
  { clear src. induction n as [|n IH]; intros src Hlen.
    - destruct src; [reflexivity | cbn in Hlen; lia].
    - destruct src as [|a [|b [|c rest]]]; try reflexivity.
      cbn [base64.EncodeToString String.length] in *. rewrite IH by lia.
      replace (S (S (S (String.length rest))) + 2)%nat
        with ((String.length rest + 2) + 1 * 3)%nat by lia.
      rewrite Nat.div_add by lia. lia. }
  apply (H (String.length src)). lia.
Qed.

(** C9: the printable form of the command is the joined sub-command and
    options and nothing else, so it is the same whatever the credentials
    are; the command that is executed carries user name, password, the
    session in base64 and the team identifier after them; what stands for
    the session is base 64 as RFC 4648 has it: four characters for every
    three bytes begun, which decode to the session; and what an attempt
    logs of the command is the printable form. *)
Theorem printable_command_hides_auth c c' subCommand opts :
  let built := fst (spaceship.createSpaceshipCommand c subCommand opts) in
  let built' := fst (spaceship.createSpaceshipCommand c' subCommand opts) in
  spaceship.printableCommandArgs built = spaceship.printableCommandArgs built' /\
  spaceship.printableCommandArgs built
    = strings.Join ("main.rb" :: "--subcommand" :: subCommand :: opts) " " /\
  spaceship.args (spaceship.command built)
    = ("main.rb" :: "--subcommand" :: subCommand :: opts
       ++ ["--username"; spaceship.Username (spaceship.authConfig c);
           "--password"; spaceship.Password (spaceship.authConfig c);
           "--session"; base64.EncodeToString (spaceship.Session (spaceship.authConfig c));
           "--team-id"; spaceship.teamID c])%list /\
  (exists session64,
     spaceship.args (spaceship.command built)
       = ("main.rb" :: "--subcommand" :: subCommand :: opts
          ++ ["--username"; spaceship.Username (spaceship.authConfig c);
              "--password"; spaceship.Password (spaceship.authConfig c);
              "--session"; session64;
              "--team-id"; spaceship.teamID c])%list /\
     rfc4648.decode session64 = Some (spaceship.Session (spaceship.authConfig c)) /\
     String.length session64
       = (4 * ((String.length (spaceship.Session (spaceship.authConfig c)) + 2) / 3))%nat) /\
  (forall unmarshal i rest out0 err0 w,
     exists events,
       spaceship.trace
         (snd (spaceship.attempts unmarshal c subCommand opts (i :: rest) out0 err0 w))
       = (spaceship.trace w
          ++ spaceship.Debugf "$ %s"
               [strings.Join ("main.rb" :: "--subcommand" :: subCommand :: opts) " "]
          :: spaceship.Started (spaceship.command built) :: events)%list).
Proof.
  intros built built'. subst built built'.
  split; [reflexivity|]. split; [reflexivity|]. split; [reflexivity|].
  split.
  { exists (base64.EncodeToString (spaceship.Session (spaceship.authConfig c))).
    split; [reflexivity|]. split; [apply decode_EncodeToString | apply length_EncodeToString]. }
  intros unmarshal i rest out0 err0 w. rewrite attempts_cons.
  destruct (fst (spaceship.runSpaceshipCommandOnce _ _ _)) as [out [e|]].
  - destruct (spaceship.shouldRetrySpaceshipCommand out).
    + destruct (attempts_extend_trace unmarshal c subCommand opts rest out (Some e)
                  (after w 1
                     (([spaceship.Debugf "$ %s"
                          [spaceship.printableCommandArgs
                             (fst (spaceship.createSpaceshipCommand c subCommand opts))]]
                       ++ [spaceship.Started
                             (spaceship.command
                                (fst (spaceship.createSpaceshipCommand c subCommand opts)))])
                      ++ backoff out i))) as [events H].
      rewrite H. cbn [after spaceship.trace]. rewrite <- !app_assoc.
      exists (backoff out i ++ events)%list. reflexivity.
    + exists []. reflexivity.
  - exists []. reflexivity.
Qed.

(** The encoder on the test vectors of RFC 4648. *)
Example base64_vectors :
  base64.EncodeToString "" = "" /\
  base64.EncodeToString "f" = "Zg==" /\
  base64.EncodeToString "fo" = "Zm8=" /\
  base64.EncodeToString "foo" = "Zm9v" /\
  base64.EncodeToString "foob" = "Zm9vYg==" /\
  base64.EncodeToString "fooba" = "Zm9vYmE=" /\
  base64.EncodeToString "foobar" = "Zm9vYmFy".
Proof. repeat split. Qed.

(** The command built for the sample client. *)
Example sample_command :
  let built := fst (spaceship.createSpaceshipCommand client "list_devices" ["--verbose"]) in
  spaceship.printableCommandArgs built = "main.rb --subcommand list_devices --verbose" /\
  spaceship.args (spaceship.command built)
    = ["main.rb"; "--subcommand"; "list_devices"; "--verbose";
       "--username"; "dev@example.com"; "--password"; "hunter2";
       "--session"; "LS0tc2Vzc2lvbi0tLQ=="; "--team-id"; "TEAM42"].
Proof. split; reflexivity. Qed.


Ltac failed_turn P R :=
  rewrite attempts_cons;
  match goal with
  | |- context [fst (spaceship.runSpaceshipCommandOnce ?u ?cmd ?w0)] =>
      let e := fresh "e" in
      destruct (runSpaceshipCommandOnce_failed u _ _ _ w0 _ _ P) as [e ->]
  end;
  rewrite R.

(** X2: when three processes in a row fail with the marker in their
    output, the call gives up: it returns the output of the third together with an
    error, after sleeps of 15, 30 and 45 seconds, the last of them after
    the third attempt. *)
Theorem retries_exhausted unmarshal c subCommand opts w out1 out2 out3 err1 err2 err3 :
  let cmd := spaceship.command (fst (spaceship.createSpaceshipCommand c subCommand opts)) in
  spaceship.process w (0 + spaceship.started w)%nat cmd = (out1, Some err1) ->
  spaceship.process w (1 + spaceship.started w)%nat cmd = (out2, Some err2) ->
  spaceship.process w (2 + spaceship.started w)%nat cmd = (out3, Some err3) ->
  spaceship.shouldRetrySpaceshipCommand out1 = true ->
  spaceship.shouldRetrySpaceshipCommand out2 = true ->
  spaceship.shouldRetrySpaceshipCommand out3 = true ->
  let r := spaceship.runSpaceshipCommand unmarshal c subCommand opts w in
  (exists e, fst r = (out3, Some e)) /\
  spaceship.started (snd r) = (3 + spaceship.started w)%nat /\
  timeline (snd r)
    = (timeline w
       ++ [spaceship.Started cmd; spaceship.Slept (15 * spaceship.Second);
           spaceship.Started cmd; spaceship.Slept (30 * spaceship.Second);
           spaceship.Started cmd; spaceship.Slept (45 * spaceship.Second)])%list.
Proof.
  intros cmd P1 P2 P3 R1 R2 R3 r. subst cmd r. unfold spaceship.runSpaceshipCommand.
  failed_turn P1 R1. failed_turn P2 R2. failed_turn P3 R3.
  cbn [spaceship.attempts]. unfold state.ret. cbn [fst snd].
  rewrite !timeline_after, <- !app_assoc.
  split; [eauto|]. split; reflexivity.
Qed.

Lemma retries_exhausted_witness :
  timeline (snd (spaceship.runSpaceshipCommand spaceship.decodeResponse client "list_devices"
                   [] (scripted alwaysUnavailable)))
    = (let cmd := spaceship.command
                    (fst (spaceship.createSpaceshipCommand client "list_devices" [])) in
       [spaceship.Started cmd; spaceship.Slept (15 * spaceship.Second);
        spaceship.Started cmd; spaceship.Slept (30 * spaceship.Second);
        spaceship.Started cmd; spaceship.Slept (45 * spaceship.Second)]).
Proof.
  apply (retries_exhausted spaceship.decodeResponse client "list_devices" []
           (scripted alwaysUnavailable) unavailable unavailable unavailable
           (spaceship.ExitError 1) (spaceship.ExitError 1) (spaceship.ExitError 1)
           eq_refl eq_refl eq_refl eq_refl eq_refl eq_refl).
Defined.

(* ================================================================== *)
(** * Part III: further properties of the code *)
(* ================================================================== *)

(** ** findXcodebuildErrors and wrapXcodebuildCommandError *)

(** X4: on a text that scans, the result has as many entries as the text
    has plain-error lines, whichever of the two lists is reported; so a
    log with NSErrors and no plain-error line gives no reason at all. *)
Theorem findXcodebuildErrors_count out :
  scanSucceeds out ->
  length (slice.elems (step.findXcodebuildErrors out))
    = length (plainErrors (textLines out)) /\
  (plainErrors (textLines out) = [] -> slice.elems (step.findXcodebuildErrors out) = []).
Proof.
  intros Hs. rewrite (findXcodebuildErrors_scanned _ Hs).
  assert (H : length (if (length (structuredErrors (textLines out))
                          =? length (plainErrors (textLines out)))%nat
                      then map render (structuredErrors (textLines out))
                      else plainErrors (textLines out))
              = length (plainErrors (textLines out))).
  { destruct (_ =? _)%nat eqn:E; [|reflexivity].
    rewrite length_map. now apply Nat.eqb_eq. }
  split; [exact H|].
  intros Hp. apply length_zero_iff_nil. now rewrite H, Hp.
Qed.

Lemma findXcodebuildErrors_count_witness :
  length (slice.elems (step.findXcodebuildErrors
            ("error: a" ++ String LF ("error: b" ++ String LF sampleNSError)))) = 2%nat /\
  slice.elems (step.findXcodebuildErrors sampleNSError) = [].
Proof.
  split.
  - apply (proj1 (findXcodebuildErrors_count
                    ("error: a" ++ String LF ("error: b" ++ String LF sampleNSError))
                    eq_refl)).
  - apply (proj2 (findXcodebuildErrors_count sampleNSError eq_refl)). reflexivity.
Defined.

(** X5: a nil error stays nil and any other error is wrapped.  For a run
    that ended with an exit status the message names the reasons found in
    the log exactly when the log scans and has a plain-error line: the
    reasons, joined by LF, follow the exit status and the command;
    otherwise the message ends after the command and wraps nothing. *)
Theorem wrapXcodebuildCommandError_reasons PrintableCmd out exitCode text :
  xcodebuilderror.wrapXcodebuildCommandError PrintableCmd out None = None /\
  (scanSucceeds out -> plainErrors (textLines out) <> [] ->
     xcodebuilderror.wrapXcodebuildCommandError PrintableCmd out
       (Some (xcodebuilderror.ExitError exitCode text))
     = Some {| xcodebuilderror.msg :=
                 "command failed with exit status " ++ itoa exitCode ++ " ("
                 ++ PrintableCmd ++ "): " ++ strings.Join (reasonsOf out) (String LF "");
               xcodebuilderror.Unwrap :=
                 Some (xcodebuilderror.errorsNew
                         (strings.Join (reasonsOf out) (String LF ""))) |}) /\
  (~ scanSucceeds out \/ plainErrors (textLines out) = [] ->
     xcodebuilderror.wrapXcodebuildCommandError PrintableCmd out
       (Some (xcodebuilderror.ExitError exitCode text))
     = Some {| xcodebuilderror.msg :=
                 "command failed with exit status " ++ itoa exitCode ++ " ("
                 ++ PrintableCmd ++ ")";
               xcodebuilderror.Unwrap := None |}).
Proof.
  split; [reflexivity|]. split.
  - intros Hs Hp. cbn [xcodebuilderror.wrapXcodebuildCommandError].
    pose proof (findXcodebuildErrors_scanned _ Hs) as He. fold (reasonsOf out) in He.
    assert (Hlen : length (reasonsOf out) = length (plainErrors (textLines out))).
    { unfold reasonsOf. destruct (_ =? _)%nat eqn:E; [|reflexivity].
      rewrite length_map. now apply Nat.eqb_eq. }
    unfold slice.len. rewrite He.
    destruct (reasonsOf out) as [|r rs] eqn:Er.
    + destruct (plainErrors (textLines out)); [congruence | discriminate].
    + cbn [length Nat.ltb Nat.leb xcodebuilderror.wrapped_Error].
      reflexivity.
  - intros Hno. cbn [xcodebuilderror.wrapXcodebuildCommandError].
    assert (He : slice.elems (step.findXcodebuildErrors out) = []).
    { destruct Hno as [Hf | Hp].
      - now rewrite (findXcodebuildErrors_failed _ Hf).
      - destruct (bufio.Scan out) as [lines [e|]] eqn:E.
        + rewrite findXcodebuildErrors_failed; [reflexivity|].
          unfold scanSucceeds. rewrite E. discriminate.
        + assert (Hs : scanSucceeds out) by (unfold scanSucceeds; now rewrite E).
          rewrite (findXcodebuildErrors_scanned _ Hs), Hp.
          destruct (structuredErrors (textLines out)); [reflexivity|].
          reflexivity. }
    unfold slice.len. rewrite He. reflexivity.
Qed.

Lemma wrapXcodebuildCommandError_reasons_witness :
  xcodebuilderror.wrapXcodebuildCommandError "xcodebuild archive"
    ("error: a" ++ String LF "error: b")
    (Some (xcodebuilderror.ExitError 65 "exit status 65"))
  = Some {| xcodebuilderror.msg :=
              "command failed with exit status 65 (xcodebuild archive): error: a"
              ++ String LF "error: b";
            xcodebuilderror.Unwrap :=
              Some (xcodebuilderror.errorsNew ("error: a" ++ String LF "error: b")) |} /\
  xcodebuilderror.wrapXcodebuildCommandError "xcodebuild archive" sampleNSError
    (Some (xcodebuilderror.ExitError 65 "exit status 65"))
  = Some {| xcodebuilderror.msg := "command failed with exit status 65 (xcodebuild archive)";
            xcodebuilderror.Unwrap := None |}.
Proof.
  split.
  - refine (proj1 (proj2 (wrapXcodebuildCommandError_reasons "xcodebuild archive"
                            ("error: a" ++ String LF "error: b") 65 "exit status 65"))
              eq_refl _).
    discriminate.
  - apply (proj2 (proj2 (wrapXcodebuildCommandError_reasons "xcodebuild archive"
                           sampleNSError 65 "exit status 65"))).
    right. reflexivity.
Defined.

(** ** What a result of runSpaceshipCommand tells *)

Lemma readResponse_accepted unmarshal output out :
  spaceship.readResponse unmarshal output = (out, None) ->
  exists response,
    List.find objectLine (bufio.pieces output) = Some out /\
    unmarshal out = inl response /\
    spaceship.Error response = "" /\
    spaceship.ShouldRetry response = false.
Proof.
  unfold spaceship.readResponse. rewrite FindString_jsonRegexp.
  destruct (List.find objectLine (bufio.pieces output)) as [m|]; [|discriminate].
  destruct (String.eqb m ""); [discriminate|].
  destruct (unmarshal m) as [response|text] eqn:Hd; [|discriminate].
  destruct (spaceship.ShouldRetry response) eqn:Hr; [discriminate|].
  destruct (String.eqb_spec (spaceship.Error response) "") as [He|He]; [|discriminate].
  cbn [negb]. intros [= <-]. exists response. auto.
Qed.

Lemma runSpaceshipCommandOnce_accepted unmarshal c subCommand opts w out :
  fst (spaceship.runSpaceshipCommandOnce unmarshal
         (fst (spaceship.createSpaceshipCommand c subCommand opts)) w) = (out, None) ->
  exists output,
    spaceship.process w (spaceship.started w)
      (spaceship.command (fst (spaceship.createSpaceshipCommand c subCommand opts)))
      = (output, None) /\
    spaceship.readResponse unmarshal output = (out, None).
Proof.
  unfold spaceship.runSpaceshipCommandOnce, state.bind,
    spaceship.RunAndReturnTrimmedCombinedOutput, state.ret.
  destruct (spaceship.process w (spaceship.started w) _) as [output [[code|]|]];
    cbn [fst]; try discriminate.
  intros H. exists output. auto.
Qed.

Ltac accepted_attempt E k :=
  cbn [fst snd]; intros [= <-];
  apply runSpaceshipCommandOnce_accepted in E as (output & P & Hr);
  cbn [after spaceship.process spaceship.started Nat.add] in P;
  apply readResponse_accepted in Hr as (response & Hfind & Hdec & Herr & Hretry);
  exists k, output, response;
  split; [lia|]; split; [exact P|]; split; [exact Hfind|]; split; [exact Hdec|];
  split; [exact Herr|]; split; [exact Hretry|]; split; [reflexivity|].

(** X6: when the call returns without error, the text it returns is the
    first object line of the output of a process that exited with status
    0, one of the first three; that line decodes to a response with an
    empty error and no retry flag; every process before it failed with the
    503 marker in its output, and no process was started after it. *)
Theorem runSpaceshipCommand_success unmarshal c subCommand opts w out :
  let cmd := spaceship.command (fst (spaceship.createSpaceshipCommand c subCommand opts)) in
  let r := spaceship.runSpaceshipCommand unmarshal c subCommand opts w in
  fst r = (out, None) ->
  exists k output response,
    (k < 3)%nat /\
    spaceship.process w (k + spaceship.started w)%nat cmd = (output, None) /\
    List.find objectLine (bufio.pieces output) = Some out /\
    unmarshal out = inl response /\
    spaceship.Error response = "" /\
    spaceship.ShouldRetry response = false /\
    spaceship.started (snd r) = (S k + spaceship.started w)%nat /\
    (forall j, (j < k)%nat ->
       exists o e,
         spaceship.process w (j + spaceship.started w)%nat cmd = (o, Some e) /\
         spaceship.shouldRetrySpaceshipCommand o = true).
Proof.
  intros cmd r. subst cmd r. unfold spaceship.runSpaceshipCommand.
  attempt_turn E1 R1.
  - failed_process E1 R1 err1 P1.
    attempt_turn E2 R2.
    + failed_process E2 R2 err2 P2.
      attempt_turn E3 R3.
      * cbn [spaceship.attempts]. unfold state.ret. cbn [fst]. discriminate.
      * cbn [fst]. discriminate.
      * accepted_attempt E3 2%nat.
        intros [|[|j]] Hj; [eauto | eauto | lia].
    + cbn [fst]. discriminate.
    + accepted_attempt E2 1%nat.
      intros [|j] Hj; [eauto | lia].
  - cbn [fst]. discriminate.
  - accepted_attempt E1 0%nat. intros j Hj; lia.
Qed.

Lemma runSpaceshipCommand_success_witness :
  exists k output response,
    (k < 3)%nat /\
    spaceship.process (scripted (fun _ => (cleanResponse, None))) (k + 0)%nat
      (spaceship.command (fst (spaceship.createSpaceshipCommand client "list_devices" [])))
      = (output, None) /\
    List.find objectLine (bufio.pieces output) = Some cleanResponse /\
    spaceship.decodeResponse cleanResponse = inl response /\
    spaceship.Error response = "" /\
    spaceship.ShouldRetry response = false /\
    spaceship.started
      (snd (spaceship.runSpaceshipCommand spaceship.decodeResponse client "list_devices" []
              (scripted (fun _ => (cleanResponse, None)))))
      = (S k + 0)%nat /\
    (forall j, (j < k)%nat ->
       exists o e,
         spaceship.process (scripted (fun _ => (cleanResponse, None))) (j + 0)%nat
           (spaceship.command (fst (spaceship.createSpaceshipCommand client "list_devices" [])))
           = (o, Some e) /\
         spaceship.shouldRetrySpaceshipCommand o = true).
Proof.
  exact (runSpaceshipCommand_success spaceship.decodeResponse client "list_devices" []
           (scripted (fun _ => (cleanResponse, None))) cleanResponse eq_refl).
Defined.

(** X7: when the call returns an error, the text it returns with it is
    empty, except when all three processes failed with the 503 marker in
    their output: then it is the output of the third. *)
Theorem runSpaceshipCommand_failure unmarshal c subCommand opts w out e :
  let cmd := spaceship.command (fst (spaceship.createSpaceshipCommand c subCommand opts)) in
  fst (spaceship.runSpaceshipCommand unmarshal c subCommand opts w) = (out, Some e) ->
  out = "" \/
  (spaceship.shouldRetrySpaceshipCommand out = true /\
   (exists err, spaceship.process w (2 + spaceship.started w)%nat cmd = (out, Some err)) /\
   forall j, (j < 2)%nat ->
     exists o err,
       spaceship.process w (j + spaceship.started w)%nat cmd = (o, Some err) /\
       spaceship.shouldRetrySpaceshipCommand o = true).
Proof.
  intros cmd. subst cmd. unfold spaceship.runSpaceshipCommand.
  attempt_turn E1 R1.
  - failed_process E1 R1 err1 P1.
    attempt_turn E2 R2.
    + failed_process E2 R2 err2 P2.
      attempt_turn E3 R3.
      * failed_process E3 R3 err3 P3.
        cbn [spaceship.attempts]. unfold state.ret. cbn [fst]. intros [= <- _].
        right. split; [exact R3|]. split; [eauto|].
        intros [|[|j]] Hj; [eauto | eauto | lia].
      * cbn [fst]. intros [= <- _]. now left.
      * cbn [fst]. discriminate.
    + cbn [fst]. intros [= <- _]. now left.
    + cbn [fst]. discriminate.
  - cbn [fst]. intros [= <- _]. now left.
  - cbn [fst]. discriminate.
Qed.

Lemma runSpaceshipCommand_failure_witness :
  unavailable = "" \/
  (spaceship.shouldRetrySpaceshipCommand unavailable = true /\
   (exists err,
      spaceship.process (scripted alwaysUnavailable) (2 + 0)%nat
        (spaceship.command (fst (spaceship.createSpaceshipCommand client "list_devices" [])))
        = (unavailable, Some err)) /\
   forall j, (j < 2)%nat ->
     exists o err,
       spaceship.process (scripted alwaysUnavailable) (j + 0)%nat
         (spaceship.command (fst (spaceship.createSpaceshipCommand client "list_devices" [])))
         = (o, Some err) /\
       spaceship.shouldRetrySpaceshipCommand o = true).
Proof.
  exact (runSpaceshipCommand_failure spaceship.decodeResponse client "list_devices" []
           (scripted alwaysUnavailable) unavailable
           (spaceship.Errorf
              ("spaceship command exited with status 1, output: " ++ unavailable))
           eq_refl).
Defined.

(** ** The fields of an NSError *)

Lemma append_nil_r s : s ++ "" = s.
Proof. induction s as [|c s IH]; cbn; [reflexivity | now rewrite IH]. Qed.

Lemma append_assoc a b c : (a ++ b) ++ c = a ++ b ++ c.
Proof. induction a as [|x a IH]; cbn; [reflexivity | now rewrite IH]. Qed.

Section LazyField.
Variables (whole start : string) (i : nat) (d : ascii).

Local Abbreviation final :=
  (fun (_ : option ascii) s' caps => Some (regexp.consumed whole s', caps)).
Local Abbreviation separator :=
  (fun p s' (caps : regexp.Captures) =>
     regexp.exec (regexp.Literal (String d "")) p s'
       ((i, regexp.consumed start s') :: caps) final).

Lemma separator_here p s :
  separator p s [] =
    match s with
    | String c s' =>
        if Ascii.eqb c d
        then Some (regexp.consumed whole s', [(i, regexp.consumed start s)])
        else None
    | EmptyString => None
    end.
Proof.
  cbn [regexp.exec]. destruct s as [|c s']; [reflexivity|].
  rewrite prefix_one, Ascii.eqb_sym. now destruct (Ascii.eqb c d).
Qed.

(** The lazy repetition stops at the first separator of the line. *)
Lemma anyStarLazy_upTo : forall s a p,
  start = a ++ s ->
  match upTo d s with
  | Some body =>
      exists m, regexp.anyStarLazy p s [] separator = Some (m, [(i, a ++ body)])
  | None => regexp.anyStarLazy p s [] separator = None
  end.
Proof.
  induction s as [|c s IH]; intros a p Hstart.
  - reflexivity.
  - cbn [regexp.anyStarLazy upTo]. rewrite separator_here.
    destruct (Ascii.eqb c d).
    + eexists. rewrite Hstart, consumed_app, append_nil_r. reflexivity.
    + destruct (Ascii.eqb c LF); [reflexivity|].
      specialize (IH (a ++ String c "") (Some c)).
      rewrite append_assoc in IH. specialize (IH Hstart).
      destruct (upTo d s) as [body|]; cbn [option_map].
      * destruct IH as [m IH]. exists m. rewrite IH, append_assoc. reflexivity.
      * exact IH.
Qed.

End LazyField.

(** One alternative of a field pattern, tried at the start of [s]. *)
Lemma exec_field key i d prev s :
  regexp.exec
    (regexp.Concat (regexp.Literal key)
       (regexp.Concat (regexp.Capture i regexp.AnyPlusLazy) (regexp.Literal (String d ""))))
    prev s [] (fun _ s' caps => Some (regexp.consumed s s', caps))
  = None /\ (String.prefix key s = false \/ valueUpTo d (regexp.skip key s) = None)
  \/ exists m v,
       regexp.exec
         (regexp.Concat (regexp.Literal key)
            (regexp.Concat (regexp.Capture i regexp.AnyPlusLazy)
               (regexp.Literal (String d ""))))
         prev s [] (fun _ s' caps => Some (regexp.consumed s s', caps))
       = Some (m, [(i, v)])
       /\ String.prefix key s = true /\ valueUpTo d (regexp.skip key s) = Some v.
Proof.
  cbn [regexp.exec]. destruct (String.prefix key s); [|left; auto].
  unfold regexp.anyPlusLazy, valueUpTo.
  destruct (regexp.skip key s) as [|c s2] eqn:Hskip; [left; auto|].
  destruct (Ascii.eqb c LF); [left; auto|].
  pose proof (anyStarLazy_upTo s (String c s2) i d s2 (String c "") (Some c) eq_refl) as H.
  destruct (upTo d s2) as [body|]; cbn [option_map].
  - destruct H as [m H]. right. exists m, (String c body). auto.
  - left. auto.
Qed.

Lemma firstNonEmpty_left v : step.firstNonEmpty [v; ""] = v.
Proof. cbn. now destruct (String.eqb_spec v ""). Qed.

Lemma firstNonEmpty_right v : step.firstNonEmpty [""; v] = v.
Proof. cbn. now destruct (String.eqb_spec v ""). Qed.

(** A field pattern tried at the start of [s] gives the value that is
    there. *)
Lemma exec_fieldPattern key prev s :
  match valueHere key s with
  | Some v =>
      exists m caps,
        regexp.exec (fieldPattern key) prev s []
          (fun _ s' caps' => Some (regexp.consumed s s', caps')) = Some (m, caps)
        /\ step.firstNonEmpty [regexp.lookup 1 caps; regexp.lookup 2 caps] = v
  | None =>
      regexp.exec (fieldPattern key) prev s []
        (fun _ s' caps' => Some (regexp.consumed s s', caps')) = None
  end.
Proof.
  unfold fieldPattern, valueHere.
  change (regexp.exec (regexp.Alternate ?r1 ?r2) prev s [] ?k)
    with (match regexp.exec r1 prev s [] k with
          | Some a => Some a
          | None => regexp.exec r2 prev s [] k
          end).
  destruct (exec_field key 1 "," prev s) as [[H1 Hc1]| (m & v & H1 & Hp & Hv)]; rewrite H1.
  - destruct (exec_field key 2 "}" prev s) as [[H2 Hc2]| (m & v & H2 & Hp & Hv)]; rewrite H2.
    + destruct (prefix key s); [|reflexivity].
      destruct Hc1 as [Hx | ->]; [discriminate|]. destruct Hc2 as [Hy | ->]; [discriminate|].
      reflexivity.
    + rewrite Hp in *. destruct Hc1 as [Hx | ->]; [discriminate|]. rewrite Hv.
      exists m, [(2%nat, v)]. split; [reflexivity|]. apply firstNonEmpty_right.
  - rewrite Hp, Hv. exists m, [(1%nat, v)]. split; [reflexivity|]. apply firstNonEmpty_left.
Qed.

Lemma find_fieldPattern key : forall s prev,
  match regexp.find (fieldPattern key) prev s with
  | Some (_, caps) =>
      step.firstNonEmpty [regexp.lookup 1 caps; regexp.lookup 2 caps] = fieldValue key s
  | None => fieldValue key s = ""
  end.
Proof.
  induction s as [|c s IH]; intros prev; cbn [regexp.find fieldValue];
    pose proof (exec_fieldPattern key prev) as H.
  - specialize (H ""). destruct (valueHere key "") as [v|].
    + destruct H as (m & caps & -> & Hv). exact Hv.
    + now rewrite H.
  - specialize (H (String c s)). destruct (valueHere key (String c s)) as [v|].
    + destruct H as (m & caps & -> & Hv). exact Hv.
    + rewrite H. apply IH.
Qed.

(** What [findFirstSubMatch] gives for a field pattern. *)
Lemma findFirstSubMatch_fieldPattern key line :
  step.findFirstSubMatch line (fieldPattern key) = fieldValue key line.
Proof.
  unfold step.findFirstSubMatch, regexp.FindStringSubmatch.
  pose proof (find_fieldPattern key line None) as H.
  destruct (regexp.find (fieldPattern key) None line) as [[m caps]|].
  - exact H.
  - now rewrite H.
Qed.

Lemma upTo_free d s body : upTo d s = Some body -> hasByte d body = false.
Proof.
  revert body. induction s as [|c s IH]; intros body; cbn; [discriminate|].
  destruct (Ascii.eqb c d) eqn:Ec; [now intros [= <-]|].
  destruct (Ascii.eqb c LF); [discriminate|].
  destruct (upTo d s) as [b|]; [|discriminate].
  intros [= <-]. cbn. rewrite Ec. now apply IH.
Qed.

Lemma upTo_other d e s body :
  upTo d s = None -> upTo e s = Some body -> hasByte d body = false.
Proof.
  revert body. induction s as [|c s IH]; intros body; cbn; [discriminate|].
  destruct (Ascii.eqb c d) eqn:Ed; [discriminate|].
  destruct (Ascii.eqb c e); [now intros _ [= <-]|].
  destruct (Ascii.eqb c LF); [discriminate|].
  destruct (upTo d s); [discriminate|].
  destruct (upTo e s) as [b|]; [|discriminate].
  intros _ [= <-]. cbn. rewrite Ed. now apply IH.
Qed.

Lemma valueHere_shape key s v :
  valueHere key s = Some v -> v <> "" /\ hasByte "," (behead v) = false.
Proof.
  unfold valueHere, valueUpTo. destruct (prefix key s); [|discriminate].
  destruct (regexp.skip key s) as [|c s2]; [discriminate|].
  destruct (Ascii.eqb c LF); [discriminate|].
  destruct (upTo "," s2) as [b|] eqn:Hc; cbn [option_map].
  - intros [= <-]. split; [discriminate|]. cbn. eapply upTo_free; eassumption.
  - destruct (upTo "}" s2) as [b|] eqn:Hb; [|discriminate].
    intros [= <-]. split; [discriminate|]. cbn. eapply upTo_other; eassumption.
Qed.

Lemma fieldValue_cut key line : hasByte "," (behead (fieldValue key line)) = false.
Proof.
  induction line as [|c line IH]; cbn [fieldValue].
  - destruct (valueHere key "") as [v|] eqn:E; [|reflexivity].
    now apply valueHere_shape in E.
  - destruct (valueHere key (String c line)) as [v|] eqn:E; [|exact IH].
    now apply valueHere_shape in E.
Qed.

(** X8: a line gives a record only when it holds the four markers; the
    description is the value after the first [NSLocalizedDescription=]
    that has one, and it is not empty; the suggestion is the value after
    [NSLocalizedRecoverySuggestion=], or empty; and both are cut at the
    first comma that follows their first byte, so neither holds a comma
    after its first byte. *)
Theorem NewNSError_fields line e :
  step.NewNSError line = Some e ->
  step.isNSError line = true /\
  step.Description e = fieldValue "NSLocalizedDescription=" line /\
  step.Description e <> "" /\
  step.Suggestion e = fieldValue "NSLocalizedRecoverySuggestion=" line /\
  hasByte "," (behead (step.Description e)) = false /\
  hasByte "," (behead (step.Suggestion e)) = false.
Proof.
  unfold step.NewNSError.
  change step.descriptionPattern with (fieldPattern "NSLocalizedDescription=").
  change step.suggestionPattern with (fieldPattern "NSLocalizedRecoverySuggestion=").
  rewrite !findFirstSubMatch_fieldPattern.
  destruct (step.isNSError line); [|discriminate]. cbn [negb].
  destruct (String.eqb_spec (fieldValue "NSLocalizedDescription=" line) "") as [|Hne];
    [discriminate|].
  intros [= <-]. cbn [step.Description step.Suggestion].
  repeat split; try assumption; apply fieldValue_cut.
Qed.

Lemma NewNSError_fields_witness :
  step.NewNSError commaNSError
    = Some {| step.Description := "No profiles for 'io.bitrise.sample' were found";
              step.Suggestion := "Xcode couldn't find any profiles" |} /\
  hasByte ","
    (behead (step.Description
               {| step.Description := "No profiles for 'io.bitrise.sample' were found";
                  step.Suggestion := "Xcode couldn't find any profiles" |})) = false.
Proof.
  split; [reflexivity|].
  apply (NewNSError_fields commaNSError
           {| step.Description := "No profiles for 'io.bitrise.sample' were found";
              step.Suggestion := "Xcode couldn't find any profiles" |} eq_refl).
Defined.

(** ** The log pattern: the path runs to the last quote of the line *)

Section GreedyField.
Variables (whole start : string) (i : nat) (d : ascii).
Hypothesis separator_is_not_LF : Ascii.eqb LF d = false.

Local Abbreviation final :=
  (fun (_ : option ascii) s' caps => Some (regexp.consumed whole s', caps)).
Local Abbreviation separator :=
  (fun p s' (caps : regexp.Captures) =>
     regexp.exec (regexp.Literal (String d "")) p s'
       ((i, regexp.consumed start s') :: caps) final).

(** The greedy repetition gives back bytes down to the last separator of
    the line. *)
Lemma anyStar_upToLast : forall s a p,
  start = a ++ s ->
  match upToLast d s with
  | Some body =>
      exists m, regexp.anyStar p s [] separator = Some (m, [(i, a ++ body)])
  | None => regexp.anyStar p s [] separator = None
  end.
Proof.
  induction s as [|c s IH]; intros a p Hstart.
  - reflexivity.
  - cbn [regexp.anyStar upToLast]. destruct (Ascii.eqb c LF) eqn:Ec.
    + rewrite separator_here. apply Ascii.eqb_eq in Ec. subst c.
      now rewrite separator_is_not_LF.
    + specialize (IH (a ++ String c "") (Some c)).
      rewrite append_assoc in IH. specialize (IH Hstart).
      destruct (upToLast d s) as [body|].
      * destruct IH as [m IH]. exists m. rewrite IH, append_assoc. reflexivity.
      * rewrite IH, separator_here. destruct (Ascii.eqb c d); [|reflexivity].
        eexists. rewrite Hstart, consumed_app, append_nil_r. reflexivity.
Qed.

End GreedyField.

Lemma exec_logPattern prev s :
  match pathHere s with
  | Some path =>
      exists m,
        regexp.exec main.pattern prev s []
          (fun _ s' caps => Some (regexp.consumed s s', caps)) = Some (m, [(1%nat, path)])
  | None =>
      regexp.exec main.pattern prev s []
        (fun _ s' caps => Some (regexp.consumed s s', caps)) = None
  end.
Proof.
  unfold pathHere. change main.pattern
    with (regexp.Concat (regexp.Literal bundleMarker)
            (regexp.Concat (regexp.Capture 1 regexp.AnyStar) (regexp.Literal "'"))).
  cbn [regexp.exec]. destruct (prefix bundleMarker s); [|reflexivity].
  exact (anyStar_upToLast s (regexp.skip bundleMarker s) 1 "'" eq_refl
           (regexp.skip bundleMarker s) "" _ eq_refl).
Qed.

Lemma find_logPattern : forall s prev,
  match regexp.find main.pattern prev s with
  | Some (_, caps) => pathOf s = Some (regexp.lookup 1 caps)
  | None => pathOf s = None
  end.
Proof.
  induction s as [|c s IH]; intros prev; cbn [regexp.find pathOf];
    pose proof (exec_logPattern prev) as H.
  - specialize (H ""). destruct (pathHere "") as [path|].
    + destruct H as (m & ->). reflexivity.
    + now rewrite H.
  - specialize (H (String c s)). destruct (pathHere (String c s)) as [path|].
    + destruct H as (m & ->). reflexivity.
    + rewrite H. apply IH.
Qed.

Lemma logPath_pathOf line : logPath line = pathOf line.
Proof.
  unfold logPath. pose proof (find_logPattern line None) as H.
  destruct (regexp.find main.pattern None line) as [[m caps]|]; now rewrite H.
Qed.

Lemma upToLast_none d s : upToLast d s = None -> hasByte d (firstLine s) = false.
Proof.
  induction s as [|c s IH]; cbn; [reflexivity|].
  destruct (Ascii.eqb c LF); [reflexivity|].
  destruct (upToLast d s); [discriminate|].
  destruct (Ascii.eqb c d) eqn:Ec; [discriminate|].
  intros _. cbn. rewrite Ec. now apply IH.
Qed.

Lemma upToLast_split d s body :
  upToLast d s = Some body ->
  exists post, s = body ++ String d post /\ hasByte d (firstLine post) = false.
Proof.
  revert body. induction s as [|c s IH]; intros body; cbn; [discriminate|].
  destruct (Ascii.eqb c LF); [discriminate|].
  destruct (upToLast d s) as [b|] eqn:E.
  - intros [= <-]. destruct (IH b eq_refl) as (post & -> & Hpost).
    exists post. auto.
  - destruct (Ascii.eqb c d) eqn:Ec; [|discriminate].
    intros [= <-]. apply Ascii.eqb_eq in Ec. subst c.
    exists s. split; [reflexivity|]. now apply upToLast_none.
Qed.

Lemma prefix_skip lit : forall s, prefix lit s = true -> s = lit ++ regexp.skip lit s.
Proof.
  induction lit as [|c lit IH]; intros s; cbn.
  - intros _. now destruct s.
  - destruct s as [|d s]; [discriminate|]. cbn [prefix].
    destruct (ascii_dec c d) as [->|]; [|discriminate].
    intros H. cbn. now rewrite <- IH.
Qed.

Lemma pathOf_split line path :
  pathOf line = Some path ->
  exists pre post,
    line = pre ++ bundleMarker ++ path ++ String "'" post /\
    hasByte "'" (firstLine post) = false.
Proof.
  induction line as [|c line IH]; cbn [pathOf].
  - destruct (pathHere "") as [p|] eqn:E; [|discriminate].
    unfold pathHere in E. destruct (prefix bundleMarker "") eqn:Hp; discriminate.
  - destruct (pathHere (String c line)) as [p|] eqn:E.
    + intros [= ->]. unfold pathHere in E.
      destruct (prefix bundleMarker (String c line)) eqn:Hp; [|discriminate].
      apply upToLast_split in E as (post & Hs & Hpost).
      exists "", post. split; [|exact Hpost].
      rewrite (prefix_skip _ _ Hp) at 1. now rewrite Hs.
    + intros H. destruct (IH H) as (pre & post & -> & Hpost).
      exists (String c pre), post. auto.
Qed.

Lemma pieces_noLF s : Forall (fun l => hasByte LF l = false) (bufio.pieces s).
Proof.
  induction s as [|c s IH]; cbn.
  - repeat constructor.
  - destruct (Ascii.eqb c LF) eqn:Ec; [now constructor|].
    destruct (bufio.pieces s) as [|l ls]; [repeat constructor; cbn; now rewrite Ec|].
    inversion IH; subst. constructor; [|assumption]. cbn. now rewrite Ec.
Qed.

Lemma rawLines'_Forall (P : string -> Prop) ps : Forall P ps -> Forall P (bufio.rawLines' ps).
Proof.
  induction 1 as [|p ps Hp Hps IH]; cbn; [constructor|].
  destruct ps as [|q ps]; [destruct (String.eqb p ""); repeat constructor; assumption|].
  constructor; assumption.
Qed.

Lemma dropCR_noLF l : hasByte LF l = false -> hasByte LF (bufio.dropCR l) = false.
Proof.
  induction l as [|c l IH]; cbn; [reflexivity|].
  intros H. apply orb_false_iff in H as [Hc Hl].
  destruct (Ascii.eqb c CR && String.eqb l ""); [reflexivity|].
  cbn. rewrite Hc. now apply IH.
Qed.

Lemma tokens_noLF raw :
  Forall (fun l => hasByte LF l = false) raw ->
  Forall (fun l => hasByte LF l = false) (fst (bufio.tokens raw)).
Proof.
  induction 1 as [|l raw Hl Hraw IH]; cbn; [constructor|].
  destruct (bufio.fits l); [|constructor].
  destruct (bufio.tokens raw) as [ts e]. cbn in *.
  constructor; [now apply dropCR_noLF | assumption].
Qed.

(** No token of the scanner holds an LF. *)
Lemma Scan_noLF text : Forall (fun l => hasByte LF l = false) (fst (bufio.Scan text)).
Proof. apply tokens_noLF, rawLines'_Forall, pieces_noLF. Qed.

Lemma firstLine_noLF s : hasByte LF s = false -> firstLine s = s.
Proof.
  induction s as [|c s IH]; cbn; [reflexivity|].
  intros H. apply orb_false_iff in H as [-> Hs]. now rewrite IH.
Qed.

Lemma hasByte_app d a b : hasByte d (a ++ b) = hasByte d a || hasByte d b.
Proof. induction a as [|c a IH]; cbn; [reflexivity | now rewrite IH, orb_assoc]. Qed.

Lemma firstMatch_In lines path :
  main.firstMatch lines = Some path ->
  exists line, In line lines /\ logPath line = Some path.
Proof.
  induction lines as [|l lines IH]; [discriminate|].
  rewrite firstMatch_cons. destruct (logPath l) as [p|] eqn:E.
  - intros [= ->]. exists l. split; [now left | assumption].
  - intros H. destruct (IH H) as (line & Hin & Hl). exists line. split; [now right | assumption].
Qed.

(** X9: a path that findIDEDistrubutionLogsPath returns, when it is not
    empty, comes without error from a scanned line in which it stands
    between the marker phrase with its opening quote and the last single
    quote of the line: nothing after it on the line holds a quote, so on a
    line that quotes something else after the path, the path runs on to
    that last quote. *)
Theorem findIDEDistrubutionLogsPath_path output path err :
  main.findIDEDistrubutionLogsPath output = (path, err) ->
  path <> "" ->
  err = None /\
  exists line pre post,
    In line (fst (bufio.Scan output)) /\
    line = pre ++ bundleMarker ++ path ++ String "'" post /\
    hasByte "'" post = false.
Proof.
  unfold main.findIDEDistrubutionLogsPath.
  pose proof (Scan_noLF output) as Hlf.
  destruct (bufio.Scan output) as [lines e]. cbn [fst] in *.
  destruct (main.firstMatch lines) as [p|] eqn:E.
  - intros [= -> <-] _. split; [reflexivity|].
    apply firstMatch_In in E as (line & Hin & Hl).
    rewrite logPath_pathOf in Hl. apply pathOf_split in Hl as (pre & post & Hline & Hpost).
    exists line, pre, post. split; [assumption|]. split; [assumption|].
    rewrite Forall_forall in Hlf. specialize (Hlf line Hin).
    rewrite Hline, !hasByte_app in Hlf.
    apply orb_false_iff in Hlf as [_ Hlf]. apply orb_false_iff in Hlf as [_ Hlf].
    apply orb_false_iff in Hlf as [_ Hlf]. cbn in Hlf.
    now rewrite firstLine_noLF in Hpost.
  - destruct e; intros [= <- _] H; now destruct H.
Qed.

Lemma findIDEDistrubutionLogsPath_path_witness :
  main.findIDEDistrubutionLogsPath twiceQuoted
    = ("/tmp/logs/xyz' for scheme 'Release", None) /\
  exists line pre post,
    In line (fst (bufio.Scan twiceQuoted)) /\
    line = pre ++ bundleMarker ++ "/tmp/logs/xyz' for scheme 'Release" ++ String "'" post /\
    hasByte "'" post = false.
Proof.
  split; [reflexivity|].
  apply (findIDEDistrubutionLogsPath_path twiceQuoted
           "/tmp/logs/xyz' for scheme 'Release" None eq_refl).
  discriminate.
Defined.

(** ** ProcessInputs, Run and RunStep *)

Ltac step_through :=
  repeat first
    [ match goal with
      | |- context [(if ?c then _ else _) _] => destruct c eqn:?; cbv beta iota zeta
      end
    | match goal with
      | |- context [let (_, _) := ?f ?c ?w in _] =>
          is_var f; destruct (f c w) as [? ?] eqn:?; cbv beta iota zeta
      end
    | match goal with
      | |- context [let (_, _) := ?f ?w in _] =>
          is_var f; destruct (f w) as [? ?] eqn:?; cbv beta iota zeta
      end
    | match goal with
      | |- context [match ?x with _ => _ end] => destruct x eqn:?; cbv beta iota zeta
      end ].

Ltac decide_tests :=
  repeat match goal with
         | H : _ && _ = true |- _ => apply andb_prop in H; destruct H
         | H : _ && _ = false |- _ => apply andb_false_iff in H; destruct H
         | H : negb _ = true |- _ => apply negb_true_iff in H
         | H : negb _ = false |- _ => apply negb_false_iff in H
         | H : (_ =? _)%string = true |- _ => apply String.eqb_eq in H
         | H : (_ =? _)%string = false |- _ => apply String.eqb_neq in H
         end.

Section StepFacts.
Variable W : Type.
Variable log : archivestep.logcall -> state.M W unit.
Variable Parse : state.M W (archivestep.Inputs * option archivestep.error).
Variable ValidateIfDirExists : string -> state.M W (option archivestep.error).
Variable plist_Unmarshal : string -> option archivestep.error.
Variable GetXcodeVersion :
  state.M W (archivestep.XcodebuildVersionModel * option archivestep.error).
Variable strings_TrimSpace : string -> string.
Variable filepath_Abs : string -> state.M W (string * option archivestep.error).
Variable pathutil_AbsPath : string -> state.M W (string * option archivestep.error).
Variable pathutil_IsPathExists : string -> state.M W (bool * option archivestep.error).
Variable os_MkdirAll : string -> state.M W (option archivestep.error).
Variable Error : archivestep.error -> string.

Local Abbreviation settle :=
  (archivestep.settleInputs W log strings_TrimSpace filepath_Abs pathutil_AbsPath
     pathutil_IsPathExists os_MkdirAll Error).
Variable xcodeArchive :
  archivestep.xcodeArchiveOpts -> state.M W (archivestep.xcodeArchiveOutput * option archivestep.error).
Variable xcodeIPAExport :
  archivestep.xcodeIPAExportOpts
  -> state.M W (archivestep.xcodeIPAExportOutput * option archivestep.error).
Variable EnsureDependencies : bool -> state.M W (option archivestep.error).
Variable ExportOutput : archivestep.ExportOpts -> state.M W (option archivestep.error).

Local Abbreviation process :=
  (archivestep.ProcessInputs W log Parse ValidateIfDirExists plist_Unmarshal GetXcodeVersion
     strings_TrimSpace filepath_Abs pathutil_AbsPath pathutil_IsPathExists os_MkdirAll Error).
Local Abbreviation run := (archivestep.Run W xcodeArchive xcodeIPAExport).
Local Abbreviation runStep :=
  (archivestep.RunStep W log Parse ValidateIfDirExists plist_Unmarshal GetXcodeVersion
     strings_TrimSpace filepath_Abs pathutil_AbsPath pathutil_IsPathExists os_MkdirAll Error
     xcodeArchive xcodeIPAExport EnsureDependencies ExportOutput).

Lemma settleInputs_config conf major w config w' :
  (9 <= major)%Z ->
  settle conf major w = ((config, None), w') ->
  archivestep.XcodeMajorVersion config = major /\
  archivestep.ForceTeamID (archivestep.inputs config) = archivestep.ForceTeamID conf /\
  archivestep.ForceProvisioningProfileSpecifier (archivestep.inputs config)
    = archivestep.ForceProvisioningProfileSpecifier conf /\
  archivestep.CustomExportOptionsPlistContent (archivestep.inputs config)
    = strings_TrimSpace (archivestep.CustomExportOptionsPlistContent conf) /\
  (archivestep.ForceProvisioningProfileSpecifier conf <> "" ->
     archivestep.ForceProvisioningProfile (archivestep.inputs config) = "") /\
  (archivestep.ForceProvisioningProfileSpecifier conf = "" ->
     archivestep.ForceProvisioningProfile (archivestep.inputs config)
       = archivestep.ForceProvisioningProfile conf).
Proof.
  intros Hmajor.
  assert (H7 : (major <? 7)%Z = false) by (apply Z.ltb_ge; lia).
  assert (H8 : (major <? 8)%Z = false) by (apply Z.ltb_ge; lia).
  unfold archivestep.settleInputs, archivestep.when, state.bind, state.ret,
    archivestep.nonEmpty.
  rewrite H7, H8, !andb_false_r. cbv beta iota zeta.
  step_through; intros [= <- <-] || discriminate.
  all: cbn; repeat split; try congruence.
  all: intros Hs; decide_tests; congruence.
Qed.


Lemma settleInputs_error conf major w config e w' :
  settle conf major w = ((config, Some e), w') -> config = archivestep.zeroConfig.
Proof.
  unfold archivestep.settleInputs, archivestep.when, state.bind, state.ret,
    archivestep.nonEmpty.
  cbv beta iota zeta.
  step_through; intros [= <- <-] || discriminate.
  all: reflexivity.
Qed.

(** X10. Whenever [ProcessInputs] returns without an error, the inputs it
    parsed name a project whose extension is [.xcodeproj] or [.xcworkspace],
    the major version in the config is at least 9, the forced team and
    the forced profile specifier are those parsed, the custom export
    options are those parsed with the surrounding space trimmed, and the
    forced profile specifier and the forced profile are not both set. *)
Theorem ProcessInputs_config w config w' :
  process w = ((config, None), w') ->
  exists conf w0,
    Parse w = ((conf, None), w0) /\
    (archivestep.filepath_Ext (archivestep.ProjectPath conf) = ".xcodeproj" \/
     archivestep.filepath_Ext (archivestep.ProjectPath conf) = ".xcworkspace") /\
    (archivestep.minSupportedXcodeMajorVersion <= archivestep.XcodeMajorVersion config)%Z /\
    archivestep.ForceTeamID (archivestep.inputs config) = archivestep.ForceTeamID conf /\
    archivestep.ForceProvisioningProfileSpecifier (archivestep.inputs config)
      = archivestep.ForceProvisioningProfileSpecifier conf /\
    archivestep.CustomExportOptionsPlistContent (archivestep.inputs config)
      = strings_TrimSpace (archivestep.CustomExportOptionsPlistContent conf) /\
    (archivestep.ForceProvisioningProfileSpecifier (archivestep.inputs config) = "" \/
     archivestep.ForceProvisioningProfile (archivestep.inputs config) = "").
Proof.
  unfold archivestep.ProcessInputs, archivestep.when, state.bind, state.ret,
    archivestep.nonEmpty.
  step_through; try discriminate.
  all: intros Hsettle.
  all: match goal with
       | H : (_ <? _)%Z = false |- _ => apply Z.ltb_ge in H; rename H into Hmajor
       end.
  all: destruct (settleInputs_config _ _ _ _ _ Hmajor Hsettle)
         as (Hv & Ht & Hs & Hc & Hset & Hunset).
  all: match goal with
       | H : _ && _ = false |- _ => rename H into Hext
       end.
  all: eexists _, _; split; [reflexivity|].
  all: split; [apply andb_false_iff in Hext; destruct Hext; decide_tests; auto|].
  all: split; [now rewrite Hv|].
  all: repeat (split; [assumption|]).
  all: rewrite Hs.
  all: match goal with
       | |- ?s = "" \/ _ => destruct (string_dec s "") as [Hempty | Hfull]; auto
       end.
Qed.

(** X11. Whenever [ProcessInputs] returns an error, the config it returns
    with it is the empty one. *)
Theorem ProcessInputs_error w config e w' :
  process w = ((config, Some e), w') -> config = archivestep.zeroConfig.
Proof.
  unfold archivestep.ProcessInputs, archivestep.when, state.bind, state.ret,
    archivestep.nonEmpty.
  step_through; try (intros [= <- <-] || discriminate); try reflexivity.
  all: apply settleInputs_error.
Qed.

(** X12. [Run] returns the paths of what was built only without an error,
    and the log and the distribution logs directory only with one: with an
    error every path of the output is empty, without one both logs are. *)
Theorem Run_paths_or_logs opts w out err w' :
  run opts w = ((out, err), w') ->
  match err with
  | Some _ =>
      archivestep.oArchivePath out = "" /\ archivestep.oAppPath out = "" /\
      archivestep.oAppDSYMPaths out = slice.nil /\
      archivestep.oFrameworkDSYMPaths out = slice.nil /\
      archivestep.oExportOptionsPath out = "" /\ archivestep.oIPAExportDir out = ""
  | None =>
      archivestep.oXcodebuildLog out = "" /\ archivestep.oIDEDistrubutionLogsDir out = ""
  end.
Proof.
  unfold archivestep.Run, state.bind, state.ret.
  step_through; intros H; inversion H; subst; cbn; auto 10.
Qed.

(** X13. When the inputs are accepted, the dependencies are there and
    [xcodeArchive] fails, [RunStep] does not export an IPA and still calls
    [ExportOutput], straight after the archive step, with no path of the
    build and with the log of the archive step; it returns the error of the
    archive step whatever [ExportOutput] returns. *)
Theorem RunStep_archive_failure w config w1 w2 archiveOut e w3 exportErr w4 :
  let conf := archivestep.inputs config in
  process w = ((config, None), w1) ->
  EnsureDependencies (archivestep.OutputTool conf =? "xcpretty")%string w1 = (None, w2) ->
  xcodeArchive
    (archivestep.archiveOptsOf (archivestep.runOptsOf config (archivestep.OutputTool conf)))
    w2 = ((archiveOut, Some e), w3) ->
  ExportOutput
    {| archivestep.xOutputDir := archivestep.OutputDir conf;
       archivestep.xArtifactName := archivestep.ArtifactName conf;
       archivestep.xExportAllDsyms := archivestep.ExportAllDsyms conf;
       archivestep.xArchivePath := "";
       archivestep.xAppPath := "";
       archivestep.xAppDSYMPaths := slice.nil;
       archivestep.xFrameworkDSYMPaths := slice.nil;
       archivestep.xExportOptionsPath := "";
       archivestep.xIPAExportDir := "";
       archivestep.xXcodebuildLog := archivestep.aoXcodebuildLog archiveOut;
       archivestep.xIDEDistrubutionLogsDir := "" |} w3 = (exportErr, w4) ->
  runStep w = (Some e, w4).
Proof.
  intros conf Hprocess Hdeps Harchive Hexport. subst conf.
  unfold archivestep.RunStep, archivestep.Run, state.bind, state.ret.
  rewrite Hprocess. cbv beta iota zeta. rewrite Hdeps. cbv beta iota zeta.
  rewrite Harchive. cbv beta iota zeta.
  unfold archivestep.outputOptsOf. cbn [archivestep.oArchivePath archivestep.oAppPath
    archivestep.oAppDSYMPaths archivestep.oFrameworkDSYMPaths archivestep.oExportOptionsPath
    archivestep.oIPAExportDir archivestep.oXcodebuildLog archivestep.oIDEDistrubutionLogsDir].
  now rewrite Hexport.
Qed.

(** X14. When the inputs are accepted, the dependencies are there, the
    archive is made and [xcodeIPAExport] fails, [ExportOutput] is called
    with no path of the build, not even those of the archive that was made,
    and with the log and the distribution logs directory of the export
    step; [RunStep] returns the error of the export step whatever
    [ExportOutput] returns. *)
Theorem RunStep_export_failure w config w1 w2 archiveOut w3 exportOut e w4 exportErr w5 :
  let conf := archivestep.inputs config in
  let opts := archivestep.runOptsOf config (archivestep.OutputTool conf) in
  process w = ((config, None), w1) ->
  EnsureDependencies (archivestep.OutputTool conf =? "xcpretty")%string w1 = (None, w2) ->
  xcodeArchive (archivestep.archiveOptsOf opts) w2 = ((archiveOut, None), w3) ->
  xcodeIPAExport (archivestep.exportOptsOf opts archiveOut) w3 = ((exportOut, Some e), w4) ->
  ExportOutput
    {| archivestep.xOutputDir := archivestep.OutputDir conf;
       archivestep.xArtifactName := archivestep.ArtifactName conf;
       archivestep.xExportAllDsyms := archivestep.ExportAllDsyms conf;
       archivestep.xArchivePath := "";
       archivestep.xAppPath := "";
       archivestep.xAppDSYMPaths := slice.nil;
       archivestep.xFrameworkDSYMPaths := slice.nil;
       archivestep.xExportOptionsPath := "";
       archivestep.xIPAExportDir := "";
       archivestep.xXcodebuildLog := archivestep.eoXcodebuildLog exportOut;
       archivestep.xIDEDistrubutionLogsDir := archivestep.eoIDEDistrubutionLogsDir exportOut |}
    w4 = (exportErr, w5) ->
  runStep w = (Some e, w5).
Proof.
  intros conf opts Hprocess Hdeps Harchive Hipa Hexport. subst opts conf.
  unfold archivestep.RunStep, archivestep.Run, state.bind, state.ret.
  rewrite Hprocess. cbv beta iota zeta. rewrite Hdeps. cbv beta iota zeta.
  rewrite Harchive. cbv beta iota zeta. rewrite Hipa. cbv beta iota zeta.
  unfold archivestep.outputOptsOf. cbn [archivestep.oArchivePath archivestep.oAppPath
    archivestep.oAppDSYMPaths archivestep.oFrameworkDSYMPaths archivestep.oExportOptionsPath
    archivestep.oIPAExportDir archivestep.oXcodebuildLog archivestep.oIDEDistrubutionLogsDir].
  now rewrite Hexport.
Qed.

(** X15. A failure of [EnsureDependencies] never ends [RunStep]: after two
    warnings the step runs with the output tool [xcodebuild], calls
    [ExportOutput] with what [Run] returned, and returns the error of [Run],
    or else that of [ExportOutput]. *)
Theorem RunStep_fallback w config w1 d w2 w3 w4 out runErr w5 exportErr w6 :
  process w = ((config, None), w1) ->
  EnsureDependencies (archivestep.OutputTool (archivestep.inputs config) =? "xcpretty")%string w1
    = (Some d, w2) ->
  log (archivestep.Warnf (Error d) []) w2 = (tt, w3) ->
  log (archivestep.Warnf "Switching to xcodebuild for output tool" []) w3 = (tt, w4) ->
  run (archivestep.runOptsOf config "xcodebuild") w4 = ((out, runErr), w5) ->
  ExportOutput (archivestep.outputOptsOf config out) w5 = (exportErr, w6) ->
  runStep w = (match runErr with Some e => Some e | None => exportErr end, w6).
Proof.
  intros Hprocess Hdeps Hwarn Hswitch Hrun Hexport.
  unfold archivestep.RunStep, state.bind, state.ret.
  rewrite Hprocess. cbv beta iota zeta. rewrite Hdeps. cbv beta iota zeta.
  rewrite Hwarn, Hswitch. cbv beta iota zeta. rewrite Hrun. cbv beta iota zeta.
  rewrite Hexport. now destruct runErr, exportErr.
Qed.

(** X16. [RunStep] returns no error only when the inputs were accepted, the
    archive was made, the IPA was exported and [ExportOutput] returned no
    error, having been called with the paths of the archive and of the
    export and with no log.  The output tool of both steps is that of the
    config, or [xcodebuild] when [EnsureDependencies] failed. *)
Theorem RunStep_success w w' :
  runStep w = (None, w') ->
  exists config w1 depErr w2 w3 archiveOut w4 exportOut w5,
    let conf := archivestep.inputs config in
    let tool := match depErr with
                | Some _ => "xcodebuild"
                | None => archivestep.OutputTool conf
                end in
    let opts := archivestep.runOptsOf config tool in
    process w = ((config, None), w1) /\
    EnsureDependencies (archivestep.OutputTool conf =? "xcpretty")%string w1 = (depErr, w2) /\
    (depErr = None -> w3 = w2) /\
    xcodeArchive (archivestep.archiveOptsOf opts) w3 = ((archiveOut, None), w4) /\
    xcodeIPAExport (archivestep.exportOptsOf opts archiveOut) w4 = ((exportOut, None), w5) /\
    ExportOutput
      {| archivestep.xOutputDir := archivestep.OutputDir conf;
         archivestep.xArtifactName := archivestep.ArtifactName conf;
         archivestep.xExportAllDsyms := archivestep.ExportAllDsyms conf;
         archivestep.xArchivePath := archivestep.aoArchivePath archiveOut;
         archivestep.xAppPath := archivestep.aoAppPath archiveOut;
         archivestep.xAppDSYMPaths := archivestep.aoAppDSYMPaths archiveOut;
         archivestep.xFrameworkDSYMPaths := archivestep.aoFrameworkDSYMPaths archiveOut;
         archivestep.xExportOptionsPath := archivestep.eoExportOptionsPath exportOut;
         archivestep.xIPAExportDir := archivestep.eoIPAExportDir exportOut;
         archivestep.xXcodebuildLog := "";
         archivestep.xIDEDistrubutionLogsDir := "" |} w5 = (None, w').
Proof.
  unfold archivestep.RunStep, archivestep.Run, state.bind, state.ret.
  destruct (process w) as [[config [e|]] w1] eqn:Hprocess; [discriminate|].
  cbv beta iota zeta.
  destruct (EnsureDependencies _ w1) as [depErr w2] eqn:Hdeps.
  destruct depErr as [d|]; cbv beta iota zeta.
  - destruct (log _ w2) as [[] v] eqn:Hwarn.
    destruct (log _ v) as [[] w3] eqn:Hswitch.
    destruct (xcodeArchive _ w3) as [[archiveOut [e|]] w4] eqn:Harchive; cbv beta iota zeta.
    { destruct (ExportOutput _ w4); discriminate. }
    destruct (xcodeIPAExport _ w4) as [[exportOut [e|]] w5] eqn:Hipa; cbv beta iota zeta.
    { destruct (ExportOutput _ w5); discriminate. }
    destruct (ExportOutput _ w5) as [[e|] w6] eqn:Hexport; [discriminate|].
    intros [= <-].
    exists config, w1, (Some d), w2, w3, archiveOut, w4, exportOut, w5.
    cbv zeta. repeat split; try assumption. discriminate.
  - destruct (xcodeArchive _ w2) as [[archiveOut [e|]] w4] eqn:Harchive; cbv beta iota zeta.
    { destruct (ExportOutput _ w4); discriminate. }
    destruct (xcodeIPAExport _ w4) as [[exportOut [e|]] w5] eqn:Hipa; cbv beta iota zeta.
    { destruct (ExportOutput _ w5); discriminate. }
    destruct (ExportOutput _ w5) as [[e|] w6] eqn:Hexport; [discriminate|].
    intros [= <-].
    exists config, w1, None, w2, w2, archiveOut, w4, exportOut, w5.
    cbv zeta. repeat split; assumption.
Qed.

End StepFacts.

Lemma ProcessInputs_config_witness :
  let config := fst (fst (scriptedProcessInputs allGood [])) in
  exists conf w0,
    called "Parse" (parsed allGood) [] = ((conf, None), w0) /\
    (archivestep.filepath_Ext (archivestep.ProjectPath conf) = ".xcodeproj" \/
     archivestep.filepath_Ext (archivestep.ProjectPath conf) = ".xcworkspace") /\
    (archivestep.minSupportedXcodeMajorVersion <= archivestep.XcodeMajorVersion config)%Z /\
    archivestep.ForceTeamID (archivestep.inputs config) = archivestep.ForceTeamID conf /\
    archivestep.ForceProvisioningProfileSpecifier (archivestep.inputs config)
      = archivestep.ForceProvisioningProfileSpecifier conf /\
    archivestep.CustomExportOptionsPlistContent (archivestep.inputs config)
      = trimSpace (archivestep.CustomExportOptionsPlistContent conf) /\
    (archivestep.ForceProvisioningProfileSpecifier (archivestep.inputs config) = "" \/
     archivestep.ForceProvisioningProfile (archivestep.inputs config) = "").
Proof.
  exact (ProcessInputs_config _ _ _ _ _ _ _ _ _ _ _ _ [] _ _
           (eq_refl : scriptedProcessInputs allGood []
                      = (fst (fst (scriptedProcessInputs allGood [])), None, inputsAccepted))).
Defined.

Lemma ProcessInputs_error_witness :
  fst (fst (scriptedProcessInputs oldXcode [])) = archivestep.zeroConfig.
Proof.
  exact (ProcessInputs_error _ _ _ _ _ _ _ _ _ _ _ _ [] _ _ _
           (eq_refl : scriptedProcessInputs oldXcode []
                      = (fst (fst (scriptedProcessInputs oldXcode [])),
                         Some (archivestep.Errorf
                                 "invalid xcode major version (%d), should not be less then min supported: %d"
                                 [archivestep.vInt 8; archivestep.vInt 9]),
                         ["Parse"; "ValidateIfDirExists"; "GetXcodeVersion"]))).
Defined.

Lemma Run_paths_or_logs_witness :
  let out :=
    fst (fst (scriptedRun exportFails (archivestep.runOptsOf archivestep.zeroConfig "xcodebuild")
                [])) in
  archivestep.oArchivePath out = "" /\ archivestep.oAppPath out = "" /\
  archivestep.oAppDSYMPaths out = slice.nil /\
  archivestep.oFrameworkDSYMPaths out = slice.nil /\
  archivestep.oExportOptionsPath out = "" /\ archivestep.oIPAExportDir out = "".
Proof.
  exact (Run_paths_or_logs _ _ _ _ [] _ (Some exitStatus65) _
           (eq_refl : scriptedRun exportFails
                        (archivestep.runOptsOf archivestep.zeroConfig "xcodebuild") []
                      = (_, Some exitStatus65, ["xcodeArchive"; "xcodeIPAExport"]))).
Defined.

Lemma RunStep_archive_failure_witness :
  scriptedRunStep archiveFails []
  = (Some exitStatus65,
     (inputsAccepted ++ ["EnsureDependencies"; "xcodeArchive"; "ExportOutput"])%list).
Proof.
  unfold scriptedRunStep.
  apply RunStep_archive_failure
    with (config := fst (fst (scriptedProcessInputs archiveFails [])))
         (w1 := inputsAccepted)
         (w2 := (inputsAccepted ++ ["EnsureDependencies"])%list)
         (archiveOut := failedArchive)
         (w3 := (inputsAccepted ++ ["EnsureDependencies"; "xcodeArchive"])%list)
         (exportErr := outputExported archiveFails);
    reflexivity.
Defined.

Lemma RunStep_export_failure_witness :
  scriptedRunStep exportFails []
  = (Some exitStatus65,
     (inputsAccepted
      ++ ["EnsureDependencies"; "xcodeArchive"; "xcodeIPAExport"; "ExportOutput"])%list).
Proof.
  unfold scriptedRunStep.
  apply RunStep_export_failure
    with (config := fst (fst (scriptedProcessInputs exportFails [])))
         (w1 := inputsAccepted)
         (w2 := (inputsAccepted ++ ["EnsureDependencies"])%list)
         (archiveOut := sampleArchive)
         (w3 := (inputsAccepted ++ ["EnsureDependencies"; "xcodeArchive"])%list)
         (exportOut := failedExport)
         (w4 := (inputsAccepted
                 ++ ["EnsureDependencies"; "xcodeArchive"; "xcodeIPAExport"])%list)
         (exportErr := None);
    reflexivity.
Defined.

Lemma RunStep_fallback_witness :
  scriptedRunStep withoutXcpretty []
  = (Some (archivestep.foreign "failed to copy the archive"),
     (inputsAccepted
      ++ ["EnsureDependencies"; "xcodeArchive"; "xcodeIPAExport"; "ExportOutput"])%list).
Proof.
  unfold scriptedRunStep.
  apply RunStep_fallback
    with (config := fst (fst (scriptedProcessInputs withoutXcpretty [])))
         (w1 := inputsAccepted)
         (d := archivestep.foreign "xcpretty is not installed")
         (w2 := (inputsAccepted ++ ["EnsureDependencies"])%list)
         (w3 := (inputsAccepted ++ ["EnsureDependencies"])%list)
         (w4 := (inputsAccepted ++ ["EnsureDependencies"])%list)
         (out := fst (fst (scriptedRun withoutXcpretty
                             (archivestep.runOptsOf
                                (fst (fst (scriptedProcessInputs withoutXcpretty [])))
                                "xcodebuild")
                             [])))
         (runErr := None)
         (w5 := (inputsAccepted
                 ++ ["EnsureDependencies"; "xcodeArchive"; "xcodeIPAExport"])%list)
         (exportErr := outputExported withoutXcpretty);
    reflexivity.
Defined.

Lemma RunStep_success_witness :
  exists config w1 depErr w2 w3 archiveOut w4 exportOut w5,
    let conf := archivestep.inputs config in
    let tool := match depErr with
                | Some _ => "xcodebuild"
                | None => archivestep.OutputTool conf
                end in
    let opts := archivestep.runOptsOf config tool in
    scriptedProcessInputs allGood [] = ((config, None), w1) /\
    called "EnsureDependencies" (dependencies allGood) w1 = (depErr, w2) /\
    (depErr = None -> w3 = w2) /\
    called "xcodeArchive" (archived allGood) w3 = ((archiveOut, None), w4) /\
    called "xcodeIPAExport" (exported allGood) w4 = ((exportOut, None), w5) /\
    called "ExportOutput" (outputExported allGood) w5
    = (None,
       (inputsAccepted
        ++ ["EnsureDependencies"; "xcodeArchive"; "xcodeIPAExport"; "ExportOutput"])%list).
Proof.
  exact (RunStep_success _ _ _ _ _ _ _ _ _ _ _ _ _ _ _ _ [] _
           (eq_refl : scriptedRunStep allGood [] = (None, _))).
Defined.

(** ** Certificates *)

Section PKCS12Facts.
Variables PrivateKey Certificate CertificateInfoModel : Type.
Variable pkcs12_DecodeAll :
  list Byte.byte -> string
  -> list PrivateKey * list (option Certificate) * option certificateutil.error.
Variable NewCertificateInfo : Certificate -> PrivateKey -> CertificateInfoModel.

Local Abbreviation collect :=
  (certificateutil.collect PrivateKey Certificate CertificateInfoModel NewCertificateInfo).
Local Abbreviation fromContent :=
  (certificateutil.CertificatesFromPKCS12Content PrivateKey Certificate CertificateInfoModel
     pkcs12_DecodeAll NewCertificateInfo).

Lemma collect_paired privateKeys certificates : forall i infos,
  (i + length certificates <= length privateKeys)%nat ->
  collect privateKeys i certificates (Some infos)
  = Some (Some (infos
                ++ pairedInfos NewCertificateInfo certificates (skipn i privateKeys))%list).
Proof.
  induction certificates as [|certificate rest IH]; intros i infos Hlen; cbn [length] in Hlen.
  - cbn. unfold pairedInfos. cbn. now rewrite app_nil_r.
  - destruct (nth_error privateKeys i) as [key|] eqn:Hkey.
    2: { apply nth_error_None in Hkey. lia. }
    assert (Hskip : skipn i privateKeys = key :: skipn (S i) privateKeys).
    { clear - Hkey. revert i Hkey.
      induction privateKeys as [|k ks IHk]; intros [|i] Hkey; try discriminate.
      - now injection Hkey as ->.
      - cbn in Hkey. cbn [skipn]. now apply IHk. }
    cbn [certificateutil.collect]. rewrite Hskip.
    destruct certificate as [c|].
    + rewrite Hkey. unfold slice.append. cbn [slice.elems]. rewrite IH by lia.
      unfold pairedInfos. cbn. now rewrite <- app_assoc.
    + rewrite IH by lia. reflexivity.
Qed.

(** X17. When the content decodes to as many private keys as certificates,
    and to one certificate at least, [CertificatesFromPKCS12Content]
    returns, without an error, the infos of the certificates that are not
    nil, in their order, each made with the private key at the index of its
    certificate. *)
Theorem CertificatesFromPKCS12Content_paired content password privateKeys certificates :
  pkcs12_DecodeAll content password = (privateKeys, certificates, None) ->
  length certificates = length privateKeys ->
  certificates <> [] ->
  fromContent content password
  = certificateutil.returned
      (Some (pairedInfos NewCertificateInfo certificates privateKeys)) None.
Proof.
  intros Hdecode Hlen Hsome. unfold certificateutil.CertificatesFromPKCS12Content.
  rewrite Hdecode, Hlen, Nat.eqb_refl. cbn [negb].
  destruct (Nat.eqb_spec (length privateKeys) 0) as [Hzero | _].
  - destruct certificates; [congruence | cbn in Hlen; lia].
  - unfold slice.empty. rewrite collect_paired by (cbn; lia). reflexivity.
Qed.

(** X18. [CertificatesFromPKCS12Content] never reads a private key out of
    range, whatever the content decodes to, and it returns a nil slice
    exactly when it returns an error. *)
Theorem CertificatesFromPKCS12Content_returns content password :
  exists infos err,
    fromContent content password = certificateutil.returned infos err /\
    (err = None <-> infos <> slice.nil).
Proof.
  unfold certificateutil.CertificatesFromPKCS12Content.
  destruct (pkcs12_DecodeAll content password) as [[privateKeys certificates] [e|]].
  { eexists _, _. split; [reflexivity|]. split; [discriminate | now intros []]. }
  destruct (Nat.eqb_spec (length certificates) (length privateKeys)) as [Hlen | _]; cbn [negb].
  2: { eexists _, _. split; [reflexivity|]. split; [discriminate | now intros []]. }
  destruct (Nat.eqb_spec (length certificates) 0) as [_ | _].
  { eexists _, _. split; [reflexivity|]. split; [discriminate | now intros []]. }
  unfold slice.empty. rewrite collect_paired by (cbn; lia).
  eexists _, _. split; [reflexivity|]. split; [discriminate | reflexivity].
Qed.

End PKCS12Facts.

Lemma CertificatesFromPKCS12Content_paired_witness :
  certificateutil.CertificatesFromPKCS12Content N N (N * N) decodeBytes pair
    [Byte.x07; Byte.x00; Byte.x09] "secret"
  = certificateutil.returned (Some [(7, 7); (9, 9)]%N) None.
Proof.
  apply (CertificatesFromPKCS12Content_paired N N (N * N) decodeBytes pair
           [Byte.x07; Byte.x00; Byte.x09] "secret"
           [7; 0; 9]%N [Some 7; None; Some 9]%N);
    [reflexivity | reflexivity | discriminate].
Defined.

Lemma substring_all s : substring 0 (String.length s) s = s.
Proof. induction s as [|c s IH]; cbn; [reflexivity | now rewrite IH]. Qed.

Lemma substring_tail s t : substring (String.length s) (String.length t) (s ++ t) = t.
Proof.
  induction s as [|c s IH]; cbn [String.length append].
  - apply substring_all.
  - cbn [substring]. exact IH.
Qed.

Lemma HasSuffix_append s t : certificateutil.strings_HasSuffix (s ++ t) t = true.
Proof.
  unfold certificateutil.strings_HasSuffix. rewrite length_append.
  replace (String.length s + String.length t - String.length t)%nat
    with (String.length s) by lia.
  rewrite substring_tail, String.eqb_refl, andb_true_r.
  apply Nat.leb_le. lia.
Qed.

Lemma prefix_newline s :
  strings.HasPrefix s certificateutil.newline = true -> exists t, s = String LF t.
Proof.
  unfold strings.HasPrefix, certificateutil.newline.
  destruct s as [|a t]; cbn [prefix]; [discriminate|].
  destruct (ascii_dec LF a) as [<- | _]; [eauto | discriminate].
Qed.

Lemma newline_prefix t : strings.HasPrefix (String LF t) certificateutil.newline = true.
Proof.
  unfold strings.HasPrefix, certificateutil.newline. cbn [prefix].
  destruct (ascii_dec LF LF); [now destruct t | congruence].
Qed.

Lemma framed_frame certificateContent :
  strings.HasPrefix (certificateutil.framed certificateContent) certificateutil.newline = true
  /\ certificateutil.strings_HasSuffix (certificateutil.framed certificateContent)
       certificateutil.newline = true.
Proof.
  unfold certificateutil.framed.
  assert (Hprefix :
    strings.HasPrefix
      (if negb (strings.HasPrefix certificateContent certificateutil.newline)
       then certificateutil.newline ++ certificateContent else certificateContent)
      certificateutil.newline = true).
  { destruct (strings.HasPrefix certificateContent _) eqn:Hp; cbn [negb]; [exact Hp|].
    apply newline_prefix. }
  destruct (prefix_newline _ Hprefix) as [t ->].
  destruct (certificateutil.strings_HasSuffix (String LF t) _) eqn:Hs; cbn [negb].
  - split; [apply newline_prefix | exact Hs].
  - split; [apply newline_prefix | apply HasSuffix_append].
Qed.

Section FindCertificateFacts.
Variable FindAllString : string -> slice.t string.

Local Abbreviation normalizeOut := (certificateutil.normalizeFindCertificateOut FindAllString).

Lemma framed_all matches : forall contents,
  fold_left (fun certificateContents certificateContent =>
               slice.append certificateContents (certificateutil.framed certificateContent))
    matches (Some contents)
  = Some (contents ++ map certificateutil.framed matches)%list.
Proof.
  induction matches as [|m rest IH]; intros contents; cbn [fold_left map].
  - now rewrite app_nil_r.
  - unfold slice.append at 2. cbn [slice.elems]. rewrite IH, <- app_assoc. reflexivity.
Qed.

Ltac frame pre post :=
  exists pre, post; cbn [append]; rewrite ?append_nil_r, ?append_assoc;
  repeat split; auto; try discriminate; try congruence.

Lemma framed_framedAs found : framedAs found (certificateutil.framed found).
Proof.
  unfold framedAs, certificateutil.framed.
  destruct (strings.HasPrefix found certificateutil.newline) eqn:Hprefix; cbn [negb].
  - destruct (certificateutil.strings_HasSuffix found certificateutil.newline) eqn:Hsuffix;
      cbn [negb]; [frame "" "" | frame "" certificateutil.newline].
  - destruct (certificateutil.strings_HasSuffix (certificateutil.newline ++ found)
                certificateutil.newline) eqn:Hsuffix;
      cbn [negb]; [frame certificateutil.newline "" |
                   frame certificateutil.newline certificateutil.newline].
Qed.

Lemma framed_each founds : Forall2 framedAs founds (map certificateutil.framed founds).
Proof.
  induction founds as [|found founds IH]; cbn [map]; constructor;
    [apply framed_framedAs | exact IH].
Qed.


(** X19. [normalizeFindCertificateOut] returns an error and a nil slice
    exactly when the pattern finds nothing; else it returns one content for
    each match, in their order: the match itself, with a line feed before
    it when it does not start with one and a line feed after it when it
    does not end with one, so that every content starts with a line feed
    and ends with one. *)
Theorem normalizeFindCertificateOut_framed out :
  let matches := slice.elems (FindAllString out) in
  (matches = [] ->
     normalizeOut out
     = (slice.nil, Some (certificateutil.Errorf "no certificates found in: %s" [out]))) /\
  (matches <> [] ->
     exists contents,
       normalizeOut out = (Some contents, None) /\
       Forall2 framedAs matches contents /\
       length contents = length matches /\
       Forall (fun content =>
                 strings.HasPrefix content certificateutil.newline = true /\
                 certificateutil.strings_HasSuffix content certificateutil.newline = true)
         contents).
Proof.
  intros matches. subst matches. unfold certificateutil.normalizeFindCertificateOut, slice.len.
  split; intros Hmatches.
  - now rewrite Hmatches.
  - destruct (slice.elems (FindAllString out)) as [|m rest] eqn:Helems; [congruence|].
    cbn [length Nat.eqb]. unfold slice.empty. rewrite framed_all. cbn [app].
    eexists. split; [reflexivity|].
    split; [apply framed_each|].
    split; [now rewrite length_map|].
    apply Forall_map, Forall_forall. intros content _. apply framed_frame.
Qed.

End FindCertificateFacts.

Lemma normalizeFindCertificateOut_framed_witness :
  slice.elems (certificateBlocks twoCertificates)
  = ["-----BEGIN CERTIFICATE-----" ++ String LF ("MIIB" ++ String LF
       "-----END CERTIFICATE-----");
     "-----BEGIN CERTIFICATE-----" ++ String LF ("MIIC" ++ String LF
       "-----END CERTIFICATE-----")] /\
  exists contents,
    certificateutil.normalizeFindCertificateOut certificateBlocks twoCertificates
    = (Some contents, None) /\
    Forall2 framedAs (slice.elems (certificateBlocks twoCertificates)) contents /\
    length contents = length (slice.elems (certificateBlocks twoCertificates)) /\
    Forall (fun content =>
              strings.HasPrefix content certificateutil.newline = true /\
              certificateutil.strings_HasSuffix content certificateutil.newline = true)
      contents.
Proof.
  split; [reflexivity|].
  apply (proj2 (normalizeFindCertificateOut_framed certificateBlocks twoCertificates)).
  discriminate.
Defined.

(** ** findIDEDistrubutionLogsPath and a line the scanner refuses *)

Lemma tokens_until before long after :
  Forall (fun l => bufio.fits l = true) before ->
  bufio.fits long = false ->
  bufio.tokens (before ++ long :: after) = (map bufio.dropCR before, Some bufio.ErrTooLong).
Proof.
  intros Hbefore Hlong. induction Hbefore as [|l before Hl _ IH]; cbn [app bufio.tokens map].
  - now rewrite Hlong.
  - now rewrite Hl, IH.
Qed.

Lemma pieces_cut a rest :
  hasByte LF a = false -> bufio.pieces (a ++ String LF rest) = a :: bufio.pieces rest.
Proof.
  induction a as [|c a IH]; cbn [append bufio.pieces hasByte].
  - intros _. now rewrite Ascii.eqb_refl.
  - intros H. apply orb_false_iff in H as [Hc Ha]. now rewrite Hc, IH.
Qed.

Lemma rawLines_cut a rest :
  hasByte LF a = false -> bufio.rawLines (a ++ String LF rest) = a :: bufio.rawLines rest.
Proof.
  intros H. unfold bufio.rawLines. rewrite pieces_cut by exact H.
  rewrite (pieces_head rest). reflexivity.
Qed.

(** X3. When the output has a line of 65536 bytes or more,
    [findIDEDistrubutionLogsPath] reads the lines before the first such
    line and no other: it returns, without an error, the path of the first
    of them that matches the pattern, and when none of them matches it
    returns the empty path with the error of the scanner, whatever the
    lines after the long one are. *)
Theorem findIDEDistrubutionLogsPath_long_line output before long after :
  bufio.rawLines output = (before ++ long :: after)%list ->
  Forall (fun l => (N.of_nat (String.length l) < 65536)%N) before ->
  (65536 <= N.of_nat (String.length long))%N ->
  let read := map bufio.dropCR before in
  (forall pre line post path,
     read = (pre ++ line :: post)%list ->
     Forall (fun l => logPath l = None) pre ->
     logPath line = Some path ->
     main.findIDEDistrubutionLogsPath output = (path, None)) /\
  (Forall (fun l => logPath l = None) read ->
     main.findIDEDistrubutionLogsPath output = ("", Some bufio.ErrTooLong)).
Proof.
  intros Hlines Hbefore Hlong read. subst read.
  unfold main.findIDEDistrubutionLogsPath, bufio.Scan. rewrite Hlines.
  rewrite tokens_until.
  - split.
    + intros pre line post path -> Hpre Hline.
      now rewrite (firstMatch_first _ _ _ _ Hpre Hline).
    + intros Hnone. now rewrite (firstMatch_none _ Hnone).
  - eapply Forall_impl; [|exact Hbefore]. intros l Hl. now apply N.ltb_lt.
  - apply N.ltb_ge. exact Hlong.
Qed.

Lemma findIDEDistrubutionLogsPath_long_line_witness :
  main.findIDEDistrubutionLogsPath longLineAfterMatch = ("/tmp/logs/xyz", None) /\
  main.findIDEDistrubutionLogsPath longLineBeforeMatch = ("", Some bufio.ErrTooLong).
Proof.
  assert (Hlong : hasByte LF oversized = false) by (vm_compute; reflexivity).
  split.
  - refine (proj1 (findIDEDistrubutionLogsPath_long_line longLineAfterMatch
                     [bundleLine "/tmp/logs/xyz"] oversized [bundleLine "/tmp/logs/later"]
                     _ _ _)
              [] (bundleLine "/tmp/logs/xyz") [] "/tmp/logs/xyz" eq_refl _ _).
    + unfold longLineAfterMatch. rewrite rawLines_cut by reflexivity.
      rewrite rawLines_cut by exact Hlong. reflexivity.
    + repeat constructor.
    + vm_compute. discriminate.
    + constructor.
    + vm_compute. reflexivity.
  - refine (proj2 (findIDEDistrubutionLogsPath_long_line longLineBeforeMatch
                     ["** EXPORT FAILED **"] oversized [bundleLine "/tmp/logs/later"]
                     _ _ _) _).
    + unfold longLineBeforeMatch. rewrite rawLines_cut by reflexivity.
      rewrite rawLines_cut by exact Hlong. reflexivity.
    + repeat constructor.
    + vm_compute. discriminate.
    + repeat constructor.
Defined.
